(** * Base44 backend: tenant guard, ingestion, KPI engine and alert evaluator

    A shallow embedding of the Python services and FastAPI handlers of the
    Base44 backend, with the properties its specification states about them.

    Conventions.
    - A Python [str] is a [string]: the text is taken as ASCII, on which
      [lower] and [strip] act as defined here.
    - A Python [float] is a binary64 [float] of [PrimFloat]; [<], [-] and
      [abs] are the IEEE operations.
    - A [datetime] is an integer timestamp.
    - Python builtins and third-party calls the repository does not define
      ([float()], [datetime.fromisoformat], [round], the csv reader, the
      codecs, numpy, scikit-learn, Prophet) are Section variables, gathered
      in the record [Api.Runtime] for the request handlers; a call that may
      raise returns an [option] or a [result].
    - [app/core/security.py], [app/core/database.py] and [app/models/user.py]
      are not among the sources: the guard [verify_tenant_access] and the
      password and token functions are variables, the current user is an
      argument of each handler, and the session is the store [DB]. *)

From Stdlib Require Import ZArith String Ascii List Bool Lia.
From Stdlib Require Import Floats Uint63 DecimalString DecimalZ.
Import ListNotations.

Local Open Scope string_scope.
Local Open Scope Z_scope.

Set Implicit Arguments.
Set Warnings "-inexact-float".

(* ================================================================== *)
(** ** Python builtins on strings *)

Module Py.

(** [c in s] for a character. *)
Fixpoint has_char (c : ascii) (s : string) : bool :=
  match s with
  | EmptyString => false
  | String a s' => Ascii.eqb a c || has_char c s'
  end.

(** [sub in s]. *)
Fixpoint contains (sub s : string) : bool :=
  String.prefix sub s ||
  match s with
  | EmptyString => false
  | String _ s' => contains sub s'
  end.

(** [s.split(sep)] for a non-empty [sep]: left to right, occurrences do
    not overlap.  [skip] counts the characters of an occurrence that are
    still to be dropped. *)
Fixpoint split_aux (sep s : string) (skip : nat) : list string :=
  match s with
  | EmptyString => [EmptyString]
  | String c s' =>
      match skip with
      | S k => split_aux sep s' k
      | O =>
          if String.prefix sep s
          then EmptyString :: split_aux sep s' (Nat.pred (String.length sep))
          else match split_aux sep s' O with
               | h :: t => String c h :: t
               | [] => [String c EmptyString]
               end
      end
  end.

Definition split (sep s : string) : list string := split_aux sep s O.

(** [str.isspace] on ASCII: blank, tab, newline, vertical tab, form feed,
    carriage return and the four separators 28..31. *)
Definition is_space (c : ascii) : bool :=
  let n := nat_of_ascii c in
  (Nat.eqb n 32 || (Nat.leb 9 n && Nat.leb n 13) || (Nat.leb 28 n && Nat.leb n 31))%bool.

(** The blanks [int()] skips around an ASCII literal: the six of C's
    [isspace]. *)
Definition is_blank (c : ascii) : bool :=
  let n := nat_of_ascii c in
  (Nat.eqb n 32 || (Nat.leb 9 n && Nat.leb n 13))%bool.

Fixpoint lstrip_of (space : ascii -> bool) (s : string) : string :=
  match s with
  | EmptyString => EmptyString
  | String c s' => if space c then lstrip_of space s' else s
  end.

Fixpoint rstrip_of (space : ascii -> bool) (s : string) : string :=
  match s with
  | EmptyString => EmptyString
  | String c s' =>
      match rstrip_of space s' with
      | EmptyString => if space c then EmptyString else String c EmptyString
      | r => String c r
      end
  end.

(** [s.strip()]. *)
Definition strip (s : string) : string := rstrip_of is_space (lstrip_of is_space s).

Definition lower_char (c : ascii) : ascii :=
  let n := nat_of_ascii c in
  if (Nat.leb 65 n && Nat.leb n 90)%bool then ascii_of_nat (n + 32) else c.

(** [s.lower()]. *)
Fixpoint lower (s : string) : string :=
  match s with
  | EmptyString => EmptyString
  | String c s' => String (lower_char c) (lower s')
  end.

(** [s.replace(c, by)] for a one-character pattern. *)
Fixpoint replace_char (c : ascii) (by_ : string) (s : string) : string :=
  match s with
  | EmptyString => EmptyString
  | String a s' =>
      if Ascii.eqb a c then by_ ++ replace_char c by_ s'
      else String a (replace_char c by_ s')
  end.

(** [x in xs] for a list of strings. *)
Definition mem (x : string) (xs : list string) : bool :=
  existsb (String.eqb x) xs.

(** [str(n)] of an integer. *)
Definition str (n : Z) : string := NilZero.string_of_int (Z.to_int n).

Definition is_digit (c : ascii) : bool :=
  let n := nat_of_ascii c in (Nat.leb 48 n && Nat.leb n 57)%bool.

(** The digits of [digit ("_"? digit)*], without the underscores; [None]
    when the text has another shape.  [after_digit] tells whether the
    previous character was a digit. *)
Fixpoint digits_of (after_digit : bool) (s : string) : option string :=
  match s with
  | EmptyString => if after_digit then Some EmptyString else None
  | String c s' =>
      if is_digit c then option_map (String c) (digits_of true s')
      else if (Ascii.eqb c "_" && after_digit)%bool then
        match s' with
        | EmptyString => None
        | String _ _ => digits_of false s'
        end
      else None
  end.

Definition unsigned_literal (s : string) : option Z :=
  match digits_of false s with
  | Some ds => option_map Z.of_uint (NilEmpty.uint_of_string ds)
  | None => None
  end.

(** [int(s)] in base 10: blanks around the literal, a sign, digits with
    single underscores between them; [None] is [ValueError]. *)
Definition int_literal (s : string) : option Z :=
  match rstrip_of is_blank (lstrip_of is_blank s) with
  | String "-" body => option_map Z.opp (unsigned_literal body)
  | String "+" body => unsigned_literal body
  | body => unsigned_literal body
  end.

(** [int(s)].  The first case reads the literals [str] prints, which are
    literals of [int_literal] as well. *)
Definition int (s : string) : option Z :=
  match NilZero.int_of_string s with
  | Some d => Some (Z.of_int d)
  | None => int_literal s
  end.

(** [random.uniform(a, b)] is [a + (b - a) * random.random()]; [r] is
    the number [random.random()] hands out. *)
Definition uniform (r a b : float) : float := (a + (b - a) * r)%float.

End Py.

(* ================================================================== *)
(** ** Python dictionaries with string keys, in insertion order *)

Module Dict.

Definition t (V : Type) := list (string * V).

Fixpoint get {V} (k : string) (d : t V) : option V :=
  match d with
  | [] => None
  | (k', v) :: d' => if String.eqb k k' then Some v else get k d'
  end.

(** [d[k] = v]: an existing key keeps its position. *)
Fixpoint set {V} (k : string) (v : V) (d : t V) : t V :=
  match d with
  | [] => [(k, v)]
  | (k', v') :: d' =>
      if String.eqb k k' then (k, v) :: d' else (k', v') :: set k v d'
  end.

(** [k in d]. *)
Definition mem {V} (k : string) (d : t V) : bool :=
  match get k d with Some _ => true | None => false end.

Definition keys {V} (d : t V) : list string := map fst d.

End Dict.

(* ================================================================== *)
(** ** The entities, with the fields the services and handlers use

    The records follow the constructor calls and the attribute accesses of
    the services and handlers, which is also the schema the response models
    of [app/api] declare.  The classes of [app/models] name some of these
    columns differently: [Models] lists what each class declares, and
    [Mapped] gives the services and handlers on those classes, where a
    keyword or an attribute the class does not have raises.  The
    definitions before [Models] are the services and handlers with every
    attribute they address in place; they carry the properties that do not
    depend on which of their writes and answers come about on the classes:
    the isolation of the tenants, the frame of a request, the guard before
    the lookup, and the functions that touch no object of a class. *)

Definition datetime := Z.

(** A JSON document whose shape the handlers do not look into: what a
    collaborating service hands back. *)
Definition document := string.

(** One parsed CSV row. *)
Definition Row := Dict.t string.

(** A value of a normalized field: [None], a [str], a [float] or a [bool]. *)
Inductive pyval :=
| PNone
| PStr (s : string)
| PFloat (f : float)
| PBool (b : bool).

Module Tenant.
Record t := { id : Z; name : string; plan : string }.
End Tenant.

Module User.
Record t := {
  id : Z;
  tenant_id : Z;
  email : string;
  role : string;
  hashed_password : string
}.
End User.

Module Connector.
(** [config_json] with the keys the CSV service reads; an absent key is
    [None]. *)
Record config := {
  delimiter : option string;
  has_header : option bool;
  encoding : option string;
  required_columns : option (list string)
}.
Record t := {
  id : Z;
  tenant_id : Z;
  type : string;
  credentials_encrypted : option string;
  config_json : config;
  last_sync_at : option datetime;
  created_at : option datetime
}.
End Connector.

Module RawIngest.
Inductive metadata :=
| StoredMeta (file_type : string) (record_count : nat)
             (columns : list string) (processed_at : string)
| UploadMeta (file_name : string) (file_size : Z)
             (record_count : nat) (processed_at : string)
| SyncMeta (endpoint : string) (total : nat) (has_more : bool)
           (sync_timestamp : string).
Record payload := { data : list Row; meta : metadata }.
Record t := {
  id : Z;
  tenant_id : Z;
  connector_id : Z;
  payload_json : payload
}.
End RawIngest.

Module NormalizedRecord.
Record source_refs := {
  raw_ingest_id : Z;
  row_index : nat;
  original_data : Row
}.
Record t := {
  tenant_id : Z;
  entity_type : string;
  canonical_json : Dict.t pyval;
  source_refs_json : source_refs;
  created_at : option datetime
}.
End NormalizedRecord.

Module KPIDefinition.
Record t := {
  id : Z;
  tenant_id : Z;
  name : string;
  vertical : string;
  formula_json : Dict.t string;
  window : string
}.
End KPIDefinition.

Module KPIValue.
Record provenance_t := {
  source_records : nat;
  calculation_method : string;
  data_quality : string;
  formula : string;
  prov_vertical : string
}.
Record t := {
  id : Z;
  tenant_id : Z;
  kpi_id : Z;
  timestamp : datetime;
  value : float;
  provenance : provenance_t
}.
End KPIValue.

Module Alert.
(** A threshold rule of the rule table. *)
Record rule := {
  rule_name : string;
  kpi_name : string;
  condition : string;
  rule_severity : string;
  description : string
}.
Inductive rule_json_t :=
| ThresholdRule (r : rule)
| AnomalyRule (name type_ severity_ description_ : string).
Inductive details_t :=
| ThresholdDetails (triggered_value : float) (threshold kpi_name_ : string)
                   (timestamp : string)
| AnomalyDetails (anomaly_type : string) (anomaly_score detected_value : float)
                 (expected_range : float * float) (timestamp : string)
| MockDetails (triggered_value : float) (threshold kpi_name_ : string)
              (timestamp : string).
Record t := {
  id : Z;
  tenant_id : Z;
  kpi_id : option Z;
  rule_json : rule_json_t;
  severity : string;
  status : string;
  triggered_at : option datetime;
  resolved_at : option datetime;
  details : details_t;
  acknowledged : bool;
  acknowledged_by : option Z;
  acknowledged_at : option datetime
}.
End Alert.

Module Task.
Record t := {
  id : Z;
  tenant_id : Z;
  title : string;
  status : string;
  assigned_to : option string;
  created_at : datetime
}.
End Task.

Module Prediction.
Record t := {
  id : Z;
  tenant_id : Z;
  model_name : string;
  input_snapshot : document;
  output_json : document;
  created_at : option datetime
}.
End Prediction.

(** An object built by a service and not yet added to the session has id
    [0]; the store numbers it when it is added. *)
Definition unsaved : Z := 0.

(* ================================================================== *)
(** ** services/alert_engine.py *)

Module AlertEngine.

Section Evaluate.

(** [float(s)]; [None] when it raises [ValueError]. *)
Variable py_float : string -> option float.

(** [condition.split(op)[1].strip()] parsed as a float; every exception
    is caught by the bare [except] of [_evaluate_condition]. *)
Definition threshold_after (op condition : string) : option float :=
  match nth_error (Py.split op condition) 1 with
  | Some rhs => py_float (Py.strip rhs)
  | None => None
  end.

Definition _evaluate_condition (value : float) (condition : string) : bool :=
  if Py.contains "<" condition then
    match threshold_after "<" condition with
    | Some threshold => PrimFloat.ltb value threshold
    | None => false
    end
  else if Py.contains ">" condition then
    match threshold_after ">" condition with
    | Some threshold => PrimFloat.ltb threshold value
    | None => false
    end
  else if Py.contains "==" condition then
    match threshold_after "==" condition with
    | Some threshold =>
        PrimFloat.ltb (PrimFloat.abs (PrimFloat.sub value threshold)) 0.01%float
    | None => false
    end
  else false.

End Evaluate.

Definition mk_rule (n k c sv d : string) : Alert.rule :=
  {| Alert.rule_name := n; Alert.kpi_name := k; Alert.condition := c;
     Alert.rule_severity := sv; Alert.description := d |}.

(** [_load_alert_rules]. *)
Definition alert_rules : Dict.t (list Alert.rule) :=
  [ ("marketing_agency",
     [ mk_rule "Low Conversion Rate Alert" "lead_conversion_rate" "value < 10"
               "high" "Lead conversion rate dropped below 10%";
       mk_rule "High Cost Per Lead Alert" "cost_per_lead" "value > 50"
               "medium" "Cost per lead exceeded $50";
       mk_rule "Revenue Drop Alert" "monthly_revenue" "value < 30000"
               "high" "Monthly revenue dropped below $30,000";
       mk_rule "Lead Quality Decline" "lead_quality_score" "value < 6.0"
               "medium" "Lead quality score below 6.0" ]);
    ("urgent_clinic",
     [ mk_rule "Long Wait Time Alert" "average_wait_time" "value > 60"
               "high" "Average wait time exceeded 60 minutes";
       mk_rule "Low Patient Volume Alert" "patient_volume" "value < 30"
               "medium" "Daily patient volume below 30";
       mk_rule "High No-Show Rate Alert" "no_show_rate" "value > 20"
               "medium" "No-show rate exceeded 20%";
       mk_rule "Low Provider Utilization" "provider_utilization" "value < 60"
               "low" "Provider utilization below 60%" ]);
    ("local_police",
     [ mk_rule "High Incident Volume Alert" "incident_volume" "value > 25"
               "high" "Daily incident volume exceeded 25";
       mk_rule "Slow Response Time Alert" "average_response_time" "value > 10"
               "high" "Average response time exceeded 10 minutes";
       mk_rule "Low Resolution Rate Alert" "case_resolution_rate" "value < 70"
               "medium" "Case resolution rate below 70%";
       mk_rule "Low Community Satisfaction" "community_satisfaction" "value < 6.0"
               "medium" "Community satisfaction below 6.0" ]) ].

(** [name.lower().replace(" ", "_")]. *)
Definition normalized_name (name : string) : string :=
  Py.replace_char " " "_" (Py.lower name).

(** The columns an [Alert(...)] call leaves to their defaults. *)
Definition new_alert (tenant : Z) (kpi : option Z) (rj : Alert.rule_json_t)
    (sev : string) (d : Alert.details_t) : Alert.t :=
  {| Alert.id := unsaved; Alert.tenant_id := tenant; Alert.kpi_id := kpi;
     Alert.rule_json := rj; Alert.severity := sev; Alert.status := "active";
     Alert.triggered_at := None; Alert.resolved_at := None;
     Alert.details := d; Alert.acknowledged := false;
     Alert.acknowledged_by := None; Alert.acknowledged_at := None |}.

(** One anomaly as the detector reports it. *)
Record anomaly := {
  a_type : string;
  a_score : float;
  a_value : float;
  a_expected_range : float * float;
  a_timestamp : string;
  a_method : string
}.

Section Engine.

Variable py_float : string -> option float.
(** [datetime.isoformat]. *)
Variable isoformat : datetime -> string.
(** The three detection passes of [MockAnomalyDetector], which rest on
    numpy and on scikit-learn's [IsolationForest]. *)
Variable _detect_z_score_anomalies : list float -> list datetime -> list anomaly.
Variable _detect_isolation_forest_anomalies : list float -> list datetime -> list anomaly.
Variable _detect_trend_anomalies : list float -> list datetime -> list anomaly.

Definition check_kpi_alerts (kpi_value : KPIValue.t)
    (kpi_definition : KPIDefinition.t) : list Alert.t :=
  let vertical := KPIDefinition.vertical kpi_definition in
  let rules := match Dict.get vertical alert_rules with
               | Some rs => rs
               | None => []
               end in
  flat_map
    (fun rule =>
       if (String.eqb (Alert.kpi_name rule)
             (normalized_name (KPIDefinition.name kpi_definition))
           && _evaluate_condition py_float (KPIValue.value kpi_value)
                (Alert.condition rule))%bool
       then [ new_alert (KPIValue.tenant_id kpi_value)
                (Some (KPIDefinition.id kpi_definition))
                (Alert.ThresholdRule rule)
                (Alert.rule_severity rule)
                (Alert.ThresholdDetails (KPIValue.value kpi_value)
                   (Alert.condition rule)
                   (KPIDefinition.name kpi_definition)
                   (isoformat (KPIValue.timestamp kpi_value))) ]
       else [])
    rules.

(** [MockAnomalyDetector.detect_anomalies]. *)
Definition detector_detect_anomalies (values : list float)
    (timestamps : list datetime) : list anomaly :=
  if (length values <? 10)%nat then []
  else _detect_z_score_anomalies values timestamps
       ++ _detect_isolation_forest_anomalies values timestamps
       ++ _detect_trend_anomalies values timestamps.

(** [MockAlertEngine.detect_anomalies]. *)
Definition detect_anomalies (kpi_values : list KPIValue.t)
    (kpi_definition : KPIDefinition.t) : list Alert.t :=
  if (length kpi_values <? 10)%nat then []
  else
    let values := map KPIValue.value kpi_values in
    let timestamps := map KPIValue.timestamp kpi_values in
    let anomalies := detector_detect_anomalies values timestamps in
    map (fun a =>
           new_alert (KPIDefinition.tenant_id kpi_definition)
             (Some (KPIDefinition.id kpi_definition))
             (Alert.AnomalyRule "Anomaly Detected" "anomaly" "medium"
                ("Anomaly detected in " ++ KPIDefinition.name kpi_definition))
             "medium"
             (Alert.AnomalyDetails (a_type a) (a_score a) (a_value a)
                (a_expected_range a) (a_timestamp a)))
        anomalies.

(** [generate_mock_alerts]; [rnd n] is the [n]-th number that
    [random.random()] hands out during the call. *)
Fixpoint mock_alerts_from (rnd : nat -> float) (now : datetime)
    (tenant_id : Z) (rules : list Alert.rule) (n : nat) : list Alert.t :=
  match rules with
  | [] => []
  | rule :: rest =>
      if PrimFloat.ltb (rnd n) 0.3%float then
        let triggered :=
          if Py.contains "conversion" (Alert.kpi_name rule)
          then Py.uniform (rnd (S n)) 5 15
          else Py.uniform (rnd (S n)) 20 80 in
        new_alert tenant_id None (Alert.ThresholdRule rule)
          (Alert.rule_severity rule)
          (Alert.MockDetails triggered (Alert.condition rule)
             (Alert.kpi_name rule) (isoformat now))
        :: mock_alerts_from rnd now tenant_id rest (S (S n))
      else mock_alerts_from rnd now tenant_id rest (S n)
  end.

Definition generate_mock_alerts (rnd : nat -> float) (now : datetime)
    (tenant_id : Z) (vertical : string) : list Alert.t :=
  let rules := match Dict.get vertical alert_rules with
               | Some rs => rs
               | None => []
               end in
  mock_alerts_from rnd now tenant_id rules 0.

End Engine.

End AlertEngine.

(* ================================================================== *)
(** ** Results of calls that may raise *)

Inductive result (A : Type) :=
| Ok (a : A)
| Raise (msg : string).
Arguments Ok {A} a.
Arguments Raise {A} msg.

Definition bind {A B} (r : result A) (k : A -> result B) : result B :=
  match r with
  | Ok a => k a
  | Raise m => Raise m
  end.

Notation "'let?' x ':=' r 'in' k" := (bind r (fun x => k))
  (at level 10, x name, r at level 100, k at level 200).

(* ================================================================== *)
(** ** services/csv_connector.py *)

Module CSVConnectorService.

Definition supported_delimiters : list string := [","; ";"; String "009" EmptyString; "|"].
Definition max_file_size : Z := 10 * 1024 * 1024.

(** A row as [csv.DictReader] yields it: the key is [None] for the fields
    beyond the header, the value is [None] for a missing field. *)
Definition reader_row := list (option string * option string).

Inductive upload_result (S : Type) :=
| UploadOk (records_processed : nat) (raw_ingest_id : Z)
           (mapping_suggestions : S) (sample_data : list Row)
| UploadFailed (error : string).
Arguments UploadFailed {S} error.

Inductive validation :=
| Valid (record_count : nat) (columns : list string) (sample_row : Row)
| Invalid (error : string).

Record mapping_config := { mappings : option (Dict.t string) }.

Section Service.

(** [bytes.decode(encoding)]. *)
Variable decode : string -> list Byte.byte -> result string.
(** [csv.DictReader(io.StringIO(text), delimiter=delimiter)], read to
    the end. *)
Variable DictReader : string -> string -> result (list reader_row).
(** What [llm_service.suggest_field_mapping] returns. *)
Variable suggestions : Type.
Variable empty_suggestions : suggestions.
Variable suggest_field_mapping : string -> string -> Row -> result suggestions.
(** [str(d)] of a row. *)
Variable repr_row : Row -> string.
Variable py_float : string -> option float.
(** [datetime.fromisoformat]; [None] when it raises. *)
Variable fromisoformat : string -> option datetime.
Variable isoformat : datetime -> string.

Definition clean_row (row : reader_row) : Row :=
  fold_left
    (fun cleaned_row kv =>
       match fst kv with
       | None => cleaned_row
       | Some EmptyString => cleaned_row
       | Some key =>
           let cleaned_key := Py.strip key in
           let cleaned_value :=
             match snd kv with
             | None => EmptyString
             | Some EmptyString => EmptyString
             | Some value => Py.strip value
             end in
           Dict.set cleaned_key cleaned_value cleaned_row
       end)
    row [].

Definition _parse_csv_content (file_content : list Byte.byte)
    (config : Connector.config) : result (list Row) :=
  let delimiter := match Connector.delimiter config with
                   | Some d => d | None => "," end in
  let encoding := match Connector.encoding config with
                  | Some e => e | None => "utf-8" end in
  match decode encoding file_content with
  | Raise e => Raise ("Failed to parse CSV: " ++ e)
  | Ok text_content =>
      match DictReader delimiter text_content with
      | Raise e => Raise ("Failed to parse CSV: " ++ e)
      | Ok rows =>
          Ok (filter (fun r => match r with [] => false | _ => true end)
                (map clean_row rows))
      end
  end.

Definition _store_raw_data (csv_data : list Row) (connector : Connector.t)
    (tenant_id : Z) (now : datetime) : RawIngest.t :=
  {| RawIngest.id := unsaved;
     RawIngest.tenant_id := tenant_id;
     RawIngest.connector_id := Connector.id connector;
     RawIngest.payload_json :=
       {| RawIngest.data := csv_data;
          RawIngest.meta :=
            RawIngest.StoredMeta "csv" (length csv_data)
              (match csv_data with r :: _ => Dict.keys r | [] => [] end)
              (isoformat now) |} |}.

Definition any_in (indicators : list string) (text : string) : bool :=
  existsb (fun indicator => Py.contains indicator text) indicators.

Definition _detect_vertical (sample_data : Row) (connector : Connector.t) : string :=
  let text := Py.lower (repr_row sample_data) in
  if any_in ["email"; "lead"; "campaign"; "conversion"; "source"] text
  then "marketing_agency"
  else if any_in ["patient"; "visit"; "diagnosis"; "insurance"; "provider"] text
  then "urgent_clinic"
  else if any_in ["incident"; "officer"; "suspect"; "case"; "crime"] text
  then "local_police"
  else "marketing_agency".

Definition _generate_mapping_suggestions (csv_data : list Row)
    (connector : Connector.t) (tenant_id : Z) : result suggestions :=
  match csv_data with
  | [] => Ok empty_suggestions
  | sample_data :: _ =>
      let vertical := _detect_vertical sample_data connector in
      suggest_field_mapping "csv" vertical sample_data
  end.

Definition process_csv_upload (file_content : list Byte.byte)
    (connector : Connector.t) (tenant_id : Z) (now : datetime)
    : upload_result suggestions :=
  let attempt :=
    let? csv_data := _parse_csv_content file_content (Connector.config_json connector) in
    let raw_ingest := _store_raw_data csv_data connector tenant_id now in
    let? mapping_suggestions :=
      _generate_mapping_suggestions csv_data connector tenant_id in
    Ok (UploadOk (length csv_data) (RawIngest.id raw_ingest)
          mapping_suggestions (firstn 5 csv_data)) in
  match attempt with
  | Ok r => r
  | Raise e => UploadFailed e
  end.

Definition _apply_transformation (value target_field : string) : pyval :=
  match value with
  | EmptyString => PNone
  | _ =>
      if Py.mem target_field ["email"; "source"] then
        PStr (Py.strip (Py.lower value))
      else if (Py.contains "date" target_field
               || Py.contains "time" target_field)%bool then
        match fromisoformat (Py.replace_char "Z" "+00:00" value) with
        | Some d => PStr (isoformat d)
        | None => PStr value
        end
      else if Py.mem target_field ["value"; "cost"; "budget"; "amount"] then
        match py_float (Py.replace_char "," EmptyString
                         (Py.replace_char "$" EmptyString value)) with
        | Some f => PFloat f
        | None => PStr value
        end
      else if Py.mem target_field ["active"; "enabled"; "converted"] then
        PBool (Py.mem (Py.lower value) ["true"; "1"; "yes"; "active"; "converted"])
      else PStr value
  end.

(** The body of the loop of [_apply_field_mappings]. *)
Definition mapping_step (row : Row) (normalized_data : Dict.t pyval)
    (st : string * string) : Dict.t pyval :=
  let '(source_field, target_field) := st in
  match Dict.get source_field row with
  | Some value =>
      Dict.set target_field (_apply_transformation value target_field)
        normalized_data
  | None => normalized_data
  end.

Definition _apply_field_mappings (row : Row) (mappings : Dict.t string)
    : Dict.t pyval :=
  fold_left (mapping_step row) mappings [].

Definition any_field (fields : list string) (d : Dict.t pyval) : bool :=
  existsb (fun field => Dict.mem field d) fields.

Definition _determine_entity_type (normalized_data : Dict.t pyval)
    (mappings : Dict.t string) : string :=
  if any_field ["email"; "lead_id"; "conversion"] normalized_data then "lead"
  else if any_field ["campaign_id"; "budget"; "platform"] normalized_data then "campaign"
  else if any_field ["patient_id"; "first_name"; "last_name"] normalized_data then "patient"
  else if any_field ["visit_id"; "chief_complaint"; "diagnosis"] normalized_data then "visit"
  else if any_field ["incident_id"; "incident_type"; "location"] normalized_data then "incident"
  else "record".

Definition validate_csv_file (file_content : list Byte.byte)
    (config : Connector.config) : validation :=
  if max_file_size <? Z.of_nat (length file_content) then
    Invalid "File too large. Maximum size: 10.0MB"
  else
    match _parse_csv_content file_content config with
    | Raise e => Invalid ("CSV validation failed: " ++ e)
    | Ok [] => Invalid "No data found in CSV file"
    | Ok ((first :: _) as csv_data) =>
        let required := match Connector.required_columns config with
                        | Some cs => cs | None => [] end in
        let missing_columns :=
          filter (fun col => negb (Dict.mem col first)) required in
        match missing_columns with
        | _ :: _ =>
            Invalid ("Missing required columns: "
                     ++ String.concat ", " missing_columns)
        | [] => Valid (length csv_data) (Dict.keys first) first
        end
    end.

End Service.

End CSVConnectorService.

(* ================================================================== *)
(** ** services/kpi_engine.py *)

Module MockKPIEngine.

Record formula_config := {
  formula : string;
  description : string;
  unit : string;
  target : float
}.

Definition mk_formula (f d u : string) (t : float) : formula_config :=
  {| formula := f; description := d; unit := u; target := t |}.

(** [_load_kpi_formulas]. *)
Definition kpi_formulas : Dict.t (Dict.t formula_config) :=
  [ ("marketing_agency",
     [ ("lead_conversion_rate",
        mk_formula "converted_leads / total_leads * 100"
          "Percentage of leads that convert to customers" "percentage" 15);
       ("cost_per_lead",
        mk_formula "total_spend / total_leads"
          "Average cost to acquire a lead" "currency" 25);
       ("lead_quality_score",
        mk_formula "sum(lead_scores) / count(leads)"
          "Average quality score of leads" "score" 7.5);
       ("campaign_roi",
        mk_formula "(revenue - cost) / cost * 100"
          "Return on investment for campaigns" "percentage" 300);
       ("monthly_revenue",
        mk_formula "sum(converted_leads * average_deal_size)"
          "Total monthly revenue from conversions" "currency" 50000) ]);
    ("urgent_clinic",
     [ ("average_wait_time",
        mk_formula "sum(wait_time_minutes) / count(visits)"
          "Average time patients wait before being seen" "minutes" 30);
       ("patient_volume",
        mk_formula "count(visits) where date(visit_date) = today"
          "Number of patients seen per day" "count" 50);
       ("revenue_per_visit",
        mk_formula "sum(total_cost) / count(visits)"
          "Average revenue generated per visit" "currency" 150);
       ("provider_utilization",
        mk_formula "sum(treatment_time) / sum(shift_time) * 100"
          "Percentage of time providers are seeing patients" "percentage" 80);
       ("no_show_rate",
        mk_formula "count(no_shows) / count(scheduled_visits) * 100"
          "Percentage of scheduled visits that are no-shows" "percentage" 10) ]);
    ("local_police",
     [ ("incident_volume",
        mk_formula "count(incidents) where date(incident_date) = today"
          "Number of incidents reported per day" "count" 15);
       ("average_response_time",
        mk_formula "sum(response_time_minutes) / count(incidents)"
          "Average time to respond to incidents" "minutes" 5);
       ("case_resolution_rate",
        mk_formula "count(resolved_cases) / count(total_cases) * 100"
          "Percentage of cases that are resolved" "percentage" 85);
       ("officer_efficiency",
        mk_formula "count(incidents_handled) / count(active_officers)"
          "Average incidents handled per officer per day" "count" 3);
       ("community_satisfaction",
        mk_formula "sum(satisfaction_scores) / count(surveys)"
          "Average community satisfaction score" "score" 8) ]) ]%float.

(** The [base_values] of [_generate_mock_kpi_value]. *)
Definition base_values : Dict.t (Dict.t float) :=
  [ ("marketing_agency",
     [ ("lead_conversion_rate", 12.5); ("cost_per_lead", 28.5);
       ("lead_quality_score", 7.2); ("campaign_roi", 285);
       ("monthly_revenue", 45000) ]);
    ("urgent_clinic",
     [ ("average_wait_time", 35); ("patient_volume", 48);
       ("revenue_per_visit", 145); ("provider_utilization", 78);
       ("no_show_rate", 12) ]);
    ("local_police",
     [ ("incident_volume", 18); ("average_response_time", 6.5);
       ("case_resolution_rate", 82); ("officer_efficiency", 2.8);
       ("community_satisfaction", 7.9) ]) ]%float.

(** [d.get(k1, {}).get(k2)]. *)
Definition get2 {V} (k1 k2 : string) (d : Dict.t (Dict.t V)) : option V :=
  match Dict.get k1 d with
  | Some inner => Dict.get k2 inner
  | None => None
  end.

Section Engine.

(** [round(x, ndigits)]. *)
Variable py_round : float -> Z -> float.

Definition _generate_mock_kpi_value (r : float) (kpi_name vertical : string)
    : float :=
  let base_value := match get2 vertical kpi_name base_values with
                    | Some b => b
                    | None => 50%float
                    end in
  let variation := Py.uniform r (-0.2)%float 0.2%float in
  py_round (base_value * (1 + variation))%float 2.

Definition _calculate_formula_value (r : float) (config : formula_config)
    (records : list NormalizedRecord.t) (vertical : string) : float :=
  let f := Py.lower (formula config) in
  if Py.contains "conversion" f then
    py_round (12.5 * (1 + Py.uniform r (-0.15) 0.15))%float 2
  else if Py.contains "cost" f then
    py_round (28.5 * (1 + Py.uniform r (-0.2) 0.2))%float 2
  else if Py.contains "wait" f then
    py_round (35 * (1 + Py.uniform r (-0.3) 0.3))%float 2
  else if Py.contains "volume" f then
    py_round (50 * (1 + Py.uniform r (-0.25) 0.25))%float 2
  else if Py.contains "roi" f then
    py_round (285 * (1 + Py.uniform r (-0.2) 0.2))%float 2
  else _generate_mock_kpi_value r "default" vertical.

(** [calculate_kpi]; [now] is [datetime.utcnow()] and [r] the random
    draw of this call. *)
Definition calculate_kpi (now : datetime) (r : float)
    (kpi_definition : KPIDefinition.t)
    (normalized_records : list NormalizedRecord.t)
    (start_date end_date : option datetime) : KPIValue.t :=
  let vertical := KPIDefinition.vertical kpi_definition in
  let kpi_name := AlertEngine.normalized_name (KPIDefinition.name kpi_definition) in
  let formula_config := get2 vertical kpi_name kpi_formulas in
  let mock_value :=
    match formula_config with
    | None => _generate_mock_kpi_value r kpi_name vertical
    | Some config => _calculate_formula_value r config normalized_records vertical
    end in
  {| KPIValue.id := unsaved;
     KPIValue.tenant_id := KPIDefinition.tenant_id kpi_definition;
     KPIValue.kpi_id := KPIDefinition.id kpi_definition;
     KPIValue.timestamp := match end_date with Some e => e | None => now end;
     KPIValue.value := mock_value;
     KPIValue.provenance :=
       {| KPIValue.source_records := length normalized_records;
          KPIValue.calculation_method :=
            match formula_config with
            | Some _ => "formula_based"
            | None => "mock_generated"
            end;
          KPIValue.data_quality := "high";
          KPIValue.formula :=
            match formula_config with
            | Some config => formula config
            | None => "mock"
            end;
          KPIValue.prov_vertical := vertical |} |}.

End Engine.

End MockKPIEngine.

(* ================================================================== *)
(** ** services/live_connectors.py *)

Module LiveConnectorService.

Section Service.

Variable isoformat : datetime -> string.
(** The mock records of an endpoint ([mock_contacts], [mock_deals], ...),
    generated when the service is constructed. *)
Variable mock_records : string -> list Row.

(** [sync_contacts], [sync_deals], ...: one [RawIngest] per endpoint. *)
Definition sync_endpoint (endpoint : string) (connector : Connector.t)
    (tenant_id : Z) (now : datetime) : RawIngest.t :=
  {| RawIngest.id := unsaved;
     RawIngest.tenant_id := tenant_id;
     RawIngest.connector_id := Connector.id connector;
     RawIngest.payload_json :=
       {| RawIngest.data := mock_records endpoint;
          RawIngest.meta :=
            RawIngest.SyncMeta endpoint (length (mock_records endpoint))
              false (isoformat now) |} |}.

Definition sync_connector (connector : Connector.t) (tenant_id : Z)
    (now : datetime) : list RawIngest.t :=
  if String.eqb (Connector.type connector) "hubspot" then
    map (fun e => sync_endpoint e connector tenant_id now)
        ["contacts"; "deals"; "companies"]
  else if String.eqb (Connector.type connector) "google_ads" then
    map (fun e => sync_endpoint e connector tenant_id now)
        ["campaigns"; "adGroups"; "ads"; "keywords"]
  else [].

End Service.

End LiveConnectorService.

(* ================================================================== *)
(** ** services/forecasting_service.py *)

Module MockForecastingService.

(** What a forecasting method computes for the prediction it builds. *)
Record forecast := {
  model_name : string;
  input_snapshot : document;
  output_json : document
}.

(** The [Prediction(tenant_id=kpi_definition.tenant_id, ...)] that every
    method of the service ends with. *)
Definition prediction_of (kpi_definition : KPIDefinition.t) (f : forecast)
    : Prediction.t :=
  {| Prediction.id := unsaved;
     Prediction.tenant_id := KPIDefinition.tenant_id kpi_definition;
     Prediction.model_name := model_name f;
     Prediction.input_snapshot := input_snapshot f;
     Prediction.output_json := output_json f;
     Prediction.created_at := None |}.

End MockForecastingService.

(* ================================================================== *)
(** ** The relational store *)

Record DB := {
  tenants : list Tenant.t;
  users : list User.t;
  connectors : list Connector.t;
  raw_ingest : list RawIngest.t;
  normalized_records : list NormalizedRecord.t;
  kpi_definitions : list KPIDefinition.t;
  kpi_values : list KPIValue.t;
  alerts : list Alert.t;
  tasks : list Task.t;
  predictions : list Prediction.t
}.

Module Store.

(** The next value of an auto-increment primary key. *)
Definition next_id (ids : list Z) : Z := 1 + fold_right Z.max 0 ids.

(** [query.first()]. *)
Definition first {A} (p : A -> bool) (rows : list A) : option A :=
  find p rows.

(** [query.limit(n)]. *)
Definition limit {A} (n : nat) (rows : list A) : list A := firstn n rows.

(** The row [first] picks, updated in place. *)
Fixpoint update_first {A} (p : A -> bool) (f : A -> A) (rows : list A) : list A :=
  match rows with
  | [] => []
  | r :: rest => if p r then f r :: rest else r :: update_first p f rest
  end.

(** [ORDER BY key DESC]: a NULL sorts before every value; rows with equal
    keys keep their order. *)
Definition desc_le (a b : option Z) : bool :=
  match a, b with
  | None, _ => true
  | Some _, None => false
  | Some x, Some y => y <=? x
  end.

Fixpoint insert_desc {A} (key : A -> option Z) (x : A) (sorted : list A) : list A :=
  match sorted with
  | [] => [x]
  | y :: rest =>
      if desc_le (key x) (key y) then x :: sorted
      else y :: insert_desc key x rest
  end.

Definition order_by_desc {A} (key : A -> option Z) (rows : list A) : list A :=
  fold_right (insert_desc key) [] rows.

Definition set_tenants (db : DB) (v : list Tenant.t) : DB :=
  {| tenants := v; users := users db; connectors := connectors db;
     raw_ingest := raw_ingest db; normalized_records := normalized_records db;
     kpi_definitions := kpi_definitions db; kpi_values := kpi_values db;
     alerts := alerts db; tasks := tasks db;
     predictions := predictions db |}.

Definition set_users (db : DB) (v : list User.t) : DB :=
  {| tenants := tenants db; users := v; connectors := connectors db;
     raw_ingest := raw_ingest db; normalized_records := normalized_records db;
     kpi_definitions := kpi_definitions db; kpi_values := kpi_values db;
     alerts := alerts db; tasks := tasks db;
     predictions := predictions db |}.

Definition set_connectors (db : DB) (v : list Connector.t) : DB :=
  {| tenants := tenants db; users := users db; connectors := v;
     raw_ingest := raw_ingest db; normalized_records := normalized_records db;
     kpi_definitions := kpi_definitions db; kpi_values := kpi_values db;
     alerts := alerts db; tasks := tasks db;
     predictions := predictions db |}.

Definition set_raw_ingest (db : DB) (v : list RawIngest.t) : DB :=
  {| tenants := tenants db; users := users db; connectors := connectors db;
     raw_ingest := v; normalized_records := normalized_records db;
     kpi_definitions := kpi_definitions db; kpi_values := kpi_values db;
     alerts := alerts db; tasks := tasks db;
     predictions := predictions db |}.

Definition set_kpi_definitions (db : DB) (v : list KPIDefinition.t) : DB :=
  {| tenants := tenants db; users := users db; connectors := connectors db;
     raw_ingest := raw_ingest db; normalized_records := normalized_records db;
     kpi_definitions := v; kpi_values := kpi_values db;
     alerts := alerts db; tasks := tasks db;
     predictions := predictions db |}.

Definition set_kpi_values (db : DB) (v : list KPIValue.t) : DB :=
  {| tenants := tenants db; users := users db; connectors := connectors db;
     raw_ingest := raw_ingest db; normalized_records := normalized_records db;
     kpi_definitions := kpi_definitions db; kpi_values := v;
     alerts := alerts db; tasks := tasks db;
     predictions := predictions db |}.

Definition set_alerts (db : DB) (v : list Alert.t) : DB :=
  {| tenants := tenants db; users := users db; connectors := connectors db;
     raw_ingest := raw_ingest db; normalized_records := normalized_records db;
     kpi_definitions := kpi_definitions db; kpi_values := kpi_values db;
     alerts := v; tasks := tasks db;
     predictions := predictions db |}.

Definition set_predictions (db : DB) (v : list Prediction.t) : DB :=
{| tenants := tenants db; users := users db; connectors := connectors db;
   raw_ingest := raw_ingest db; normalized_records := normalized_records db;
   kpi_definitions := kpi_definitions db; kpi_values := kpi_values db;
   alerts := alerts db; tasks := tasks db; predictions := v |}.

(** [db.add(row)] followed by a flush: the row gets its primary key and
    the column defaults. *)
Definition add_tenant (db : DB) (row : Tenant.t) : Tenant.t * DB :=
  let row' := {| Tenant.id := next_id (map Tenant.id (tenants db));
                 Tenant.name := Tenant.name row; Tenant.plan := Tenant.plan row |} in
  (row', set_tenants db (tenants db ++ [row'])).

Definition add_user (db : DB) (row : User.t) : User.t * DB :=
  let row' := {| User.id := next_id (map User.id (users db));
                 User.tenant_id := User.tenant_id row;
                 User.email := User.email row; User.role := User.role row;
                 User.hashed_password := User.hashed_password row |} in
  (row', set_users db (users db ++ [row'])).

Definition add_connector (now : datetime) (db : DB) (row : Connector.t)
    : Connector.t * DB :=
  let row' := {| Connector.id := next_id (map Connector.id (connectors db));
                 Connector.tenant_id := Connector.tenant_id row;
                 Connector.type := Connector.type row;
                 Connector.credentials_encrypted := Connector.credentials_encrypted row;
                 Connector.config_json := Connector.config_json row;
                 Connector.last_sync_at := Connector.last_sync_at row;
                 Connector.created_at :=
                   match Connector.created_at row with
                   | Some t => Some t
                   | None => Some now
                   end |} in
  (row', set_connectors db (connectors db ++ [row'])).

Definition add_raw_ingest (db : DB) (row : RawIngest.t) : RawIngest.t * DB :=
  let row' := {| RawIngest.id := next_id (map RawIngest.id (raw_ingest db));
                 RawIngest.tenant_id := RawIngest.tenant_id row;
                 RawIngest.connector_id := RawIngest.connector_id row;
                 RawIngest.payload_json := RawIngest.payload_json row |} in
  (row', set_raw_ingest db (raw_ingest db ++ [row'])).

Definition add_kpi_definition (db : DB) (row : KPIDefinition.t)
    : KPIDefinition.t * DB :=
  let row' := {| KPIDefinition.id := next_id (map KPIDefinition.id (kpi_definitions db));
                 KPIDefinition.tenant_id := KPIDefinition.tenant_id row;
                 KPIDefinition.name := KPIDefinition.name row;
                 KPIDefinition.vertical := KPIDefinition.vertical row;
                 KPIDefinition.formula_json := KPIDefinition.formula_json row;
                 KPIDefinition.window := KPIDefinition.window row |} in
  (row', set_kpi_definitions db (kpi_definitions db ++ [row'])).

Definition add_kpi_value (db : DB) (row : KPIValue.t) : KPIValue.t * DB :=
  let row' := {| KPIValue.id := next_id (map KPIValue.id (kpi_values db));
                 KPIValue.tenant_id := KPIValue.tenant_id row;
                 KPIValue.kpi_id := KPIValue.kpi_id row;
                 KPIValue.timestamp := KPIValue.timestamp row;
                 KPIValue.value := KPIValue.value row;
                 KPIValue.provenance := KPIValue.provenance row |} in
  (row', set_kpi_values db (kpi_values db ++ [row'])).

Definition add_alert (now : datetime) (db : DB) (row : Alert.t) : Alert.t * DB :=
  let row' := {| Alert.id := next_id (map Alert.id (alerts db));
                 Alert.tenant_id := Alert.tenant_id row;
                 Alert.kpi_id := Alert.kpi_id row;
                 Alert.rule_json := Alert.rule_json row;
                 Alert.severity := Alert.severity row;
                 Alert.status := Alert.status row;
                 Alert.triggered_at :=
                   match Alert.triggered_at row with
                   | Some t => Some t
                   | None => Some now
                   end;
                 Alert.resolved_at := Alert.resolved_at row;
                 Alert.details := Alert.details row;
                 Alert.acknowledged := Alert.acknowledged row;
                 Alert.acknowledged_by := Alert.acknowledged_by row;
                 Alert.acknowledged_at := Alert.acknowledged_at row |} in
  (row', set_alerts db (alerts db ++ [row'])).

Definition add_prediction (now : datetime) (db : DB) (row : Prediction.t)
    : Prediction.t * DB :=
  let row' := {| Prediction.id := next_id (map Prediction.id (predictions db));
                 Prediction.tenant_id := Prediction.tenant_id row;
                 Prediction.model_name := Prediction.model_name row;
                 Prediction.input_snapshot := Prediction.input_snapshot row;
                 Prediction.output_json := Prediction.output_json row;
                 Prediction.created_at :=
                   match Prediction.created_at row with
                   | Some t => Some t
                   | None => Some now
                   end |} in
  (row', set_predictions db (predictions db ++ [row'])).

End Store.

(* ================================================================== *)
(** ** The request handlers of app/api *)

(** What a handler answers: a body, or [HTTPException(status_code, detail)]. *)
Inductive response (A : Type) :=
| Return (body : A)
| HTTPException (status_code : Z) (detail : string).
Arguments Return {A} body.
Arguments HTTPException {A} status_code detail.

Module Api.

(** What a handler hands to the guard: the [X-Tenant-ID] header or
    [str(tenant_id)], a [str]; or the path parameter as it is, an [int]. *)
Inductive guard_arg :=
| StrArg (s : string)
| IntArg (n : Z).

(** The tenant an argument of the guard names. *)
Definition tenant_named (a : guard_arg) : option Z :=
  match a with
  | StrArg s => Py.int s
  | IntArg n => Some n
  end.

Definition forbidden {A} : response A :=
  HTTPException 403 "Access denied to this tenant".

(** An exception no handler catches. *)
Definition internal_error {A} : response A :=
  HTTPException 500 "Internal Server Error".

Record message := { success : bool; text : string }.

(* ---------------------------------------------------------------- *)
(** *** api/auth.py *)

Record RegisterRequest := {
  tenant_name : string;
  tenant_plan : string;
  user_email : string;
  user_password : string;
  user_role : string
}.

Record Token := {
  access_token : string;
  token_type : string;
  token_tenant_id : Z;
  token_user_id : Z
}.

Definition access_token_expire_minutes : Z := 30.

Section Auth.

(** [get_password_hash] and [create_access_token] of
    [app/core/security.py], which is not among the sources; the token is
    made from the [sub] and [tenant_id] claims and the lifetime in
    minutes. *)
Variable get_password_hash : string -> string.
Variable create_access_token : string -> string -> Z -> string.

Definition register (db : DB) (request : RegisterRequest)
    : response Token * DB :=
  match Store.first (fun u => String.eqb (User.email u) (user_email request))
                    (users db) with
  | Some existing_user =>
      (HTTPException 400 "Email already registered", db)
  | None =>
      let '(tenant, db1) :=
        Store.add_tenant db
          {| Tenant.id := unsaved; Tenant.name := tenant_name request;
             Tenant.plan := tenant_plan request |} in
      let '(user, db2) :=
        Store.add_user db1
          {| User.id := unsaved; User.tenant_id := Tenant.id tenant;
             User.email := user_email request; User.role := user_role request;
             User.hashed_password := get_password_hash (user_password request) |} in
      (Return {| access_token :=
                   create_access_token (Py.str (User.id user))
                     (Py.str (Tenant.id tenant)) access_token_expire_minutes;
                 token_type := "bearer";
                 token_tenant_id := Tenant.id tenant;
                 token_user_id := User.id user |},
       db2)
  end.

End Auth.

(* ---------------------------------------------------------------- *)
(** *** Request and response bodies *)

Record ConnectorCreate := {
  cc_type : string;
  cc_credentials_encrypted : option string;
  cc_config_json : Connector.config
}.

Record SyncResponse := {
  sync_success : bool;
  records_ingested : nat;
  sync_message : string
}.

Record UploadResponse (S : Type) := {
  upload_message : string;
  mapping_suggestions : S;
  raw_ingest_id : Z
}.

Record KPIDefinitionCreate := {
  kc_name : string;
  kc_vertical : string;
  kc_formula_json : Dict.t string;
  kc_window : string
}.

Record EvaluateRequest := {
  start_date : option datetime;
  end_date : option datetime
}.

Record position := { x : Z; y : Z; width : Z; height : Z }.

Record task_line := {
  tl_id : Z;
  tl_title : string;
  tl_status : string;
  tl_assigned_to : option string;
  tl_created_at : string
}.

Inductive tile_data :=
| KpiData (value : float) (trend unit_ : string)
| AlertData (severity triggered_at : string) (details : Alert.details_t)
| TaskData (tasks : list task_line).

Record DashboardTile := {
  tile_id : string;
  tile_type : string;
  tile_title : string;
  tile_data_ : tile_data;
  tile_position : position
}.

Record DashboardResponse := {
  dash_tenant_id : Z;
  tiles : list DashboardTile;
  last_updated : datetime
}.

(** [alert.rule_json.get('name', 'Unknown')]. *)
Definition rule_name_of (rj : Alert.rule_json_t) : string :=
  match rj with
  | Alert.ThresholdRule r => Alert.rule_name r
  | Alert.AnomalyRule name _ _ _ => name
  end.

Definition alert_of (alert_id tenant : Z) (a : Alert.t) : bool :=
  (Alert.id a =? alert_id) && (Alert.tenant_id a =? tenant).

Definition connector_of (connector_id tenant : Z) (c : Connector.t) : bool :=
  (Connector.id c =? connector_id) && (Connector.tenant_id c =? tenant).

Definition kpi_of (kpi_id tenant : Z) (k : KPIDefinition.t) : bool :=
  (KPIDefinition.id k =? kpi_id) && (KPIDefinition.tenant_id k =? tenant).

(** [alert.acknowledged = ...] and the two assignments under
    [if request.acknowledged]. *)
Definition set_acknowledged (acknowledged : bool) (user_id : Z) (now : datetime)
    (a : Alert.t) : Alert.t :=
  {| Alert.id := Alert.id a; Alert.tenant_id := Alert.tenant_id a;
     Alert.kpi_id := Alert.kpi_id a; Alert.rule_json := Alert.rule_json a;
     Alert.severity := Alert.severity a; Alert.status := Alert.status a;
     Alert.triggered_at := Alert.triggered_at a;
     Alert.resolved_at := Alert.resolved_at a;
     Alert.details := Alert.details a;
     Alert.acknowledged := acknowledged;
     Alert.acknowledged_by :=
       if acknowledged then Some user_id else Alert.acknowledged_by a;
     Alert.acknowledged_at :=
       if acknowledged then Some now else Alert.acknowledged_at a |}.

(** [alert.resolved_at = datetime.utcnow()]. *)
Definition set_resolved (now : datetime) (a : Alert.t) : Alert.t :=
  {| Alert.id := Alert.id a; Alert.tenant_id := Alert.tenant_id a;
     Alert.kpi_id := Alert.kpi_id a; Alert.rule_json := Alert.rule_json a;
     Alert.severity := Alert.severity a; Alert.status := Alert.status a;
     Alert.triggered_at := Alert.triggered_at a;
     Alert.resolved_at := Some now;
     Alert.details := Alert.details a;
     Alert.acknowledged := Alert.acknowledged a;
     Alert.acknowledged_by := Alert.acknowledged_by a;
     Alert.acknowledged_at := Alert.acknowledged_at a |}.

(** [for alert in mock_alerts: db.add(alert)]. *)
Definition add_alerts (now : datetime) (db : DB) (new : list Alert.t) : DB :=
  fold_left (fun d a => snd (Store.add_alert now d a)) new db.

(** [for raw_ingest in raw_ingests: db.add(raw_ingest)]. *)
Definition add_raw_ingests (db : DB) (new : list RawIngest.t) : DB :=
  fold_left (fun d ri => snd (Store.add_raw_ingest d ri)) new db.

(** [timedelta(days=n)], in seconds. *)
Definition days (n : Z) : Z := n * 86400.

Record ForecastRequest := {
  fr_kpi_id : Z;
  fr_forecast_days : Z;
  fr_method : string
}.

Record GraphQueryRequest := {
  gq_query : string;
  gq_vertical : option string
}.

Record GraphQueryResponse := {
  gq_success : bool;
  gq_results : document;
  gq_count : Z;
  gq_query_type : string;
  gq_error : option string
}.

(** A node or an edge of the mock graph, with its ["type"] entry. *)
Record graph_item := { item_type : option string; item_json : document }.

Definition prediction_of (prediction_id tenant : Z) (p : Prediction.t) : bool :=
  (Prediction.id p =? prediction_id) && (Prediction.tenant_id p =? tenant).

(** [str(e)] of the [ValueError] that [int(s)] raises. *)
Definition invalid_literal (s : string) : string :=
  "invalid literal for int() with base 10: '" ++ s ++ "'".

(** [xs[:limit]]: a negative limit counts from the end. *)
Definition slice_to {A} (limit : Z) (xs : list A) : list A :=
  if 0 <=? limit then firstn (Z.to_nat limit) xs
  else firstn (Z.to_nat (Z.of_nat (length xs) + limit)) xs.

(** [if node_type: nodes = [n for n in nodes if n.get("type") == node_type]]. *)
Definition of_type (node_type : option string) (items : list graph_item)
    : list graph_item :=
  match node_type with
  | None | Some EmptyString => items
  | Some ty =>
      filter (fun i => match item_type i with
                       | Some ty' => String.eqb ty' ty
                       | None => false
                       end) items
  end.

Section Handlers.

(** [verify_tenant_access] of [app/core/security.py], which is not among
    the sources. *)
Variable verify_tenant_access : User.t -> guard_arg -> bool.

Variable isoformat : datetime -> string.
Variable py_round : float -> Z -> float.
Variable mock_records : string -> list Row.
Variable decode : string -> list Byte.byte -> result string.
Variable DictReader : string -> string -> result (list CSVConnectorService.reader_row).
(** The mapping suggestions of [llm_service], a document. *)
Variable empty_suggestions : document.
Variable suggest_field_mapping : string -> string -> Row -> result document.
Variable repr_row : Row -> string.
(** [str(e)] of an [HTTPException]. *)
Variable str_HTTPException : Z -> string -> string.

(* -------------------------------------------------------------- *)
(** *** api/alerts.py *)

Definition list_alerts (db : DB) (current_user : User.t) (x_tenant_id : string)
    : response (list Alert.t) * DB :=
  if negb (verify_tenant_access current_user (StrArg x_tenant_id)) then (forbidden, db)
  else
    match Py.int x_tenant_id with
    | None => (internal_error, db)
    | Some tenant =>
        let alerts :=
          Store.order_by_desc Alert.triggered_at
            (filter (fun a => Alert.tenant_id a =? tenant) (alerts db)) in
        (Return alerts, db)
    end.

Definition acknowledge_alert (now : datetime) (db : DB) (current_user : User.t)
    (x_tenant_id : string) (alert_id : Z) (acknowledged : bool)
    : response message * DB :=
  if negb (verify_tenant_access current_user (StrArg x_tenant_id)) then (forbidden, db)
  else
    match Py.int x_tenant_id with
    | None => (internal_error, db)
    | Some tenant =>
        match Store.first (alert_of alert_id tenant) (alerts db) with
        | None => (HTTPException 404 "Alert not found", db)
        | Some _ =>
            (Return {| success := true;
                       text := "Alert " ++ Py.str alert_id ++ " "
                               ++ (if acknowledged then "acknowledged"
                                   else "unacknowledged")
                               ++ " successfully" |},
             Store.set_alerts db
               (Store.update_first (alert_of alert_id tenant)
                  (set_acknowledged acknowledged (User.id current_user) now)
                  (alerts db)))
        end
    end.

Definition resolve_alert (now : datetime) (db : DB) (current_user : User.t)
    (x_tenant_id : string) (alert_id : Z) : response message * DB :=
  if negb (verify_tenant_access current_user (StrArg x_tenant_id)) then (forbidden, db)
  else
    match Py.int x_tenant_id with
    | None => (internal_error, db)
    | Some tenant =>
        match Store.first (alert_of alert_id tenant) (alerts db) with
        | None => (HTTPException 404 "Alert not found", db)
        | Some _ =>
            (Return {| success := true;
                       text := "Alert " ++ Py.str alert_id
                               ++ " resolved successfully" |},
             Store.set_alerts db
               (Store.update_first (alert_of alert_id tenant)
                  (set_resolved now) (alerts db)))
        end
    end.

Definition generate_mock_alerts (rnd : nat -> float) (now : datetime)
    (db : DB) (current_user : User.t) (x_tenant_id : string)
    (vertical : string) : response (message * nat) * DB :=
  if negb (verify_tenant_access current_user (StrArg x_tenant_id)) then (forbidden, db)
  else
    match Py.int x_tenant_id with
    | None =>
        (HTTPException 500
           ("Failed to generate mock alerts: " ++ invalid_literal x_tenant_id), db)
    | Some tenant =>
        let mock_alerts :=
          AlertEngine.generate_mock_alerts isoformat rnd now tenant vertical in
        (Return ({| success := true;
                    text := "Generated "
                            ++ Py.str (Z.of_nat (length mock_alerts))
                            ++ " mock alerts" |},
                 length mock_alerts),
         add_alerts now db mock_alerts)
    end.

(* -------------------------------------------------------------- *)
(** *** api/connectors.py *)

Definition create_connector (now : datetime) (db : DB) (current_user : User.t)
    (x_tenant_id : string) (connector : ConnectorCreate)
    : response Connector.t * DB :=
  if negb (verify_tenant_access current_user (StrArg x_tenant_id)) then (forbidden, db)
  else
    match Py.int x_tenant_id with
    | None => (internal_error, db)
    | Some tenant =>
        let '(db_connector, db') :=
          Store.add_connector now db
            {| Connector.id := unsaved; Connector.tenant_id := tenant;
               Connector.type := cc_type connector;
               Connector.credentials_encrypted := cc_credentials_encrypted connector;
               Connector.config_json := cc_config_json connector;
               Connector.last_sync_at := None;
               Connector.created_at := None |} in
        (Return db_connector, db')
    end.

Definition list_connectors (db : DB) (current_user : User.t)
    (x_tenant_id : string) : response (list Connector.t) * DB :=
  if negb (verify_tenant_access current_user (StrArg x_tenant_id)) then (forbidden, db)
  else
    match Py.int x_tenant_id with
    | None => (internal_error, db)
    | Some tenant =>
        (Return (filter (fun c => Connector.tenant_id c =? tenant) (connectors db)),
         db)
    end.

Definition sync_connector (now : datetime) (db : DB) (current_user : User.t)
    (x_tenant_id : string) (connector_id : Z) : response SyncResponse * DB :=
  if negb (verify_tenant_access current_user (StrArg x_tenant_id)) then (forbidden, db)
  else
    match Py.int x_tenant_id with
    | None => (internal_error, db)
    | Some tenant =>
        match Store.first (connector_of connector_id tenant) (connectors db) with
        | None => (HTTPException 404 "Connector not found", db)
        | Some connector =>
            if String.eqb (Connector.type connector) "csv" then
              (Return {| sync_success := true; records_ingested := 0;
                         sync_message := "CSV sync requires file upload" |}, db)
            else if Py.mem (Connector.type connector) ["hubspot"; "google_ads"] then
              let raw_ingests :=
                LiveConnectorService.sync_connector isoformat mock_records
                  connector tenant now in
              let total_records :=
                list_sum (map (fun ri => length (RawIngest.data (RawIngest.payload_json ri)))
                              raw_ingests) in
              (Return {| sync_success := true; records_ingested := total_records;
                         sync_message := "Sync completed: "
                                         ++ Py.str (Z.of_nat total_records)
                                         ++ " records ingested" |},
               add_raw_ingests db raw_ingests)
            else
              (Return {| sync_success := false; records_ingested := 0;
                         sync_message := "Unsupported connector type" |}, db)
        end
    end.

(** [upload_csv]; the [HTTPException] with status 400 is raised inside
    the [try] and so reaches the caller through [except Exception] as a
    500. *)
Definition upload_csv (now : datetime) (db : DB) (current_user : User.t)
    (x_tenant_id : string) (connector_id : Z)
    (filename : string) (file_content : list Byte.byte)
    : response (UploadResponse document) * DB :=
  if negb (verify_tenant_access current_user (StrArg x_tenant_id)) then (forbidden, db)
  else
    match Py.int x_tenant_id with
    | None => (internal_error, db)
    | Some tenant =>
        match Store.first (connector_of connector_id tenant) (connectors db) with
        | None => (HTTPException 404 "Connector not found", db)
        | Some connector =>
            if negb (String.eqb (Connector.type connector) "csv") then
              (HTTPException 400 "Connector is not a CSV connector", db)
            else
              match CSVConnectorService.process_csv_upload decode DictReader
                      empty_suggestions suggest_field_mapping repr_row isoformat
                      file_content connector tenant now with
              | CSVConnectorService.UploadOk records_processed _ suggested sample_data =>
                  let '(raw_ingest, db') :=
                    Store.add_raw_ingest db
                      {| RawIngest.id := unsaved;
                         RawIngest.tenant_id := tenant;
                         RawIngest.connector_id := connector_id;
                         RawIngest.payload_json :=
                           {| RawIngest.data := sample_data;
                              RawIngest.meta :=
                                RawIngest.UploadMeta filename
                                  (Z.of_nat (length file_content))
                                  records_processed (isoformat now) |} |} in
                  (Return {| upload_message :=
                               "CSV uploaded successfully: "
                               ++ Py.str (Z.of_nat records_processed)
                               ++ " records processed";
                             mapping_suggestions := suggested;
                             raw_ingest_id := RawIngest.id raw_ingest |},
                   db')
              | CSVConnectorService.UploadFailed error =>
                  (HTTPException 500
                     ("CSV upload failed: " ++ str_HTTPException 400 error), db)
              end
        end
    end.

Definition get_map_preview (db : DB) (current_user : User.t)
    (x_tenant_id : string) (connector_id : Z) : response document * DB :=
  if negb (verify_tenant_access current_user (StrArg x_tenant_id)) then (forbidden, db)
  else
    match Py.int x_tenant_id with
    | None => (internal_error, db)
    | Some tenant =>
        match Store.first (connector_of connector_id tenant) (connectors db) with
        | None => (HTTPException 404 "Connector not found", db)
        | Some connector =>
            match suggest_field_mapping (Connector.type connector)
                    "marketing_agency" [] with
            | Ok suggested => (Return suggested, db)
            | Raise _ => (internal_error, db)
            end
        end
    end.

(* -------------------------------------------------------------- *)
(** *** api/kpis.py *)

Definition list_kpis (db : DB) (current_user : User.t) (x_tenant_id : string)
    : response (list KPIDefinition.t) * DB :=
  if negb (verify_tenant_access current_user (StrArg x_tenant_id)) then (forbidden, db)
  else
    match Py.int x_tenant_id with
    | None => (internal_error, db)
    | Some tenant =>
        (Return (filter (fun k => KPIDefinition.tenant_id k =? tenant)
                        (kpi_definitions db)), db)
    end.

Definition create_kpi (db : DB) (current_user : User.t) (x_tenant_id : string)
    (kpi : KPIDefinitionCreate) : response KPIDefinition.t * DB :=
  if negb (verify_tenant_access current_user (StrArg x_tenant_id)) then (forbidden, db)
  else
    match Py.int x_tenant_id with
    | None => (internal_error, db)
    | Some tenant =>
        let '(db_kpi, db') :=
          Store.add_kpi_definition db
            {| KPIDefinition.id := unsaved; KPIDefinition.tenant_id := tenant;
               KPIDefinition.name := kc_name kpi;
               KPIDefinition.vertical := kc_vertical kpi;
               KPIDefinition.formula_json := kc_formula_json kpi;
               KPIDefinition.window := kc_window kpi |} in
        (Return db_kpi, db')
    end.

(** [evaluate_kpi]; [r] is the random draw of the engine. *)
Definition evaluate_kpi (now : datetime) (r : float) (db : DB)
    (current_user : User.t) (x_tenant_id : string) (kpi_id : Z)
    (request : EvaluateRequest) : response (KPIValue.t * string) * DB :=
  if negb (verify_tenant_access current_user (StrArg x_tenant_id)) then (forbidden, db)
  else
    match Py.int x_tenant_id with
    | None => (internal_error, db)
    | Some tenant =>
        match Store.first (kpi_of kpi_id tenant) (kpi_definitions db) with
        | None => (HTTPException 404 "KPI not found", db)
        | Some kpi =>
            let normalized_records :=
              filter (fun n => NormalizedRecord.tenant_id n =? tenant)
                     (normalized_records db) in
            let end_date := match end_date request with
                            | Some e => e | None => now end in
            let start_date := match start_date request with
                              | Some s => s | None => end_date - days 30 end in
            let kpi_value :=
              MockKPIEngine.calculate_kpi py_round now r kpi normalized_records
                (Some start_date) (Some end_date) in
            let '(saved, db') := Store.add_kpi_value db kpi_value in
            (Return (saved, "KPI '" ++ KPIDefinition.name kpi
                            ++ "' evaluated successfully"), db')
        end
    end.

Definition get_kpi_values (db : DB) (current_user : User.t)
    (x_tenant_id : string) (kpi_id : Z) : response (list KPIValue.t) * DB :=
  if negb (verify_tenant_access current_user (StrArg x_tenant_id)) then (forbidden, db)
  else
    match Py.int x_tenant_id with
    | None => (internal_error, db)
    | Some tenant =>
        match Store.first (kpi_of kpi_id tenant) (kpi_definitions db) with
        | None => (HTTPException 404 "KPI not found", db)
        | Some _ =>
            let values :=
              Store.limit 100
                (Store.order_by_desc (fun v => Some (KPIValue.timestamp v))
                   (filter (fun v => (KPIValue.kpi_id v =? kpi_id)
                                     && (KPIValue.tenant_id v =? tenant))
                           (kpi_values db))) in
            (Return values, db)
        end
    end.

(* -------------------------------------------------------------- *)
(** *** api/dashboard.py *)

(** The tile of the [i]-th KPI definition of the tenant.  Its latest value
    is looked up by [kpi_id] alone. *)
Definition kpi_tile (db : DB) (i : nat) (kpi : KPIDefinition.t) : DashboardTile :=
  let latest_value :=
    Store.first (fun _ => true)
      (Store.order_by_desc (fun v => Some (KPIValue.timestamp v))
         (filter (fun v => KPIValue.kpi_id v =? KPIDefinition.id kpi)
                 (kpi_values db))) in
  {| tile_id := "kpi_" ++ Py.str (KPIDefinition.id kpi);
     tile_type := "kpi";
     tile_title := KPIDefinition.name kpi;
     tile_data_ :=
       KpiData
         (match latest_value with
          | Some v => KPIValue.value v
          | None => 0%float
          end)
         (match latest_value with
          | Some v => if PrimFloat.ltb 50 (KPIValue.value v) then "up" else "down"
          | None => "down"
          end)
         (if Py.contains "rate" (Py.lower (KPIDefinition.name kpi))
          then "%" else "count");
     tile_position :=
       {| x := (Z.of_nat i mod 2) * 6; y := (Z.of_nat i / 2) * 4;
          width := 6; height := 4 |} |}.

(** [for i, kpi in enumerate(kpis)], from index [i]. *)
Fixpoint kpi_tiles_from (db : DB) (i : nat) (kpis : list KPIDefinition.t)
    : list DashboardTile :=
  match kpis with
  | [] => []
  | kpi :: rest => kpi_tile db i kpi :: kpi_tiles_from db (S i) rest
  end.

(** [alert.triggered_at.isoformat()] raises on a missing timestamp. *)
Definition alert_tile (alert : Alert.t) : result DashboardTile :=
  match Alert.triggered_at alert with
  | None => Raise "'NoneType' object has no attribute 'isoformat'"
  | Some t =>
      Ok {| tile_id := "alert_" ++ Py.str (Alert.id alert);
            tile_type := "alert";
            tile_title := "Alert: " ++ rule_name_of (Alert.rule_json alert);
            tile_data_ := AlertData (Alert.severity alert) (isoformat t)
                            (Alert.details alert);
            tile_position := {| x := 0; y := 8; width := 12; height := 3 |} |}
  end.

Fixpoint alert_tiles (active_alerts : list Alert.t) : result (list DashboardTile) :=
  match active_alerts with
  | [] => Ok []
  | a :: rest =>
      let? t := alert_tile a in
      let? ts := alert_tiles rest in
      Ok (t :: ts)
  end.

(** [get_dashboard] checks the path tenant, then the header against the
    path, and runs its queries.  Then it builds [task_tiles], a list
    display of one tile whose [id=f"task_{task.id}"] stands outside the
    comprehension that binds [task]: the name is unbound, [NameError] is
    raised on every request that gets this far, and the response with the
    tiles is never built. *)
Definition get_dashboard (now : datetime) (db : DB) (current_user : User.t)
    (tenant_id : Z) (x_tenant_id : string) : response DashboardResponse * DB :=
  if negb (verify_tenant_access current_user (StrArg (Py.str tenant_id))) then (forbidden, db)
  else if negb (String.eqb (Py.str tenant_id) x_tenant_id) then
    (HTTPException 400 "X-Tenant-ID header mismatch", db)
  else
    let kpis := filter (fun k => KPIDefinition.tenant_id k =? tenant_id)
                       (kpi_definitions db) in
    let kpi_tiles := kpi_tiles_from db 0 kpis in
    let active_alerts :=
      Store.limit 5
        (Store.order_by_desc Alert.triggered_at
           (filter (fun a => (Alert.tenant_id a =? tenant_id)
                             && match Alert.resolved_at a with
                                | None => true
                                | Some _ => false
                                end)
                   (alerts db))) in
    match alert_tiles active_alerts with
    | Raise _ => (internal_error, db)
    | Ok alert_tiles =>
        let recent_tasks :=
          Store.limit 5
            (Store.order_by_desc (fun t => Some (Task.created_at t))
               (filter (fun t => Task.tenant_id t =? tenant_id) (tasks db))) in
        (internal_error, db)
    end.

(* -------------------------------------------------------------- *)
(** *** api/predictions.py *)

(** [forecasting_service.generate_forecast] and
    [generate_ensemble_forecast], which rest on Prophet, pandas and numpy:
    the model name and the two documents of the prediction they build. *)
Variable generate_forecast :
  list KPIValue.t -> KPIDefinition.t -> Z -> result MockForecastingService.forecast.
Variable generate_ensemble_forecast :
  list KPIValue.t -> KPIDefinition.t -> Z -> result MockForecastingService.forecast.

Definition run_forecast (now : datetime) (db : DB) (current_user : User.t)
    (x_tenant_id : string) (request : ForecastRequest)
    : response Prediction.t * DB :=
  if negb (verify_tenant_access current_user (StrArg x_tenant_id)) then (forbidden, db)
  else
    match Py.int x_tenant_id with
    | None => (internal_error, db)
    | Some tenant =>
        match Store.first (kpi_of (fr_kpi_id request) tenant) (kpi_definitions db) with
        | None => (HTTPException 404 "KPI not found", db)
        | Some kpi =>
            let kpi_values :=
              Store.limit 90
                (Store.order_by_desc (fun v => Some (KPIValue.timestamp v))
                   (filter (fun v => (KPIValue.kpi_id v =? fr_kpi_id request)
                                     && (KPIValue.tenant_id v =? tenant))
                           (kpi_values db))) in
            let forecast :=
              if String.eqb (fr_method request) "ensemble"
              then generate_ensemble_forecast kpi_values kpi (fr_forecast_days request)
              else generate_forecast kpi_values kpi (fr_forecast_days request) in
            match forecast with
            | Raise _ => (internal_error, db)
            | Ok f =>
                let '(prediction, db') :=
                  Store.add_prediction now db
                    (MockForecastingService.prediction_of kpi f) in
                (Return prediction, db')
            end
        end
    end.

Definition list_predictions (db : DB) (current_user : User.t)
    (x_tenant_id : string) : response (list Prediction.t) * DB :=
  if negb (verify_tenant_access current_user (StrArg x_tenant_id)) then (forbidden, db)
  else
    match Py.int x_tenant_id with
    | None => (internal_error, db)
    | Some tenant =>
        (Return (Store.limit 50
                   (Store.order_by_desc Prediction.created_at
                      (filter (fun p => Prediction.tenant_id p =? tenant)
                              (predictions db)))), db)
    end.

Definition get_prediction (db : DB) (current_user : User.t)
    (x_tenant_id : string) (prediction_id : Z) : response Prediction.t * DB :=
  if negb (verify_tenant_access current_user (StrArg x_tenant_id)) then (forbidden, db)
  else
    match Py.int x_tenant_id with
    | None => (internal_error, db)
    | Some tenant =>
        match Store.first (prediction_of prediction_id tenant) (predictions db) with
        | None => (HTTPException 404 "Prediction not found", db)
        | Some prediction => (Return prediction, db)
        end
    end.

(* -------------------------------------------------------------- *)
(** *** api/graph.py *)

(** [graph_service.query_graph], answered as the fields of the response;
    [graph_service.get_graph_statistics]; and the nodes and edges of the
    service's table of mock graphs under ["marketing_agency"]. *)
Variable query_graph : Z -> string -> option string -> result GraphQueryResponse.
Variable get_graph_statistics : Z -> option string -> result document.
Variable mock_graph_nodes : list graph_item.
Variable mock_graph_edges : list graph_item.

Definition graph_error (e : string) : GraphQueryResponse :=
  {| gq_success := false; gq_results := "[]"; gq_count := 0;
     gq_query_type := "error"; gq_error := Some e |}.

(** [int(x_tenant_id)] stands inside the [try] of this handler. *)
Definition query_graph_route (db : DB) (current_user : User.t)
    (x_tenant_id : string) (request : GraphQueryRequest)
    : response GraphQueryResponse * DB :=
  if negb (verify_tenant_access current_user (StrArg x_tenant_id)) then (forbidden, db)
  else
    match Py.int x_tenant_id with
    | None => (Return (graph_error (invalid_literal x_tenant_id)), db)
    | Some tenant =>
        match query_graph tenant (gq_query request) (gq_vertical request) with
        | Ok r => (Return r, db)
        | Raise e => (Return (graph_error e), db)
        end
    end.

Definition get_graph_statistics_route (db : DB) (current_user : User.t)
    (x_tenant_id : string) (vertical : option string) : response document * DB :=
  if negb (verify_tenant_access current_user (StrArg x_tenant_id)) then (forbidden, db)
  else
    match Py.int x_tenant_id with
    | None =>
        (HTTPException 500
           ("Failed to get graph statistics: " ++ invalid_literal x_tenant_id), db)
    | Some tenant =>
        match get_graph_statistics tenant vertical with
        | Ok stats => (Return stats, db)
        | Raise e => (HTTPException 500 ("Failed to get graph statistics: " ++ e), db)
        end
    end.

Definition get_graph_nodes (db : DB) (current_user : User.t)
    (x_tenant_id : string) (node_type : option string) (limit : Z)
    : response (list graph_item) * DB :=
  if negb (verify_tenant_access current_user (StrArg x_tenant_id)) then (forbidden, db)
  else (Return (slice_to limit (of_type node_type mock_graph_nodes)), db).

Definition get_graph_edges (db : DB) (current_user : User.t)
    (x_tenant_id : string) (rel_type : option string) (limit : Z)
    : response (list graph_item) * DB :=
  if negb (verify_tenant_access current_user (StrArg x_tenant_id)) then (forbidden, db)
  else (Return (slice_to limit (of_type rel_type mock_graph_edges)), db).

(* -------------------------------------------------------------- *)
(** *** api/ask.py *)

(** [llm_service.process_ai_query] on the question, the tenant and the
    caller's id and role, with the conversion of its answer. *)
Variable process_ai_query : string -> Z -> Z -> string -> result document.

Definition ask_assistant (db : DB) (current_user : User.t)
    (x_tenant_id : string) (question : string) : response document * DB :=
  if negb (verify_tenant_access current_user (StrArg x_tenant_id)) then (forbidden, db)
  else
    match Py.int x_tenant_id with
    | None =>
        (HTTPException 500
           ("Assistant query failed: " ++ invalid_literal x_tenant_id), db)
    | Some tenant =>
        match process_ai_query question tenant (User.id current_user)
                (User.role current_user) with
        | Ok answer => (Return answer, db)
        | Raise e => (HTTPException 500 ("Assistant query failed: " ++ e), db)
        end
    end.

(* -------------------------------------------------------------- *)
(** *** api/tenants.py *)

(** [get_tenant] hands the path parameter to the guard as the [int] it
    is; the header is optional and not read. *)
Definition get_tenant (db : DB) (current_user : User.t) (tenant_id : Z)
    : response Tenant.t * DB :=
  if negb (verify_tenant_access current_user (IntArg tenant_id)) then (forbidden, db)
  else
    match Store.first (fun t => Tenant.id t =? tenant_id) (tenants db) with
    | None => (HTTPException 404 "Tenant not found", db)
    | Some tenant => (Return tenant, db)
    end.

End Handlers.

(* ---------------------------------------------------------------- *)
(** *** One request against the tenant-scoped routes *)

(** The builtins and the collaborating services the handlers call. *)
Record Runtime := {
  isoformat : datetime -> string;
  py_round : float -> Z -> float;
  mock_records : string -> list Row;
  decode : string -> list Byte.byte -> result string;
  DictReader : string -> string -> result (list CSVConnectorService.reader_row);
  empty_suggestions : document;
  suggest_field_mapping : string -> string -> Row -> result document;
  repr_row : Row -> string;
  str_HTTPException : Z -> string -> string;
  generate_forecast :
    list KPIValue.t -> KPIDefinition.t -> Z -> result MockForecastingService.forecast;
  generate_ensemble_forecast :
    list KPIValue.t -> KPIDefinition.t -> Z -> result MockForecastingService.forecast;
  query_graph : Z -> string -> option string -> result GraphQueryResponse;
  get_graph_statistics : Z -> option string -> result document;
  mock_graph_nodes : list graph_item;
  mock_graph_edges : list graph_item;
  process_ai_query : string -> Z -> Z -> string -> result document
}.

Inductive request :=
| ListAlerts
| AcknowledgeAlert (alert_id : Z) (acknowledged : bool)
| ResolveAlert (alert_id : Z)
| GenerateMockAlerts (vertical : string)
| CreateConnector (connector : ConnectorCreate)
| ListConnectors
| SyncConnector (connector_id : Z)
| UploadCsv (connector_id : Z) (filename : string) (file_content : list Byte.byte)
| GetMapPreview (connector_id : Z)
| ListKpis
| CreateKpi (kpi : KPIDefinitionCreate)
| EvaluateKpi (kpi_id : Z) (body : EvaluateRequest)
| GetKpiValues (kpi_id : Z)
| GetDashboard (tenant_id : Z)
| RunForecast (body : ForecastRequest)
| ListPredictions
| GetPrediction (prediction_id : Z)
| QueryGraph (body : GraphQueryRequest)
| GetGraphStatistics (vertical : option string)
| GetGraphNodes (node_type : option string) (limit : Z)
| GetGraphEdges (rel_type : option string) (limit : Z)
| Ask (question : string)
| GetTenant (tenant_id : Z).

Inductive body :=
| AlertList (rows : list Alert.t)
| Message (m : message)
| Generated (m : message) (alerts_created : nat)
| ConnectorRow (row : Connector.t)
| ConnectorList (rows : list Connector.t)
| Synced (r : SyncResponse)
| Uploaded (r : UploadResponse document)
| Preview (s : document)
| KpiList (rows : list KPIDefinition.t)
| KpiRow (row : KPIDefinition.t)
| Evaluated (row : KPIValue.t) (msg : string)
| KpiValueList (rows : list KPIValue.t)
| Dashboard (d : DashboardResponse)
| PredictionRow (row : Prediction.t)
| PredictionList (rows : list Prediction.t)
| GraphAnswer (r : GraphQueryResponse)
| GraphStatistics (stats : document)
| GraphItems (items : list graph_item)
| Answer (a : document)
| TenantRow (row : Tenant.t).

(** What a request finds outside the store: the clock and the numbers
    [random.random()] hands out. *)
Record env := { now : datetime; rnd : nat -> float }.

Definition with_body {A} (f : A -> body) (out : response A * DB)
    : response body * DB :=
  match fst out with
  | Return a => (Return (f a), snd out)
  | HTTPException c d => (HTTPException c d, snd out)
  end.

Definition handle (verify_tenant_access : User.t -> guard_arg -> bool)
    (rt : Runtime) (e : env) (db : DB) (current_user : User.t)
    (x_tenant_id : string) (req : request) : response body * DB :=
  match req with
  | ListAlerts =>
      with_body AlertList
        (list_alerts verify_tenant_access db current_user x_tenant_id)
  | AcknowledgeAlert alert_id acknowledged =>
      with_body Message
        (acknowledge_alert verify_tenant_access (now e) db current_user
           x_tenant_id alert_id acknowledged)
  | ResolveAlert alert_id =>
      with_body Message
        (resolve_alert verify_tenant_access (now e) db current_user
           x_tenant_id alert_id)
  | GenerateMockAlerts vertical =>
      with_body (fun mn => Generated (fst mn) (snd mn))
        (generate_mock_alerts verify_tenant_access (isoformat rt) (rnd e) (now e)
           db current_user x_tenant_id vertical)
  | CreateConnector connector =>
      with_body ConnectorRow
        (create_connector verify_tenant_access (now e) db current_user
           x_tenant_id connector)
  | ListConnectors =>
      with_body ConnectorList
        (list_connectors verify_tenant_access db current_user x_tenant_id)
  | SyncConnector connector_id =>
      with_body Synced
        (sync_connector verify_tenant_access (isoformat rt) (mock_records rt)
           (now e) db current_user x_tenant_id connector_id)
  | UploadCsv connector_id filename file_content =>
      with_body Uploaded
        (upload_csv verify_tenant_access (isoformat rt) (decode rt) (DictReader rt)
           (empty_suggestions rt) (suggest_field_mapping rt) (repr_row rt)
           (str_HTTPException rt) (now e) db current_user x_tenant_id
           connector_id filename file_content)
  | GetMapPreview connector_id =>
      with_body Preview
        (get_map_preview verify_tenant_access (suggest_field_mapping rt)
           db current_user x_tenant_id connector_id)
  | ListKpis =>
      with_body KpiList (list_kpis verify_tenant_access db current_user x_tenant_id)
  | CreateKpi kpi =>
      with_body KpiRow (create_kpi verify_tenant_access db current_user x_tenant_id kpi)
  | EvaluateKpi kpi_id request =>
      with_body (fun vm => Evaluated (fst vm) (snd vm))
        (evaluate_kpi verify_tenant_access (py_round rt) (now e) (rnd e 0%nat)
           db current_user x_tenant_id kpi_id request)
  | GetKpiValues kpi_id =>
      with_body KpiValueList
        (get_kpi_values verify_tenant_access db current_user x_tenant_id kpi_id)
  | GetDashboard tenant_id =>
      with_body Dashboard
        (get_dashboard verify_tenant_access (isoformat rt) (now e) db current_user
           tenant_id x_tenant_id)
  | RunForecast request =>
      with_body PredictionRow
        (run_forecast verify_tenant_access (generate_forecast rt)
           (generate_ensemble_forecast rt) (now e) db current_user x_tenant_id
           request)
  | ListPredictions =>
      with_body PredictionList
        (list_predictions verify_tenant_access db current_user x_tenant_id)
  | GetPrediction prediction_id =>
      with_body PredictionRow
        (get_prediction verify_tenant_access db current_user x_tenant_id
           prediction_id)
  | QueryGraph request =>
      with_body GraphAnswer
        (query_graph_route verify_tenant_access (query_graph rt) db current_user
           x_tenant_id request)
  | GetGraphStatistics vertical =>
      with_body GraphStatistics
        (get_graph_statistics_route verify_tenant_access (get_graph_statistics rt)
           db current_user x_tenant_id vertical)
  | GetGraphNodes node_type limit =>
      with_body GraphItems
        (get_graph_nodes verify_tenant_access (mock_graph_nodes rt) db current_user
           x_tenant_id node_type limit)
  | GetGraphEdges rel_type limit =>
      with_body GraphItems
        (get_graph_edges verify_tenant_access (mock_graph_edges rt) db current_user
           x_tenant_id rel_type limit)
  | Ask question =>
      with_body Answer
        (ask_assistant verify_tenant_access (process_ai_query rt) db current_user
           x_tenant_id question)
  | GetTenant tenant_id =>
      with_body TenantRow (get_tenant verify_tenant_access db current_user tenant_id)
  end.

(** The tenant identifier a request hands to the guard: the path parameter
    of the dashboard and tenant routes, the [X-Tenant-ID] header of every
    other route. *)
Definition asserted_tenant (x_tenant_id : string) (req : request) : guard_arg :=
  match req with
  | GetDashboard tenant_id => StrArg (Py.str tenant_id)
  | GetTenant tenant_id => IntArg tenant_id
  | _ => StrArg x_tenant_id
  end.


(** The rows of a table that belong to another tenant than [t]. *)
Definition others {A} (tenant_of : A -> Z) (t : Z) (rows : list A) : list A :=
  filter (fun r => negb (tenant_of r =? t)) rows.


(** Modelled from the spec: [app/core/security.py] is not among the
    sources, so this [verify_tenant_access] follows section 4.1, "permit
    access only if they match": the caller's home tenant is the asserted
    tenant identifier, compared as text when the identifier comes as the
    header or as [str(tenant_id)] and as a number when it comes as the
    path parameter.  The specification names no role with cross-tenant
    privilege, and none is modelled. *)
Definition verify_tenant_access (user : User.t) (tenant_id : guard_arg) : bool :=
  match tenant_id with
  | StrArg s => String.eqb (Py.str (User.tenant_id user)) s
  | IntArg n => User.tenant_id user =? n
  end.

End Api.

(* ================================================================== *)
(** ** The specification's reading of a rule condition *)

Module ConditionSpec.

Inductive operator := Lt | Gt | Eq.

Definition symbol (op : operator) : string :=
  match op with
  | Lt => "<"
  | Gt => ">"
  | Eq => "=="
  end.

(** A condition text is either a comparison, [lhs op rhs], or a text with
    none of the three operators in it. *)
Inductive shape :=
| Comparison (lhs : string) (op : operator) (rhs : string)
| NoOperator (text : string).

Definition render (sh : shape) : string :=
  match sh with
  | Comparison lhs op rhs => lhs ++ symbol op ++ rhs
  | NoOperator text => text
  end.

Definition free_of (c : ascii) (s : string) : bool := negb (Py.has_char c s).

(** The operator of a comparison is the only operator of its text. *)
Definition well_formed (sh : shape) : bool :=
  match sh with
  | Comparison lhs Lt rhs => free_of "<" lhs && free_of "<" rhs
  | Comparison lhs Gt rhs =>
      free_of "<" lhs && free_of "<" rhs && free_of ">" lhs && free_of ">" rhs
  | Comparison lhs Eq rhs =>
      free_of "<" lhs && free_of "<" rhs && free_of ">" lhs && free_of ">" rhs
      && free_of "=" lhs && negb (Py.contains "==" rhs)
  | NoOperator text =>
      negb (Py.contains "<" text) && negb (Py.contains ">" text)
      && negb (Py.contains "==" text)
  end.

(** The comparison, read as it is written: [==] is equality. *)
Definition holds_exactly (value : float) (op : operator) (threshold : float) : bool :=
  match op with
  | Lt => PrimFloat.ltb value threshold
  | Gt => PrimFloat.ltb threshold value
  | Eq => PrimFloat.eqb value threshold
  end.

(** The comparison, as the evaluator makes it: [==] is closeness within
    one hundredth. *)
Definition holds (value : float) (op : operator) (threshold : float) : bool :=
  match op with
  | Lt => PrimFloat.ltb value threshold
  | Gt => PrimFloat.ltb threshold value
  | Eq => PrimFloat.ltb (PrimFloat.abs (PrimFloat.sub value threshold)) 0.01%float
  end.

Section Verdict.

Variable py_float : string -> option float.
(** How a comparison of a value with a parsed threshold is decided. *)
Variable decide : float -> operator -> float -> bool.

(** A comparison matches when its right-hand side parses as a float and
    the comparison holds; anything else never matches. *)
Definition verdict (value : float) (sh : shape) : bool :=
  match sh with
  | Comparison _ op rhs =>
      match py_float (Py.strip rhs) with
      | Some threshold => decide value op threshold
      | None => false
      end
  | NoOperator _ => false
  end.

End Verdict.

End ConditionSpec.

(* ================================================================== *)
(** ** The specification's reading of a failing transformation *)

Module TransformSpec.

Section Failure.

Variable py_float : string -> option float.
Variable fromisoformat : string -> option datetime.

Definition is_none {A} (o : option A) : bool :=
  match o with None => true | Some _ => false end.

(** The transformation of a field fails when the parse its target calls
    for raises: the date parse of a date or time field, the number parse
    of a numeric field.  Case folding and boolean coercion have no way to
    fail, and an empty value is not transformed at all. *)
Definition fails (value target_field : string) : bool :=
  negb (String.eqb value EmptyString)
  && negb (Py.mem target_field ["email"; "source"])
  && if (Py.contains "date" target_field || Py.contains "time" target_field)%bool
     then is_none (fromisoformat (Py.replace_char "Z" "+00:00" value))
     else Py.mem target_field ["value"; "cost"; "budget"; "amount"]
          && is_none (py_float (Py.replace_char "," EmptyString
                                  (Py.replace_char "$" EmptyString value))).

End Failure.

End TransformSpec.

(* ================================================================== *)
(** ** api/auth.py: logging in *)

Module ApiAuth.

Section Login.

(** [verify_password] and [create_access_token] of
    [app/core/security.py], which is not among the sources.
    [create_access_token] is the function as it answers during the call:
    the token carries an expiry counted from then. *)
Variable verify_password : string -> string -> bool.
Variable create_access_token : string -> string -> Z -> string.

Definition unauthorized : response Api.Token :=
  HTTPException 401 "Incorrect email or password".

(** [login]: the form's [username] is the e-mail. *)
Definition login (db : DB) (username password : string)
    : response Api.Token * DB :=
  match Store.first (fun u => String.eqb (User.email u) username) (users db) with
  | None => (unauthorized, db)
  | Some user =>
      if negb (verify_password password (User.hashed_password user)) then
        (unauthorized, db)
      else
        (Return {| Api.access_token :=
                     create_access_token (Py.str (User.id user))
                       (Py.str (User.tenant_id user))
                       Api.access_token_expire_minutes;
                   Api.token_type := "bearer";
                   Api.token_tenant_id := User.tenant_id user;
                   Api.token_user_id := User.id user |},
         db)
  end.

End Login.

End ApiAuth.

(* ================================================================== *)
(** ** services/alert_engine.py: the detection passes of MockAnomalyDetector

    The z-score pass and the trend pass, over [np.mean] and [np.std].  A
    difference, a quotient and an absolute value of such numbers are numpy
    scalars: division by zero gives an infinity or a NaN and raises
    nothing. *)

Module MockAnomalyDetector.

Import AlertEngine.

Definition z_score_threshold : float := 2.

Section Detector.

Variable isoformat : datetime -> string.
Variable np_mean : list float -> float.
Variable np_std : list float -> float.

(** [_detect_z_score_anomalies]; [zip] stops at the shorter list. *)
Definition _detect_z_score_anomalies (values : list float)
    (timestamps : list datetime) : list anomaly :=
  if (length values <? 5)%nat then []
  else
    let mean_val := np_mean values in
    let std_val := np_std values in
    if PrimFloat.eqb std_val 0 then []
    else
      flat_map
        (fun vt =>
           let z_score := PrimFloat.abs ((fst vt - mean_val) / std_val) in
           if PrimFloat.ltb z_score_threshold z_score then
             [ {| a_type := "z_score_outlier";
                  a_score := z_score;
                  a_value := fst vt;
                  a_expected_range :=
                    (mean_val - 2 * std_val, mean_val + 2 * std_val);
                  a_timestamp := isoformat (snd vt);
                  a_method := "z_score" |} ]
           else [])%float
        (combine values timestamps).

(** [values[start_idx:i+1]] with [start_idx = max(0, i - window_size + 1)]. *)
Definition window_values (values : list float) (window_size i : nat) : list float :=
  let start_idx := (i + 1 - window_size)%nat in
  skipn start_idx (firstn (i + 1) values).

(** [rolling_mean] and [rolling_std]: one entry per index. *)
Definition rolling (f : list float -> float) (values : list float)
    (window_size : nat) : list float :=
  map (fun i => f (window_values values window_size i)) (seq 0 (length values)).

(** The body of the second loop at index [i >= 1].  The guard reads the
    deviation of the window that ends at [i]; the score divides by the
    deviation of the window that ends at [i - 1].  [timestamps[i]] raises
    [IndexError] past the end of the list. *)
Definition trend_step (values : list float) (timestamps : list datetime)
    (rolling_mean rolling_std : list float)
    (acc : result (list anomaly)) (i : nat) : result (list anomaly) :=
  let? anomalies := acc in
  if PrimFloat.ltb 0 (nth i rolling_std 0%float) then
    let mean_before := nth (i - 1) rolling_mean 0%float in
    let std_before := nth (i - 1) rolling_std 0%float in
    let value := nth i values 0%float in
    let z_score := PrimFloat.abs ((value - mean_before) / std_before)%float in
    if PrimFloat.ltb 2.5 z_score then
      match nth_error timestamps i with
      | None => Raise "list index out of range"
      | Some timestamp =>
          Ok (anomalies
              ++ [ {| a_type := "trend_anomaly";
                      a_score := z_score;
                      a_value := value;
                      a_expected_range :=
                        (mean_before - 2 * std_before,
                         mean_before + 2 * std_before)%float;
                      a_timestamp := isoformat timestamp;
                      a_method := "trend_analysis" |} ])%list
      end
    else Ok anomalies
  else Ok anomalies.

(** [_detect_trend_anomalies]. *)
Definition _detect_trend_anomalies (values : list float)
    (timestamps : list datetime) : result (list anomaly) :=
  if (length values <? 7)%nat then Ok []
  else
    let window_size := Nat.min 7 (length values / 2) in
    let rolling_mean := rolling np_mean values window_size in
    let rolling_std := rolling np_std values window_size in
    fold_left (trend_step values timestamps rolling_mean rolling_std)
      (seq 1 (length values - 1)) (Ok []).

End Detector.

End MockAnomalyDetector.

(* ================================================================== *)
(** ** services/llm_service.py: field mapping suggestions

    The service keeps its table of mappings for as long as the process
    lives, and [suggest_field_mapping] writes the confidences it hands out
    back into it: the table is an argument and a result here. *)

Module MockLLMService.

Record field_mapping := {
  source_field : string;
  target_field : string;
  confidence : float;
  suggested_transformation : string;
  description : string
}.

Definition mk_mapping (s t : string) (c : float) (tr d : string) : field_mapping :=
  {| source_field := s; target_field := t; confidence := c;
     suggested_transformation := tr; description := d |}.

(** The table: connector type, then vertical or endpoint. *)
Definition table := Dict.t (Dict.t (list field_mapping)).

(** [_load_field_mappings]. *)
Definition field_mappings : table :=
  [ ("csv",
     [ ("marketing_agency",
        [ mk_mapping "email" "email" 0.95 "none" "Direct email mapping";
          mk_mapping "full_name" "full_name" 0.92 "none" "Direct name mapping";
          mk_mapping "company" "company" 0.88 "none" "Direct company mapping";
          mk_mapping "source" "source" 0.90 "lowercase"
            "Convert to lowercase for consistency";
          mk_mapping "status" "status" 0.85 "normalize_status"
            "Normalize status values";
          mk_mapping "created_at" "created_at" 0.93 "parse_datetime"
            "Parse datetime string";
          mk_mapping "value" "value" 0.87 "parse_float" "Parse numeric value" ]);
       ("urgent_clinic",
        [ mk_mapping "first_name" "first_name" 0.96 "none"
            "Direct first name mapping";
          mk_mapping "last_name" "last_name" 0.96 "none" "Direct last name mapping";
          mk_mapping "date_of_birth" "date_of_birth" 0.94 "parse_date"
            "Parse date string";
          mk_mapping "phone" "phone" 0.89 "normalize_phone"
            "Normalize phone number format";
          mk_mapping "email" "email" 0.91 "lowercase" "Convert email to lowercase";
          mk_mapping "insurance_provider" "insurance_provider" 0.88 "none"
            "Direct insurance provider mapping";
          mk_mapping "insurance_id" "insurance_id" 0.92 "none"
            "Direct insurance ID mapping" ]);
       ("local_police",
        [ mk_mapping "incident_id" "incident_id" 0.98 "none"
            "Direct incident ID mapping";
          mk_mapping "incident_type" "incident_type" 0.90 "normalize_category"
            "Normalize incident category";
          mk_mapping "location" "location" 0.85 "geocode"
            "Geocode location for mapping";
          mk_mapping "reported_at" "reported_at" 0.94 "parse_datetime"
            "Parse incident timestamp";
          mk_mapping "officer_id" "officer_id" 0.92 "none"
            "Direct officer ID mapping";
          mk_mapping "status" "status" 0.88 "normalize_status"
            "Normalize case status" ]) ]);
    ("hubspot",
     [ ("contacts",
        [ mk_mapping "properties.email" "email" 0.95 "none" "HubSpot contact email";
          mk_mapping "properties.firstname" "first_name" 0.92 "none"
            "HubSpot first name";
          mk_mapping "properties.lastname" "last_name" 0.92 "none"
            "HubSpot last name";
          mk_mapping "properties.company" "company" 0.88 "none" "HubSpot company";
          mk_mapping "properties.lead_status" "status" 0.85 "map_lead_status"
            "Map HubSpot lead status";
          mk_mapping "properties.createdate" "created_at" 0.93 "parse_timestamp"
            "Parse HubSpot timestamp" ]) ]);
    ("google_ads",
     [ ("campaigns",
        [ mk_mapping "campaign.id" "campaign_id" 0.98 "none"
            "Google Ads campaign ID";
          mk_mapping "campaign.name" "campaign_name" 0.95 "none"
            "Google Ads campaign name";
          mk_mapping "metrics.clicks" "clicks" 0.97 "parse_int" "Parse click count";
          mk_mapping "metrics.impressions" "impressions" 0.97 "parse_int"
            "Parse impression count";
          mk_mapping "metrics.cost_micros" "cost" 0.96 "micros_to_dollars"
            "Convert micros to dollars";
          mk_mapping "segments.date" "date" 0.94 "parse_date"
            "Parse campaign date" ]) ]) ]%float.

Definition confidence_threshold : float := 0.8.

(** [min(a, b)] and [max(a, b)] of two numbers: the first argument, unless
    the second is smaller (larger). *)
Definition py_min (a b : float) : float := if PrimFloat.ltb b a then b else a.
Definition py_max (a b : float) : float := if PrimFloat.ltb a b then b else a.

Definition with_confidence (m : field_mapping) (c : float) : field_mapping :=
  {| source_field := source_field m; target_field := target_field m;
     confidence := c;
     suggested_transformation := suggested_transformation m;
     description := description m |}.

(** What the call answers; [suggested_mappings] is the list of the table
    itself, as the loop left it. *)
Record suggestions := {
  suggested_mappings : list field_mapping;
  suggestions_threshold : float;
  total_fields : nat;
  mapped_fields : nat
}.

Section Suggest.

(** [rnd n] is the [n]-th number [random.random()] hands out during the
    call. *)
Variable rnd : nat -> float.

(** [for mapping in mappings: mapping["confidence"] = ...], from draw [n]. *)
Fixpoint adjust (n : nat) (mappings : list field_mapping) : list field_mapping :=
  match mappings with
  | [] => []
  | mapping :: rest =>
      with_confidence mapping
        (py_max 0.5
           (py_min 0.99 (confidence mapping + Py.uniform (rnd n) (-0.1) 0.1)))%float
      :: adjust (S n) rest
  end.

(** [suggest_field_mapping]; the defaults of the two [get] calls are fresh
    objects, which the table does not hold. *)
Definition suggest_field_mapping (field_mappings : table)
    (connector_type vertical : string) (sample_data : Row) : suggestions * table :=
  match Dict.get connector_type field_mappings with
  | None =>
      ({| suggested_mappings := []; suggestions_threshold := confidence_threshold;
          total_fields := length sample_data; mapped_fields := 0 |},
       field_mappings)
  | Some by_vertical =>
      match Dict.get vertical by_vertical with
      | None =>
          ({| suggested_mappings := [];
              suggestions_threshold := confidence_threshold;
              total_fields := length sample_data; mapped_fields := 0 |},
           field_mappings)
      | Some mappings =>
          let mappings := adjust 0 mappings in
          ({| suggested_mappings := mappings;
              suggestions_threshold := confidence_threshold;
              total_fields := length sample_data;
              mapped_fields := length mappings |},
           Dict.set connector_type (Dict.set vertical mappings by_vertical)
             field_mappings)
      end
  end.

End Suggest.

(** The table without its confidences. *)
Definition shape (field_mappings : table) :=
  map (fun by_type =>
         (fst by_type,
          map (fun by_vertical =>
                 (fst by_vertical,
                  map (fun m => with_confidence m 0) (snd by_vertical)))
              (snd by_type)))
      field_mappings.

(* ---------------------------------------------------------------- *)
(** *** The assistant

    [process_ai_query] answers from a table of canned responses, which it
    keeps like the table of mappings: the response it hands out is the
    entry of the table, with a new confidence and a new provenance written
    into it. *)

Record suggested_action := {
  action_type : string;
  title : string;
  action_description : string;
  action_confidence : float
}.

Record provenance_entry := {
  provenance_source : string;
  provenance_timestamp : string;
  data_points : Z
}.

(** A response; an entry that was never handed out has no provenance, which
    reads as the empty list. *)
Record assistant_response := {
  answer : string;
  suggested_actions : list suggested_action;
  sources : list string;
  confidence_score : float;
  provenance : list provenance_entry
}.

Record category := {
  patterns : list string;
  responses : list assistant_response
}.

Definition mk_action (ty t d : string) (c : float) : suggested_action :=
  {| action_type := ty; title := t; action_description := d;
     action_confidence := c |}.

Definition mk_response (a : string) (acts : list suggested_action)
    (srcs : list string) (c : float) : assistant_response :=
  {| answer := a; suggested_actions := acts; sources := srcs;
     confidence_score := c; provenance := [] |}.

(** [_load_assistant_responses]. *)
Definition assistant_responses : Dict.t category :=
  [ ("kpi_questions",
     {| patterns := ["kpi"; "performance"; "metrics"; "conversion"; "revenue"];
        responses :=
          [ mk_response
              "Based on your current KPIs, I can see that lead conversion rates have increased by 15% this month compared to last month. Your top-performing campaign is the Google Ads search campaign with a 3.2% conversion rate."
              [ mk_action "optimize_campaign" "Optimize Google Ads Campaign"
                  "Increase budget for the top-performing search campaign by 20%"
                  0.85;
                mk_action "create_alert" "Set Up Conversion Alert"
                  "Create an alert to monitor conversion rate drops below 2.5%"
                  0.75 ]
              ["kpi_values"; "campaign_performance"; "conversion_analytics"] 0.82;
            mk_response
              "Your marketing KPIs show strong performance this quarter. Lead volume is up 25%, cost per lead decreased by 12%, and ROI improved to 320%. The Facebook campaign is your most efficient channel."
              [ mk_action "scale_campaign" "Scale Facebook Campaign"
                  "Increase Facebook ad spend by 30% to capitalize on strong performance"
                  0.88 ]
              ["kpi_values"; "campaign_analytics"; "roi_analysis"] 0.87 ] |});
    ("alert_questions",
     {| patterns := ["alert"; "issue"; "problem"; "warning"; "critical"];
        responses :=
          [ mk_response
              "I found 3 active alerts in your system. The most critical one is a 40% drop in lead quality score, which started 2 days ago. This appears to be related to changes in your landing page traffic sources."
              [ mk_action "investigate_issue" "Investigate Lead Quality Drop"
                  "Review traffic sources and landing page performance for the last 7 days"
                  0.90;
                mk_action "create_task" "Fix Landing Page Issues"
                  "Assign task to marketing team to optimize landing page conversion"
                  0.80 ]
              ["alerts"; "lead_quality_metrics"; "traffic_analysis"] 0.88 ] |});
    ("forecast_questions",
     {| patterns := ["forecast"; "prediction"; "trend"; "future"; "next month";
                     "next quarter"];
        responses :=
          [ mk_response
              "Based on current trends, I predict that your lead volume will increase by 25% over the next 30 days, but conversion rates may drop by 5% due to increased competition. Revenue is projected to grow by 18%."
              [ mk_action "prepare_scaling" "Prepare for Lead Volume Increase"
                  "Scale up your sales team capacity to handle 25% more leads"
                  0.78;
                mk_action "optimize_conversion" "Improve Conversion Rates"
                  "Implement A/B testing for landing pages to maintain conversion rates"
                  0.72 ]
              ["forecasting_model"; "historical_data"; "market_trends"] 0.75 ] |});
    ("general_questions",
     {| patterns := ["help"; "what"; "how"; "show"; "explain"];
        responses :=
          [ mk_response
              "I can help you with KPI analysis, alert management, forecasting, and optimization recommendations. I can analyze your data to provide insights on lead generation, conversion rates, campaign performance, and more."
              [ mk_action "explore_dashboard" "View Dashboard"
                  "Check your main dashboard for an overview of key metrics"
                  0.60 ]
              ["general_knowledge"] 0.50 ] |}) ]%float.

(** The response to a question no pattern occurs in. *)
Definition default_response : assistant_response :=
  mk_response
    "I can help you with KPI analysis, alert management, forecasting, and optimization recommendations. Could you be more specific about what you'd like to know?"
    [ mk_action "explore_dashboard" "View Dashboard"
        "Check your main dashboard for an overview of key metrics" 0.60 ]
    ["general_knowledge"] 0.50.

(** [xs[n] = x]. *)
Fixpoint set_nth {A} (n : nat) (x : A) (xs : list A) : list A :=
  match xs, n with
  | [], _ => []
  | _ :: rest, O => x :: rest
  | y :: rest, S k => y :: set_nth k x rest
  end.

(** [timedelta(minutes=n)], in seconds. *)
Definition minutes (n : Z) : Z := n * 60.

Section Ask.

Variable isoformat : datetime -> string.
(** [rnd n] and [randint n a b] as before; [choice n] is the index
    [random.choice] picks in a list of [n] entries; [utcnow n] is the
    [n]-th reading of the clock. *)
Variable rnd : nat -> float.
Variable choice : nat -> nat.
Variable randint : nat -> Z -> Z -> Z.
Variable utcnow : nat -> datetime.

(** Some pattern of the category occurs in the question. *)
Definition asked_for (question_lower : string) (data : category) : bool :=
  existsb (fun pattern => Py.contains pattern question_lower) (patterns data).

(** The response as the matching branch leaves it. *)
Definition refreshed (response : assistant_response) : assistant_response :=
  {| answer := answer response;
     suggested_actions := suggested_actions response;
     sources := sources response;
     confidence_score :=
       py_max 0.3
         (py_min 0.95
            (confidence_score response + Py.uniform (rnd 0) (-0.1) 0.1))%float;
     provenance :=
       [ {| provenance_source := "kpi_engine";
            provenance_timestamp :=
              isoformat (utcnow 0 - minutes (randint 0 1 60));
            data_points := randint 1 100 500 |};
         {| provenance_source := "alert_system";
            provenance_timestamp :=
              isoformat (utcnow 1 - minutes (randint 2 1 30));
            data_points := randint 3 1 10 |} ] |}.

(** [process_ai_query]: the first category, in the order of the table, one
    of whose patterns occurs in the lower-cased question answers; neither
    the tenant nor the context is read. *)
Definition process_ai_query (assistant_responses : Dict.t category)
    (question : string) (tenant_id : Z) (context : Z * string)
    : result (assistant_response * Dict.t category) :=
  let question_lower := Py.lower question in
  match find (fun entry => asked_for question_lower (snd entry))
             assistant_responses with
  | None => Ok (default_response, assistant_responses)
  | Some (name, data) =>
      let index := choice (length (responses data)) in
      match nth_error (responses data) index with
      | None => Raise "Cannot choose from an empty sequence"
      | Some response =>
          let response := refreshed response in
          Ok (response,
              Dict.set name
                {| patterns := patterns data;
                   responses := set_nth index response (responses data) |}
                assistant_responses)
      end
  end.

End Ask.

End MockLLMService.

(* ================================================================== *)
(** ** services/graph_service.py

    The module builds its service without a Neo4j address, so every query
    is answered from the table of mock graphs. *)

Module MockGraphService.

(** A property value of a node or an edge. *)
Inductive json :=
| JStr (s : string)
| JInt (n : Z)
| JFloat (f : float).

Record node_data := {
  data_id : string;
  data_type : string;
  data_properties : Dict.t json
}.

Record edge_data := {
  data_source : string;
  data_target : string;
  data_rel : string;
  data_edge_properties : Dict.t json
}.

Record graph_data := { nodes : list node_data; edges : list edge_data }.

Definition mk_node (i t : string) (p : Dict.t json) : node_data :=
  {| data_id := i; data_type := t; data_properties := p |}.

Definition mk_edge (s t r : string) (p : Dict.t json) : edge_data :=
  {| data_source := s; data_target := t; data_rel := r;
     data_edge_properties := p |}.

(** [_load_mock_graph_data]. *)
Definition mock_graph_data : Dict.t graph_data :=
  [ ("marketing_agency",
     {| nodes :=
          [ mk_node "campaign_1" "campaign"
              [ ("name", JStr "Google Ads Search Campaign"); ("budget", JInt 5000);
                ("status", JStr "active"); ("platform", JStr "google") ];
            mk_node "ad_1" "ad"
              [ ("headline", JStr "Best Marketing Software"); ("clicks", JInt 150);
                ("impressions", JInt 5000); ("ctr", JFloat 0.03) ];
            mk_node "lead_1" "lead"
              [ ("email", JStr "john@example.com"); ("company", JStr "TechCorp");
                ("status", JStr "qualified"); ("value", JInt 2500) ];
            mk_node "lead_2" "lead"
              [ ("email", JStr "jane@example.com"); ("company", JStr "StartupIO");
                ("status", JStr "converted"); ("value", JInt 5000) ];
            mk_node "conversion_1" "conversion"
              [ ("amount", JInt 5000); ("date", JStr "2024-01-15");
                ("type", JStr "sale") ] ];
        edges :=
          [ mk_edge "campaign_1" "ad_1" "contains" [("weight", JFloat 1)];
            mk_edge "ad_1" "lead_1" "generates"
              [("weight", JFloat 0.8); ("timestamp", JStr "2024-01-10")];
            mk_edge "ad_1" "lead_2" "generates"
              [("weight", JFloat 0.9); ("timestamp", JStr "2024-01-12")];
            mk_edge "lead_2" "conversion_1" "converts_to"
              [("weight", JFloat 1); ("timestamp", JStr "2024-01-15")] ] |});
    ("urgent_clinic",
     {| nodes :=
          [ mk_node "patient_1" "patient"
              [ ("first_name", JStr "John"); ("last_name", JStr "Smith");
                ("age", JInt 35); ("insurance", JStr "BlueCross") ];
            mk_node "visit_1" "visit"
              [ ("chief_complaint", JStr "Chest pain"); ("wait_time", JInt 25);
                ("treatment_time", JInt 30); ("cost", JInt 150) ];
            mk_node "provider_1" "provider"
              [ ("name", JStr "Dr. Johnson");
                ("specialty", JStr "Emergency Medicine"); ("experience", JInt 10) ];
            mk_node "diagnosis_1" "diagnosis"
              [ ("code", JStr "R06.02"); ("description", JStr "Shortness of breath");
                ("severity", JStr "moderate") ] ];
        edges :=
          [ mk_edge "patient_1" "visit_1" "has_visit" [("weight", JFloat 1)];
            mk_edge "provider_1" "visit_1" "treats" [("weight", JFloat 1)];
            mk_edge "visit_1" "diagnosis_1" "results_in" [("weight", JFloat 0.9)] ] |});
    ("local_police",
     {| nodes :=
          [ mk_node "incident_1" "incident"
              [ ("type", JStr "Theft"); ("location", JStr "123 Main St");
                ("severity", JStr "medium"); ("status", JStr "investigating") ];
            mk_node "officer_1" "officer"
              [ ("name", JStr "Officer Smith"); ("badge", JStr "12345");
                ("experience", JInt 5); ("department", JStr "Patrol") ];
            mk_node "suspect_1" "suspect"
              [ ("name", JStr "John Doe"); ("age", JInt 28);
                ("prior_convictions", JInt 2) ];
            mk_node "evidence_1" "evidence"
              [ ("type", JStr "Fingerprint"); ("location", JStr "Scene");
                ("status", JStr "analyzed") ] ];
        edges :=
          [ mk_edge "officer_1" "incident_1" "responds_to"
              [("weight", JFloat 1); ("response_time", JInt 5)];
            mk_edge "incident_1" "suspect_1" "involves" [("weight", JFloat 0.8)];
            mk_edge "incident_1" "evidence_1" "has_evidence"
              [("weight", JFloat 0.9)] ] |}) ]%float.

(** [self.mock_graph_data.get(vertical, {"nodes": [], "edges": []})]; the
    vertical may be [None]. *)
Definition graph_of (vertical : option string) : graph_data :=
  match vertical with
  | None => {| nodes := []; edges := [] |}
  | Some v =>
      match Dict.get v mock_graph_data with
      | Some g => g
      | None => {| nodes := []; edges := [] |}
      end
  end.

(** [counts[t] = counts.get(t, 0) + 1] for every type, in order. *)
Definition count_types (types : list string) : Dict.t Z :=
  fold_left
    (fun counts t =>
       Dict.set t (match Dict.get t counts with Some n => n | None => 0 end + 1)
         counts)
    types [].

Record statistics := {
  total_nodes : nat;
  total_edges : nat;
  node_types : Dict.t Z;
  edge_types : Dict.t Z;
  density : float;
  average_degree : float
}.

(** [float(n)] of a length. *)
Definition float_of_nat (n : nat) : float :=
  PrimFloat.of_uint63 (Uint63.of_Z (Z.of_nat n)).

(** [get_graph_statistics]; the tenant is not read.  [max(1, x)] is [x]
    where [x] is greater than 1, and 1 otherwise. *)
Definition get_graph_statistics (tenant_id : Z) (vertical : option string)
    : statistics :=
  let mock_data := graph_of vertical in
  let n := length (nodes mock_data) in
  let e := length (edges mock_data) in
  {| total_nodes := n;
     total_edges := e;
     node_types := count_types (map data_type (nodes mock_data));
     edge_types := count_types (map data_rel (edges mock_data));
     density :=
       (float_of_nat e
        / MockLLMService.py_max 1 (float_of_nat (n * (n - 1)) / 2))%float;
     average_degree := (float_of_nat (2 * e) / float_of_nat (Nat.max 1 n))%float |}.

End MockGraphService.

(* ================================================================== *)
(** ** services/forecasting_service.py: choosing a forecast

    The mock forecast is embedded in full.  The Prophet forecast, the trend
    forecast over at least two rows, the frame [_prepare_dataframe] makes
    and [_combine_forecasts] rest on Prophet, pandas and numpy and are
    variables. *)

Module ForecastingService.

Record forecast_point := {
  point_date : string;
  point_forecast : float;
  lower_bound : float;
  upper_bound : float;
  point_confidence : float
}.

Record snapshot := {
  snapshot_kpi_id : Z;
  snapshot_kpi_name : string;
  data_points : nat;
  snapshot_forecast_days : Z;
  model_type : string
}.

Record trend_analysis_t := {
  historical_trend : float;
  forecast_trend : float;
  trend_direction : string;
  volatility : float;
  trend_confidence : float
}.

(** The [Prediction] of [_generate_mock_forecast]. *)
Record mock_prediction := {
  mock_tenant_id : Z;
  mock_model_name : string;
  mock_input_snapshot : snapshot;
  mock_forecast : list forecast_point;
  mock_trend_analysis : trend_analysis_t
}.

(** A prediction: the mock one, or one a data-driven method computed. *)
Inductive prediction :=
| Mock (p : mock_prediction)
| Computed (tenant_id : Z) (f : MockForecastingService.forecast).

Definition float_of_nat (n : nat) : float :=
  PrimFloat.of_uint63 (Uint63.of_Z (Z.of_nat n)).

Section Service.

Variable isoformat : datetime -> string.
Variable py_round : float -> Z -> float.
(** [rnd n] is the [n]-th number [random.random()] hands out during a call
    of [_generate_mock_forecast], [utcnow n] the [n]-th reading of the clock
    during it. *)
Variable rnd : nat -> float.
Variable utcnow : nat -> datetime.

(** The body of the loop for day [i]. *)
Definition mock_point (base_value trend : float) (i : nat) : forecast_point :=
  let forecast_date := utcnow i + Api.days (Z.of_nat i + 1) in
  let forecast_value := (base_value * (1 + trend * float_of_nat i))%float in
  let noise := (Py.uniform (rnd (2 + i)) (-0.1) 0.1 * forecast_value)%float in
  let forecast_value := (forecast_value + noise)%float in
  let std_dev := (forecast_value * 0.2)%float in
  {| point_date := isoformat forecast_date;
     point_forecast := py_round forecast_value 2;
     lower_bound := py_round (forecast_value - 1.96 * std_dev)%float 2;
     upper_bound := py_round (forecast_value + 1.96 * std_dev)%float 2;
     point_confidence := 0.95 |}.

Definition _generate_mock_forecast (kpi_definition : KPIDefinition.t)
    (forecast_days : Z) : mock_prediction :=
  let base_value := Py.uniform (rnd 0) 50 150 in
  let trend := Py.uniform (rnd 1) (-0.05) 0.05 in
  {| mock_tenant_id := KPIDefinition.tenant_id kpi_definition;
     mock_model_name := "mock_forecast";
     mock_input_snapshot :=
       {| snapshot_kpi_id := KPIDefinition.id kpi_definition;
          snapshot_kpi_name := KPIDefinition.name kpi_definition;
          data_points := 0;
          snapshot_forecast_days := forecast_days;
          model_type := "mock" |};
     mock_forecast :=
       map (mock_point base_value trend) (seq 0 (Z.to_nat forecast_days));
     mock_trend_analysis :=
       {| historical_trend := 0;
          forecast_trend := py_round trend 4;
          trend_direction :=
            if PrimFloat.ltb 0 trend then "increasing" else "decreasing";
          volatility := 0.2;
          trend_confidence := 0.5 |} |}.

(** [PROPHET_AVAILABLE]. *)
Variable prophet_available : bool.
(** [_prepare_dataframe]: the rows of the frame, one per value, sorted by
    day. *)
Variable _prepare_dataframe : list KPIValue.t -> result (list KPIValue.t).
(** The body of the [try] of [_forecast_with_prophet], and
    [_forecast_with_trend_analysis] on a frame of at least two rows. *)
Variable prophet_forecast :
  list KPIValue.t -> KPIDefinition.t -> Z -> result MockForecastingService.forecast.
Variable trend_forecast :
  list KPIValue.t -> KPIDefinition.t -> Z -> result MockForecastingService.forecast.
(** [_combine_forecasts], and the [input_snapshot] of the ensemble
    prediction as a document: the KPI, the number of values, the days and
    the names of the component models. *)
Variable _combine_forecasts : list prediction -> Z -> result document.
Variable ensemble_snapshot : KPIDefinition.t -> nat -> Z -> list string -> document.

(** [_forecast_with_prophet]: whatever is raised inside is caught and
    answered with the mock forecast. *)
Definition _forecast_with_prophet (df : list KPIValue.t)
    (kpi_definition : KPIDefinition.t) (forecast_days : Z) : prediction :=
  match prophet_forecast df kpi_definition forecast_days with
  | Ok f => Computed (KPIDefinition.tenant_id kpi_definition) f
  | Raise _ => Mock (_generate_mock_forecast kpi_definition forecast_days)
  end.

Definition _forecast_with_trend_analysis (df : list KPIValue.t)
    (kpi_definition : KPIDefinition.t) (forecast_days : Z) : result prediction :=
  if (length df <? 2)%nat then
    Ok (Mock (_generate_mock_forecast kpi_definition forecast_days))
  else
    let? f := trend_forecast df kpi_definition forecast_days in
    Ok (Computed (KPIDefinition.tenant_id kpi_definition) f).

Definition generate_forecast (kpi_values : list KPIValue.t)
    (kpi_definition : KPIDefinition.t) (forecast_days : Z) : result prediction :=
  match kpi_values with
  | [] => Ok (Mock (_generate_mock_forecast kpi_definition forecast_days))
  | _ :: _ =>
      let? df := _prepare_dataframe kpi_values in
      if (prophet_available && (7 <=? length df)%nat)%bool then
        Ok (_forecast_with_prophet df kpi_definition forecast_days)
      else _forecast_with_trend_analysis df kpi_definition forecast_days
  end.

(** [generate_ensemble_forecast].  The prediction it means to return is
    built last, and its [input_snapshot] lists [f.get("model_name",
    "unknown")] for the component forecasts [f]: these are [Prediction]
    objects, which have no [get]. *)
Definition generate_ensemble_forecast (kpi_values : list KPIValue.t)
    (kpi_definition : KPIDefinition.t) (forecast_days : Z) : result prediction :=
  let? with_prophet :=
    if (7 <=? length kpi_values)%nat then
      let? df := _prepare_dataframe kpi_values in
      Ok [_forecast_with_prophet df kpi_definition forecast_days]
    else Ok [] in
  let? df := _prepare_dataframe kpi_values in
  let? trend := _forecast_with_trend_analysis df kpi_definition forecast_days in
  let mock := Mock (_generate_mock_forecast kpi_definition forecast_days) in
  let forecasts := (with_prophet ++ [trend; mock])%list in
  let? combined_forecast := _combine_forecasts forecasts forecast_days in
  match forecasts with
  | [] => Ok (Computed (KPIDefinition.tenant_id kpi_definition)
                {| MockForecastingService.model_name := "ensemble_forecast";
                   MockForecastingService.input_snapshot :=
                     ensemble_snapshot kpi_definition (length kpi_values)
                       forecast_days [];
                   MockForecastingService.output_json := combined_forecast |})
  | _ :: _ => Raise "'Prediction' object has no attribute 'get'"
  end.

End Service.

End ForecastingService.

(* ================================================================== *)
(** ** The mapped classes of app/models

    The records above give every object the attributes the services and
    handlers address.  Which of them an object has when the program runs is
    decided by its class in [app/models].  The classes are declarative
    SQLAlchemy classes: they are built from [Column] and [relationship] on
    the [Base] of [app/core/database.py], which is not among the sources and
    is taken to be SQLAlchemy's declarative base.  Three rules of the
    library decide what a service or handler does with an object:
    - the constructor takes its keywords in the order of the call and raises
      [TypeError] at the first one that is no attribute of the class;
    - reading an attribute that neither the class nor the object has raises
      [AttributeError], on an object and on the class itself;
    - assigning to a name the class does not map gives the object a plain
      attribute, which a commit does not write and which is gone with the
      object when the request ends.
    [Orm] states the rules, [Models] lists the classes, and [Mapped] gives
    the services and handlers with every constructor call, every attribute
    read and every commit passed through them: the program as it runs on
    the classes of the repository. *)

Module Orm.

Record class := { class_name : string; attributes : list string }.

(** [hasattr(cls, k)]. *)
Definition hasattr (c : class) (k : string) : bool := Py.mem k (attributes c).

(** [obj.k] for an object of class [c] that has no attribute of its own
    under the name: a row as a query loads it, or an object as the
    constructor leaves it.  [v] is what the attribute holds when the class
    has it. *)
Definition getattr {A} (c : class) (k : string) (v : A) : result A :=
  if hasattr c k then Ok v
  else Raise ("'" ++ class_name c ++ "' object has no attribute '" ++ k ++ "'").

(** [cls.k], as the filters and orderings of a query read it. *)
Definition class_attr (c : class) (k : string) : result unit :=
  if hasattr c k then Ok tt
  else Raise ("type object '" ++ class_name c ++ "' has no attribute '" ++ k ++ "'").

Fixpoint class_attrs (c : class) (names : list string) : result unit :=
  match names with
  | [] => Ok tt
  | k :: rest =>
      let? _ := class_attr c k in
      class_attrs c rest
  end.

(** The constructor of a declarative class: [for k in kwargs: if not
    hasattr(cls_, k): raise TypeError(...)]. *)
Fixpoint check_keywords (c : class) (keywords : list string) : result unit :=
  match keywords with
  | [] => Ok tt
  | k :: rest =>
      if hasattr c k then check_keywords c rest
      else Raise ("'" ++ k ++ "' is an invalid keyword argument for "
                  ++ class_name c)
  end.

(** [cls(k1=..., k2=...)]: [obj] is the object with the keywords set. *)
Definition construct {A} (c : class) (keywords : list string) (obj : A)
    : result A :=
  let? _ := check_keywords c keywords in
  Ok obj.

(** What a commit writes for an attribute [k] that was assigned to: the
    assigned value when the class maps the name, and what was stored
    otherwise. *)
Definition flushed {A} (c : class) (k : string) (stored assigned : A) : A :=
  if hasattr c k then assigned else stored.

End Orm.

(** The columns and relationships of each class, in the order of its
    declaration. *)
Module Models.

(** models/alert.py *)
Definition Alert : Orm.class :=
  {| Orm.class_name := "Alert";
     Orm.attributes :=
       ["id"; "tenant_id"; "title"; "description"; "severity"; "status";
        "rule_definition"; "triggered_at"; "acknowledged_at"; "resolved_at";
        "created_at"; "tenant"] |}.

Definition Task : Orm.class :=
  {| Orm.class_name := "Task";
     Orm.attributes :=
       ["id"; "tenant_id"; "title"; "description"; "status"; "priority";
        "assigned_to"; "due_date"; "created_at"; "updated_at"; "tenant"] |}.

Definition Prediction : Orm.class :=
  {| Orm.class_name := "Prediction";
     Orm.attributes :=
       ["id"; "tenant_id"; "model_name"; "prediction_type"; "input_data";
        "prediction_result"; "confidence_score"; "created_at"; "tenant"] |}.

(** models/connector.py *)
Definition Connector : Orm.class :=
  {| Orm.class_name := "Connector";
     Orm.attributes :=
       ["id"; "tenant_id"; "type"; "credentials_encrypted"; "config_json";
        "is_active"; "last_sync"; "created_at"; "updated_at"; "tenant";
        "raw_ingests"] |}.

Definition RawIngest : Orm.class :=
  {| Orm.class_name := "RawIngest";
     Orm.attributes :=
       ["id"; "tenant_id"; "connector_id"; "raw_data"; "status"; "created_at";
        "connector"] |}.

Definition NormalizedRecord : Orm.class :=
  {| Orm.class_name := "NormalizedRecord";
     Orm.attributes :=
       ["id"; "tenant_id"; "raw_ingest_id"; "normalized_data"; "entity_type";
        "created_at"; "raw_ingest"] |}.

(** models/graph.py *)
Definition GraphNode : Orm.class :=
  {| Orm.class_name := "GraphNode";
     Orm.attributes :=
       ["id"; "tenant_id"; "node_type"; "node_id"; "properties"; "created_at";
        "updated_at"; "tenant"; "outgoing_edges"; "incoming_edges"] |}.

Definition GraphEdge : Orm.class :=
  {| Orm.class_name := "GraphEdge";
     Orm.attributes :=
       ["id"; "tenant_id"; "source_node_id"; "target_node_id"; "edge_type";
        "properties"; "weight"; "created_at"; "updated_at"; "tenant";
        "source_node"; "target_node"] |}.

(** models/kpi.py *)
Definition KPIDefinition : Orm.class :=
  {| Orm.class_name := "KPIDefinition";
     Orm.attributes :=
       ["id"; "tenant_id"; "name"; "description"; "formula"; "target_value";
        "alert_threshold"; "is_active"; "created_at"; "updated_at"; "values"] |}.

Definition KPIValue : Orm.class :=
  {| Orm.class_name := "KPIValue";
     Orm.attributes :=
       ["id"; "tenant_id"; "kpi_definition_id"; "value"; "calculated_at";
        "meta_data"; "kpi_definition"] |}.

(** models/tenant.py *)
Definition Tenant : Orm.class :=
  {| Orm.class_name := "Tenant";
     Orm.attributes :=
       ["id"; "name"; "plan"; "config_json"; "is_active"; "created_at";
        "updated_at"; "users"; "connectors"] |}.

End Models.

(* ================================================================== *)
(** ** The services and handlers on the mapped classes *)

Module Mapped.

(* ---------------------------------------------------------------- *)
(** *** services/kpi_engine.py *)

Module KPIEngine.

Section Engine.

Variable py_round : float -> Z -> float.

(** [calculate_kpi]: the attributes of [kpi_definition] are read in the
    order of the source, and the value is handed to the constructor of
    [KPIValue] with the keywords of the call. *)
Definition calculate_kpi (now : datetime) (r : float)
    (kpi_definition : KPIDefinition.t)
    (normalized_records : list NormalizedRecord.t)
    (start_date end_date : option datetime) : result KPIValue.t :=
  let? vertical :=
    Orm.getattr Models.KPIDefinition "vertical"
      (KPIDefinition.vertical kpi_definition) in
  let? name :=
    Orm.getattr Models.KPIDefinition "name" (KPIDefinition.name kpi_definition) in
  let kpi_name := AlertEngine.normalized_name name in
  let formula_config := MockKPIEngine.get2 vertical kpi_name MockKPIEngine.kpi_formulas in
  let mock_value :=
    match formula_config with
    | None => MockKPIEngine._generate_mock_kpi_value py_round r kpi_name vertical
    | Some config =>
        MockKPIEngine._calculate_formula_value py_round r config
          normalized_records vertical
    end in
  let? tenant_id :=
    Orm.getattr Models.KPIDefinition "tenant_id"
      (KPIDefinition.tenant_id kpi_definition) in
  let? kpi_id :=
    Orm.getattr Models.KPIDefinition "id" (KPIDefinition.id kpi_definition) in
  Orm.construct Models.KPIValue
    ["tenant_id"; "kpi_id"; "timestamp"; "value"; "provenance"]
    {| KPIValue.id := unsaved;
       KPIValue.tenant_id := tenant_id;
       KPIValue.kpi_id := kpi_id;
       KPIValue.timestamp := match end_date with Some e => e | None => now end;
       KPIValue.value := mock_value;
       KPIValue.provenance :=
         {| KPIValue.source_records := length normalized_records;
            KPIValue.calculation_method :=
              match formula_config with
              | Some _ => "formula_based"
              | None => "mock_generated"
              end;
            KPIValue.data_quality := "high";
            KPIValue.formula :=
              match formula_config with
              | Some config => MockKPIEngine.formula config
              | None => "mock"
              end;
            KPIValue.prov_vertical := vertical |} |}.

End Engine.

End KPIEngine.

(* ---------------------------------------------------------------- *)
(** *** services/csv_connector.py *)

Module CSVConnector.

Section Service.

Variable decode : string -> list Byte.byte -> result string.
Variable DictReader : string -> string -> result (list CSVConnectorService.reader_row).
Variable suggestions : Type.
Variable empty_suggestions : suggestions.
Variable suggest_field_mapping : string -> string -> Row -> result suggestions.
Variable repr_row : Row -> string.
Variable py_float : string -> option float.
Variable fromisoformat : string -> option datetime.
Variable isoformat : datetime -> string.

(** [_store_raw_data]: [RawIngest(tenant_id=..., connector_id=connector.id,
    payload_json={...})]. *)
Definition _store_raw_data (csv_data : list Row) (connector : Connector.t)
    (tenant_id : Z) (now : datetime) : result RawIngest.t :=
  let? connector_id :=
    Orm.getattr Models.Connector "id" (Connector.id connector) in
  Orm.construct Models.RawIngest ["tenant_id"; "connector_id"; "payload_json"]
    {| RawIngest.id := unsaved;
       RawIngest.tenant_id := tenant_id;
       RawIngest.connector_id := connector_id;
       RawIngest.payload_json :=
         {| RawIngest.data := csv_data;
            RawIngest.meta :=
              RawIngest.StoredMeta "csv" (length csv_data)
                (match csv_data with r :: _ => Dict.keys r | [] => [] end)
                (isoformat now) |} |}.

(** [process_csv_upload]: whatever is raised inside the [try] becomes the
    failed result, with [str(e)] as its error. *)
Definition process_csv_upload (file_content : list Byte.byte)
    (connector : Connector.t) (tenant_id : Z) (now : datetime)
    : CSVConnectorService.upload_result suggestions :=
  let attempt :=
    let? config :=
      Orm.getattr Models.Connector "config_json" (Connector.config_json connector) in
    let? csv_data :=
      CSVConnectorService._parse_csv_content decode DictReader file_content config in
    let? raw_ingest := _store_raw_data csv_data connector tenant_id now in
    let? mapping_suggestions :=
      CSVConnectorService._generate_mapping_suggestions empty_suggestions
        suggest_field_mapping repr_row csv_data connector tenant_id in
    let? raw_ingest_id :=
      Orm.getattr Models.RawIngest "id" (RawIngest.id raw_ingest) in
    Ok (CSVConnectorService.UploadOk (length csv_data) raw_ingest_id
          mapping_suggestions (firstn 5 csv_data)) in
  match attempt with
  | Ok r => r
  | Raise e => CSVConnectorService.UploadFailed e
  end.

(** [for i, row in enumerate(csv_data)], from index [i]: the record of a
    row is built by [NormalizedRecord(tenant_id=..., entity_type=...,
    canonical_json=..., source_refs_json={...})]. *)
Fixpoint normalize_rows (raw_ingest : RawIngest.t) (mappings : Dict.t string)
    (tenant_id : Z) (i : nat) (csv_data : list Row)
    : result (list NormalizedRecord.t) :=
  match csv_data with
  | [] => Ok []
  | row :: rest =>
      let normalized_data :=
        CSVConnectorService._apply_field_mappings py_float fromisoformat
          isoformat row mappings in
      let entity_type :=
        CSVConnectorService._determine_entity_type normalized_data mappings in
      let? raw_ingest_id :=
        Orm.getattr Models.RawIngest "id" (RawIngest.id raw_ingest) in
      let? normalized_record :=
        Orm.construct Models.NormalizedRecord
          ["tenant_id"; "entity_type"; "canonical_json"; "source_refs_json"]
          {| NormalizedRecord.tenant_id := tenant_id;
             NormalizedRecord.entity_type := entity_type;
             NormalizedRecord.canonical_json := normalized_data;
             NormalizedRecord.source_refs_json :=
               {| NormalizedRecord.raw_ingest_id := raw_ingest_id;
                  NormalizedRecord.row_index := i;
                  NormalizedRecord.original_data := row |};
             NormalizedRecord.created_at := None |} in
      let? normalized_records :=
        normalize_rows raw_ingest mappings tenant_id (S i) rest in
      Ok (normalized_record :: normalized_records)
  end.

(** [normalize_csv_data]: [raw_ingest.payload_json.get("data", [])] is its
    first statement. *)
Definition normalize_csv_data (raw_ingest : RawIngest.t)
    (mapping_config : CSVConnectorService.mapping_config) (tenant_id : Z)
    : result (list NormalizedRecord.t) :=
  let? payload_json :=
    Orm.getattr Models.RawIngest "payload_json"
      (RawIngest.payload_json raw_ingest) in
  let csv_data := RawIngest.data payload_json in
  let mappings := match CSVConnectorService.mappings mapping_config with
                  | Some m => m | None => [] end in
  normalize_rows raw_ingest mappings tenant_id 0 csv_data.

End Service.

End CSVConnector.

(* ---------------------------------------------------------------- *)
(** *** services/alert_engine.py *)

Module Alerts.

Section Engine.

Variable isoformat : datetime -> string.

(** [generate_mock_alerts]: the keywords of [Alert(tenant_id=...,
    rule_json=..., severity=..., details={...})] are evaluated, the second
    random number among them, and the constructor is called.  [rnd n] is
    the [n]-th number [random.random()] hands out during the call. *)
Fixpoint mock_alerts_from (rnd : nat -> float) (now : datetime)
    (tenant_id : Z) (rules : list Alert.rule) (n : nat)
    : result (list Alert.t) :=
  match rules with
  | [] => Ok []
  | rule :: rest =>
      if PrimFloat.ltb (rnd n) 0.3%float then
        let triggered :=
          if Py.contains "conversion" (Alert.kpi_name rule)
          then Py.uniform (rnd (S n)) 5 15
          else Py.uniform (rnd (S n)) 20 80 in
        let? alert :=
          Orm.construct Models.Alert
            ["tenant_id"; "rule_json"; "severity"; "details"]
            (AlertEngine.new_alert tenant_id None (Alert.ThresholdRule rule)
               (Alert.rule_severity rule)
               (Alert.MockDetails triggered (Alert.condition rule)
                  (Alert.kpi_name rule) (isoformat now))) in
        let? alerts := mock_alerts_from rnd now tenant_id rest (S (S n)) in
        Ok (alert :: alerts)
      else mock_alerts_from rnd now tenant_id rest (S n)
  end.

Definition generate_mock_alerts (rnd : nat -> float) (now : datetime)
    (tenant_id : Z) (vertical : string) : result (list Alert.t) :=
  let rules := match Dict.get vertical AlertEngine.alert_rules with
               | Some rs => rs
               | None => []
               end in
  mock_alerts_from rnd now tenant_id rules 0.

End Engine.

End Alerts.

(* ---------------------------------------------------------------- *)
(** *** services/live_connectors.py *)

Module LiveConnectors.

Section Service.

Variable isoformat : datetime -> string.
Variable mock_records : string -> list Row.

(** [sync_contacts], [sync_deals], ...: [RawIngest(tenant_id=...,
    connector_id=connector.id, payload_json={...})]. *)
Definition sync_endpoint (endpoint : string) (connector : Connector.t)
    (tenant_id : Z) (now : datetime) : result RawIngest.t :=
  let? connector_id :=
    Orm.getattr Models.Connector "id" (Connector.id connector) in
  Orm.construct Models.RawIngest ["tenant_id"; "connector_id"; "payload_json"]
    {| RawIngest.id := unsaved;
       RawIngest.tenant_id := tenant_id;
       RawIngest.connector_id := connector_id;
       RawIngest.payload_json :=
         {| RawIngest.data := mock_records endpoint;
            RawIngest.meta :=
              RawIngest.SyncMeta endpoint (length (mock_records endpoint))
                false (isoformat now) |} |}.

(** [raw_ingests.append(self.hubspot.sync_contacts(...))] and so on, one
    endpoint after the other. *)
Fixpoint sync_endpoints (endpoints : list string) (connector : Connector.t)
    (tenant_id : Z) (now : datetime) : result (list RawIngest.t) :=
  match endpoints with
  | [] => Ok []
  | endpoint :: rest =>
      let? raw_ingest := sync_endpoint endpoint connector tenant_id now in
      let? raw_ingests := sync_endpoints rest connector tenant_id now in
      Ok (raw_ingest :: raw_ingests)
  end.

Definition sync_connector (connector : Connector.t) (tenant_id : Z)
    (now : datetime) : result (list RawIngest.t) :=
  let? type := Orm.getattr Models.Connector "type" (Connector.type connector) in
  if String.eqb type "hubspot" then
    sync_endpoints ["contacts"; "deals"; "companies"] connector tenant_id now
  else if String.eqb type "google_ads" then
    sync_endpoints ["campaigns"; "adGroups"; "ads"; "keywords"]
      connector tenant_id now
  else Ok [].

End Service.

End LiveConnectors.

(* ---------------------------------------------------------------- *)
(** *** The request handlers *)

Module Routes.

(** What [db.commit()] writes of an alert that was assigned to: the mapped
    columns. *)
Definition flush_alert (stored assigned : Alert.t) : Alert.t :=
  {| Alert.id := Orm.flushed Models.Alert "id" (Alert.id stored) (Alert.id assigned);
     Alert.tenant_id :=
       Orm.flushed Models.Alert "tenant_id"
         (Alert.tenant_id stored) (Alert.tenant_id assigned);
     Alert.kpi_id :=
       Orm.flushed Models.Alert "kpi_id" (Alert.kpi_id stored) (Alert.kpi_id assigned);
     Alert.rule_json :=
       Orm.flushed Models.Alert "rule_json"
         (Alert.rule_json stored) (Alert.rule_json assigned);
     Alert.severity :=
       Orm.flushed Models.Alert "severity"
         (Alert.severity stored) (Alert.severity assigned);
     Alert.status :=
       Orm.flushed Models.Alert "status" (Alert.status stored) (Alert.status assigned);
     Alert.triggered_at :=
       Orm.flushed Models.Alert "triggered_at"
         (Alert.triggered_at stored) (Alert.triggered_at assigned);
     Alert.resolved_at :=
       Orm.flushed Models.Alert "resolved_at"
         (Alert.resolved_at stored) (Alert.resolved_at assigned);
     Alert.details :=
       Orm.flushed Models.Alert "details"
         (Alert.details stored) (Alert.details assigned);
     Alert.acknowledged :=
       Orm.flushed Models.Alert "acknowledged"
         (Alert.acknowledged stored) (Alert.acknowledged assigned);
     Alert.acknowledged_by :=
       Orm.flushed Models.Alert "acknowledged_by"
         (Alert.acknowledged_by stored) (Alert.acknowledged_by assigned);
     Alert.acknowledged_at :=
       Orm.flushed Models.Alert "acknowledged_at"
         (Alert.acknowledged_at stored) (Alert.acknowledged_at assigned) |}.

Section Handlers.

Variable verify_tenant_access : User.t -> Api.guard_arg -> bool.
Variable isoformat : datetime -> string.
Variable py_round : float -> Z -> float.
Variable mock_records : string -> list Row.
Variable decode : string -> list Byte.byte -> result string.
Variable DictReader : string -> string -> result (list CSVConnectorService.reader_row).
Variable empty_suggestions : document.
Variable suggest_field_mapping : string -> string -> Row -> result document.
Variable repr_row : Row -> string.
Variable str_HTTPException : Z -> string -> string.

(* -------------------------------------------------------------- *)
(** *** api/alerts.py *)

(** [acknowledge_alert]: of the three assignments only the one to
    [acknowledged_at] is to a mapped column. *)
Definition acknowledge_alert (now : datetime) (db : DB) (current_user : User.t)
    (x_tenant_id : string) (alert_id : Z) (acknowledged : bool)
    : response Api.message * DB :=
  if negb (verify_tenant_access current_user (Api.StrArg x_tenant_id))
  then (Api.forbidden, db)
  else
    match Py.int x_tenant_id with
    | None => (Api.internal_error, db)
    | Some tenant =>
        match Orm.class_attrs Models.Alert ["id"; "tenant_id"] with
        | Raise _ => (Api.internal_error, db)
        | Ok _ =>
            match Store.first (Api.alert_of alert_id tenant) (alerts db) with
            | None => (HTTPException 404 "Alert not found", db)
            | Some _ =>
                (Return {| Api.success := true;
                           Api.text := "Alert " ++ Py.str alert_id ++ " "
                                       ++ (if acknowledged then "acknowledged"
                                           else "unacknowledged")
                                       ++ " successfully" |},
                 Store.set_alerts db
                   (Store.update_first (Api.alert_of alert_id tenant)
                      (fun alert =>
                         flush_alert alert
                           (Api.set_acknowledged acknowledged
                              (User.id current_user) now alert))
                      (alerts db)))
            end
        end
    end.

Definition resolve_alert (now : datetime) (db : DB) (current_user : User.t)
    (x_tenant_id : string) (alert_id : Z) : response Api.message * DB :=
  if negb (verify_tenant_access current_user (Api.StrArg x_tenant_id))
  then (Api.forbidden, db)
  else
    match Py.int x_tenant_id with
    | None => (Api.internal_error, db)
    | Some tenant =>
        match Orm.class_attrs Models.Alert ["id"; "tenant_id"] with
        | Raise _ => (Api.internal_error, db)
        | Ok _ =>
            match Store.first (Api.alert_of alert_id tenant) (alerts db) with
            | None => (HTTPException 404 "Alert not found", db)
            | Some _ =>
                (Return {| Api.success := true;
                           Api.text := "Alert " ++ Py.str alert_id
                                       ++ " resolved successfully" |},
                 Store.set_alerts db
                   (Store.update_first (Api.alert_of alert_id tenant)
                      (fun alert => flush_alert alert (Api.set_resolved now alert))
                      (alerts db)))
            end
        end
    end.

(** [generate_mock_alerts]: the call of the engine and the additions
    stand inside the [try]. *)
Definition generate_mock_alerts (rnd : nat -> float) (now : datetime)
    (db : DB) (current_user : User.t) (x_tenant_id : string)
    (vertical : string) : response (Api.message * nat) * DB :=
  if negb (verify_tenant_access current_user (Api.StrArg x_tenant_id))
  then (Api.forbidden, db)
  else
    match Py.int x_tenant_id with
    | None =>
        (HTTPException 500
           ("Failed to generate mock alerts: " ++ Api.invalid_literal x_tenant_id),
         db)
    | Some tenant =>
        match Alerts.generate_mock_alerts isoformat rnd now tenant vertical with
        | Raise e =>
            (HTTPException 500 ("Failed to generate mock alerts: " ++ e), db)
        | Ok mock_alerts =>
            (Return ({| Api.success := true;
                        Api.text := "Generated "
                                    ++ Py.str (Z.of_nat (length mock_alerts))
                                    ++ " mock alerts" |},
                     length mock_alerts),
             Api.add_alerts now db mock_alerts)
        end
    end.

(* -------------------------------------------------------------- *)
(** *** api/connectors.py *)

(** The [ConnectorResponse] of a connector: [last_sync_at] is among the
    attributes it reads. *)
Definition connector_response (connector : Connector.t) : result Connector.t :=
  let? id := Orm.getattr Models.Connector "id" (Connector.id connector) in
  let? tenant_id :=
    Orm.getattr Models.Connector "tenant_id" (Connector.tenant_id connector) in
  let? type := Orm.getattr Models.Connector "type" (Connector.type connector) in
  let? config_json :=
    Orm.getattr Models.Connector "config_json" (Connector.config_json connector) in
  let? last_sync_at :=
    Orm.getattr Models.Connector "last_sync_at" (Connector.last_sync_at connector) in
  let? created_at :=
    Orm.getattr Models.Connector "created_at" (Connector.created_at connector) in
  Ok {| Connector.id := id; Connector.tenant_id := tenant_id;
        Connector.type := type;
        Connector.credentials_encrypted := None;
        Connector.config_json := config_json;
        Connector.last_sync_at := last_sync_at;
        Connector.created_at := created_at |}.

Fixpoint connector_responses (connectors : list Connector.t)
    : result (list Connector.t) :=
  match connectors with
  | [] => Ok []
  | connector :: rest =>
      let? r := connector_response connector in
      let? rs := connector_responses rest in
      Ok (r :: rs)
  end.

(** [create_connector]: the row is added and committed before the
    response is built. *)
Definition create_connector (now : datetime) (db : DB) (current_user : User.t)
    (x_tenant_id : string) (connector : Api.ConnectorCreate)
    : response Connector.t * DB :=
  if negb (verify_tenant_access current_user (Api.StrArg x_tenant_id))
  then (Api.forbidden, db)
  else
    match Py.int x_tenant_id with
    | None => (Api.internal_error, db)
    | Some tenant =>
        match Orm.construct Models.Connector
                ["tenant_id"; "type"; "credentials_encrypted"; "config_json"]
                {| Connector.id := unsaved; Connector.tenant_id := tenant;
                   Connector.type := Api.cc_type connector;
                   Connector.credentials_encrypted :=
                     Api.cc_credentials_encrypted connector;
                   Connector.config_json := Api.cc_config_json connector;
                   Connector.last_sync_at := None;
                   Connector.created_at := None |} with
        | Raise _ => (Api.internal_error, db)
        | Ok new_connector =>
            let '(db_connector, db') := Store.add_connector now db new_connector in
            match connector_response db_connector with
            | Ok r => (Return r, db')
            | Raise _ => (Api.internal_error, db')
            end
        end
    end.

Definition list_connectors (db : DB) (current_user : User.t)
    (x_tenant_id : string) : response (list Connector.t) * DB :=
  if negb (verify_tenant_access current_user (Api.StrArg x_tenant_id))
  then (Api.forbidden, db)
  else
    match Py.int x_tenant_id with
    | None => (Api.internal_error, db)
    | Some tenant =>
        match Orm.class_attrs Models.Connector ["tenant_id"] with
        | Raise _ => (Api.internal_error, db)
        | Ok _ =>
            match connector_responses
                    (filter (fun c => Connector.tenant_id c =? tenant)
                       (connectors db)) with
            | Ok rs => (Return rs, db)
            | Raise _ => (Api.internal_error, db)
            end
        end
    end.

(** [sync_connector]: everything after the lookup stands inside the
    [try], and whatever is raised there is answered as a failed sync.  The
    records are counted after the commit. *)
Fixpoint payload_sizes (raw_ingests : list RawIngest.t) : result (list nat) :=
  match raw_ingests with
  | [] => Ok []
  | ri :: rest =>
      let? payload_json :=
        Orm.getattr Models.RawIngest "payload_json" (RawIngest.payload_json ri) in
      let? sizes := payload_sizes rest in
      Ok (length (RawIngest.data payload_json) :: sizes)
  end.

Definition sync_failed (e : string) : Api.SyncResponse :=
  {| Api.sync_success := false; Api.records_ingested := 0;
     Api.sync_message := "Sync failed: " ++ e |}.

Definition sync_connector (now : datetime) (db : DB) (current_user : User.t)
    (x_tenant_id : string) (connector_id : Z)
    : response Api.SyncResponse * DB :=
  if negb (verify_tenant_access current_user (Api.StrArg x_tenant_id))
  then (Api.forbidden, db)
  else
    match Py.int x_tenant_id with
    | None => (Api.internal_error, db)
    | Some tenant =>
        match Orm.class_attrs Models.Connector ["id"; "tenant_id"] with
        | Raise _ => (Api.internal_error, db)
        | Ok _ =>
            match Store.first (Api.connector_of connector_id tenant)
                    (connectors db) with
            | None => (HTTPException 404 "Connector not found", db)
            | Some connector =>
                match Orm.getattr Models.Connector "type"
                        (Connector.type connector) with
                | Raise e => (Return (sync_failed e), db)
                | Ok type =>
                    if String.eqb type "csv" then
                      (Return {| Api.sync_success := true;
                                 Api.records_ingested := 0;
                                 Api.sync_message :=
                                   "CSV sync requires file upload" |}, db)
                    else if Py.mem type ["hubspot"; "google_ads"] then
                      match LiveConnectors.sync_connector isoformat mock_records
                              connector tenant now with
                      | Raise e => (Return (sync_failed e), db)
                      | Ok raw_ingests =>
                          let db' := Api.add_raw_ingests db raw_ingests in
                          match payload_sizes raw_ingests with
                          | Raise e => (Return (sync_failed e), db')
                          | Ok sizes =>
                              let total_records := list_sum sizes in
                              (Return {| Api.sync_success := true;
                                         Api.records_ingested := total_records;
                                         Api.sync_message :=
                                           "Sync completed: "
                                           ++ Py.str (Z.of_nat total_records)
                                           ++ " records ingested" |}, db')
                          end
                      end
                    else
                      (Return {| Api.sync_success := false;
                                 Api.records_ingested := 0;
                                 Api.sync_message :=
                                   "Unsupported connector type" |}, db)
                end
            end
        end
    end.

(** [upload_csv]: the [HTTPException] with status 400 is raised inside the
    [try] and so reaches the caller through [except Exception] as a 500,
    like every other exception of the block. *)
Definition upload_failed {A} (e : string) : response A :=
  HTTPException 500 ("CSV upload failed: " ++ e).

Definition upload_csv (now : datetime) (db : DB) (current_user : User.t)
    (x_tenant_id : string) (connector_id : Z)
    (filename : string) (file_content : list Byte.byte)
    : response (Api.UploadResponse document) * DB :=
  if negb (verify_tenant_access current_user (Api.StrArg x_tenant_id))
  then (Api.forbidden, db)
  else
    match Py.int x_tenant_id with
    | None => (Api.internal_error, db)
    | Some tenant =>
        match Orm.class_attrs Models.Connector ["id"; "tenant_id"] with
        | Raise _ => (Api.internal_error, db)
        | Ok _ =>
            match Store.first (Api.connector_of connector_id tenant)
                    (connectors db) with
            | None => (HTTPException 404 "Connector not found", db)
            | Some connector =>
                match Orm.getattr Models.Connector "type"
                        (Connector.type connector) with
                | Raise _ => (Api.internal_error, db)
                | Ok type =>
                    if negb (String.eqb type "csv") then
                      (HTTPException 400 "Connector is not a CSV connector", db)
                    else
                      match CSVConnector.process_csv_upload decode DictReader
                              empty_suggestions suggest_field_mapping repr_row
                              isoformat file_content connector tenant now with
                      | CSVConnectorService.UploadOk records_processed _
                          suggested sample_data =>
                          match Orm.construct Models.RawIngest
                                  ["tenant_id"; "connector_id"; "payload_json"]
                                  {| RawIngest.id := unsaved;
                                     RawIngest.tenant_id := tenant;
                                     RawIngest.connector_id := connector_id;
                                     RawIngest.payload_json :=
                                       {| RawIngest.data := sample_data;
                                          RawIngest.meta :=
                                            RawIngest.UploadMeta filename
                                              (Z.of_nat (length file_content))
                                              records_processed
                                              (isoformat now) |} |} with
                          | Raise e => (upload_failed e, db)
                          | Ok new_ingest =>
                              let '(raw_ingest, db') :=
                                Store.add_raw_ingest db new_ingest in
                              match Orm.getattr Models.RawIngest "id"
                                      (RawIngest.id raw_ingest) with
                              | Raise e => (upload_failed e, db')
                              | Ok raw_ingest_id =>
                                  (Return
                                     {| Api.upload_message :=
                                          "CSV uploaded successfully: "
                                          ++ Py.str (Z.of_nat records_processed)
                                          ++ " records processed";
                                        Api.mapping_suggestions := suggested;
                                        Api.raw_ingest_id := raw_ingest_id |},
                                   db')
                              end
                          end
                      | CSVConnectorService.UploadFailed error =>
                          (upload_failed (str_HTTPException 400 error), db)
                      end
                end
            end
        end
    end.

(* -------------------------------------------------------------- *)
(** *** api/kpis.py *)

Definition evaluation_failed {A} (e : string) : response A :=
  HTTPException 500 ("KPI evaluation failed: " ++ e).

(** The [KPIValueResponse] of a value. *)
Definition kpi_value_response (value : KPIValue.t) : result KPIValue.t :=
  let? id := Orm.getattr Models.KPIValue "id" (KPIValue.id value) in
  let? kpi_id := Orm.getattr Models.KPIValue "kpi_id" (KPIValue.kpi_id value) in
  let? timestamp :=
    Orm.getattr Models.KPIValue "timestamp" (KPIValue.timestamp value) in
  let? v := Orm.getattr Models.KPIValue "value" (KPIValue.value value) in
  let? provenance :=
    Orm.getattr Models.KPIValue "provenance" (KPIValue.provenance value) in
  Ok {| KPIValue.id := id; KPIValue.tenant_id := KPIValue.tenant_id value;
        KPIValue.kpi_id := kpi_id; KPIValue.timestamp := timestamp;
        KPIValue.value := v; KPIValue.provenance := provenance |}.

(** [evaluate_kpi]: the records are read, the engine is called and the
    value is saved inside the [try]; [r] is the random draw of the
    engine. *)
Definition evaluate_kpi (now : datetime) (r : float) (db : DB)
    (current_user : User.t) (x_tenant_id : string) (kpi_id : Z)
    (request : Api.EvaluateRequest) : response (KPIValue.t * string) * DB :=
  if negb (verify_tenant_access current_user (Api.StrArg x_tenant_id))
  then (Api.forbidden, db)
  else
    match Py.int x_tenant_id with
    | None => (Api.internal_error, db)
    | Some tenant =>
        match Orm.class_attrs Models.KPIDefinition ["id"; "tenant_id"] with
        | Raise _ => (Api.internal_error, db)
        | Ok _ =>
            match Store.first (Api.kpi_of kpi_id tenant) (kpi_definitions db) with
            | None => (HTTPException 404 "KPI not found", db)
            | Some kpi =>
                let computed :=
                  let? _ := Orm.class_attrs Models.NormalizedRecord ["tenant_id"] in
                  let normalized_records :=
                    filter (fun n => NormalizedRecord.tenant_id n =? tenant)
                           (normalized_records db) in
                  let end_date := match Api.end_date request with
                                  | Some e => e | None => now end in
                  let start_date := match Api.start_date request with
                                    | Some s => s
                                    | None => end_date - Api.days 30
                                    end in
                  KPIEngine.calculate_kpi py_round now r kpi normalized_records
                    (Some start_date) (Some end_date) in
                match computed with
                | Raise e => (evaluation_failed e, db)
                | Ok kpi_value =>
                    let '(saved, db') := Store.add_kpi_value db kpi_value in
                    let answer :=
                      let? shown := kpi_value_response saved in
                      let? name :=
                        Orm.getattr Models.KPIDefinition "name"
                          (KPIDefinition.name kpi) in
                      Ok (shown, "KPI '" ++ name ++ "' evaluated successfully") in
                    match answer with
                    | Raise e => (evaluation_failed e, db')
                    | Ok a => (Return a, db')
                    end
                end
            end
        end
    end.

End Handlers.

End Routes.

End Mapped.

(* ================================================================== *)
(** ** Stand-ins for the builtins, to run the definitions on examples *)

Module Sample.

(** [float(s)] on an unsigned integer literal below [2^53], where the
    conversion is exact; [None] elsewhere. *)
Definition py_float (s : string) : option float :=
  match Py.unsigned_literal (Py.rstrip_of Py.is_blank (Py.lstrip_of Py.is_blank s)) with
  | Some z =>
      if z <? 2 ^ 53 then Some (PrimFloat.of_uint63 (Uint63.of_Z z)) else None
  | None => None
  end.

(** Dates are written as their integer timestamps. *)
Definition isoformat (d : datetime) : string := Py.str d.

Definition fromisoformat (s : string) : option datetime := Py.int s.

Definition py_round (f : float) (ndigits : Z) : float := f.

(** ASCII text under the [utf-8] codec. *)
Definition decode (encoding : string) (content : list Byte.byte) : result string :=
  if String.eqb encoding "utf-8" then Ok (string_of_list_byte content)
  else Raise ("unknown encoding: " ++ encoding).

Definition newline : string := String "010" EmptyString.

(** A reader for text without quotes: one record per non-empty line, the
    first line names the fields. *)
Definition DictReader (delimiter text : string)
    : result (list CSVConnectorService.reader_row) :=
  match delimiter with
  | String _ EmptyString =>
      match filter (fun l => negb (String.eqb l EmptyString)) (Py.split newline text) with
      | [] => Ok []
      | header :: lines =>
          let names := map Some (Py.split delimiter header) in
          Ok (map (fun l => combine names (map Some (Py.split delimiter l))) lines)
      end
  | _ => Raise "delimiter must be a 1-character string"
  end.

(** A suggestion service that proposes every column under its own name. *)
Definition suggest_field_mapping (connector_type vertical : string)
    (sample_data : Row) : result document :=
  Ok (String.concat ", " (map (fun k => k ++ " -> " ++ k) (Dict.keys sample_data))).

Definition repr_row (r : Row) : string :=
  String.concat ", " (map (fun kv => fst kv ++ ": " ++ snd kv) r).

Definition str_HTTPException (status_code : Z) (detail : string) : string :=
  Py.str status_code ++ ": " ++ detail.

Definition mock_records (endpoint : string) : list Row :=
  [[("id", endpoint ++ "_1")]; [("id", endpoint ++ "_2")]].

Definition rnd (n : nat) : float := 0.25%float.

(** A detection pass that flags every point. *)
Definition flag_all (values : list float) (timestamps : list datetime)
    : list AlertEngine.anomaly :=
  map (fun v => {| AlertEngine.a_type := "z_score_outlier";
                   AlertEngine.a_score := v;
                   AlertEngine.a_value := v;
                   AlertEngine.a_expected_range := (v, v);
                   AlertEngine.a_timestamp := EmptyString;
                   AlertEngine.a_method := "z_score" |})
      values.

Definition kpi (id tenant : Z) (name vertical : string) : KPIDefinition.t :=
  {| KPIDefinition.id := id; KPIDefinition.tenant_id := tenant;
     KPIDefinition.name := name; KPIDefinition.vertical := vertical;
     KPIDefinition.formula_json := []; KPIDefinition.window := "daily" |}.

Definition kpi_value (id tenant kpi_id : Z) (timestamp : datetime) (value : float)
    : KPIValue.t :=
  {| KPIValue.id := id; KPIValue.tenant_id := tenant; KPIValue.kpi_id := kpi_id;
     KPIValue.timestamp := timestamp; KPIValue.value := value;
     KPIValue.provenance :=
       {| KPIValue.source_records := 0;
          KPIValue.calculation_method := "formula_based";
          KPIValue.data_quality := "high";
          KPIValue.formula := EmptyString;
          KPIValue.prov_vertical := EmptyString |} |}.

Definition two_points : list KPIValue.t :=
  [kpi_value 1 1 1 0 1; kpi_value 2 1 1 1 900].

Definition ingest : RawIngest.t :=
  {| RawIngest.id := 4; RawIngest.tenant_id := 7; RawIngest.connector_id := 2;
     RawIngest.payload_json :=
       {| RawIngest.data :=
            [ [("Email", "Ann@Example.COM "); ("when", "1705276800"); ("spend", "$1,200")];
              [("Email", "bob@example.com"); ("when", "not a date"); ("spend", "n/a")] ];
          RawIngest.meta := RawIngest.UploadMeta "leads.csv" 97 2 "0" |} |}.

(** A normalized record of a tenant, created at a given time. *)
Definition record (tenant : Z) (created : datetime) : NormalizedRecord.t :=
  {| NormalizedRecord.tenant_id := tenant;
     NormalizedRecord.entity_type := "lead";
     NormalizedRecord.canonical_json := [("email", PStr "ann@example.com")];
     NormalizedRecord.source_refs_json :=
       {| NormalizedRecord.raw_ingest_id := 4; NormalizedRecord.row_index := 0;
          NormalizedRecord.original_data := [("Email", "ann@example.com")] |};
     NormalizedRecord.created_at := Some created |}.

Definition mapping : CSVConnectorService.mapping_config :=
  {| CSVConnectorService.mappings :=
       Some [("Email", "email"); ("when", "created_date"); ("spend", "cost")] |}.

Definition user (id tenant : Z) : User.t :=
  {| User.id := id; User.tenant_id := tenant;
     User.email := "user" ++ Py.str id ++ "@example.com";
     User.role := "owner"; User.hashed_password := "h" |}.

Definition alert (id tenant : Z) : Alert.t :=
  {| Alert.id := id; Alert.tenant_id := tenant; Alert.kpi_id := Some 1;
     Alert.rule_json := Alert.AnomalyRule "Anomaly Detected" "anomaly" "medium" "d";
     Alert.severity := "medium"; Alert.status := "active";
     Alert.triggered_at := Some 5; Alert.resolved_at := None;
     Alert.details := Alert.AnomalyDetails "z_score_outlier" 3 900 (0, 10)%float "5";
     Alert.acknowledged := false; Alert.acknowledged_by := None;
     Alert.acknowledged_at := None |}.

Definition csv_config : Connector.config :=
  {| Connector.delimiter := Some ","; Connector.has_header := Some true;
     Connector.encoding := None; Connector.required_columns := None |}.

Definition connector (id tenant : Z) (type : string) : Connector.t :=
  {| Connector.id := id; Connector.tenant_id := tenant; Connector.type := type;
     Connector.credentials_encrypted := None; Connector.config_json := csv_config;
     Connector.last_sync_at := None; Connector.created_at := Some 1 |}.

(** Two tenants, 1 and 2, each with a user, a connector, a KPI with a value
    and an alert. *)
Definition db : DB :=
  {| tenants := [ {| Tenant.id := 1; Tenant.name := "Agency"; Tenant.plan := "starter" |};
                  {| Tenant.id := 2; Tenant.name := "Clinic"; Tenant.plan := "starter" |} ];
     users := [user 1 1; user 2 2];
     connectors := [connector 1 1 "csv"; connector 2 2 "hubspot"];
     raw_ingest := [];
     normalized_records := [];
     kpi_definitions := [kpi 1 1 "Lead Conversion Rate" "marketing_agency";
                         kpi 2 2 "Patient Volume" "urgent_clinic"];
     kpi_values := [kpi_value 1 1 1 3 12; kpi_value 2 2 2 4 48];
     alerts := [alert 1 1; alert 2 2];
     tasks := [];
     predictions := [] |}.

Definition env : Api.env := {| Api.now := 50; Api.rnd := rnd |}.

Definition forecast (name : string) (kpi_values : list KPIValue.t)
    (kpi_definition : KPIDefinition.t) (forecast_days : Z)
    : result MockForecastingService.forecast :=
  Ok {| MockForecastingService.model_name := name;
        MockForecastingService.input_snapshot := KPIDefinition.name kpi_definition;
        MockForecastingService.output_json := Py.str forecast_days |}.

Definition graph_items : list Api.graph_item :=
  [ {| Api.item_type := Some "campaign"; Api.item_json := "campaign_1" |};
    {| Api.item_type := Some "ad"; Api.item_json := "ad_1" |} ].

Definition runtime : Api.Runtime :=
  {| Api.isoformat := isoformat;
     Api.py_round := py_round;
     Api.mock_records := mock_records;
     Api.decode := decode;
     Api.DictReader := DictReader;
     Api.empty_suggestions := EmptyString;
     Api.suggest_field_mapping := suggest_field_mapping;
     Api.repr_row := repr_row;
     Api.str_HTTPException := str_HTTPException;
     Api.generate_forecast := forecast "trend_analysis";
     Api.generate_ensemble_forecast := forecast "ensemble_forecast";
     Api.query_graph :=
       fun tenant query vertical =>
         Ok {| Api.gq_success := true; Api.gq_results := "[]"; Api.gq_count := 0;
               Api.gq_query_type := "general"; Api.gq_error := None |};
     Api.get_graph_statistics := fun tenant vertical => Ok "{}";
     Api.mock_graph_nodes := graph_items;
     Api.mock_graph_edges := [];
     Api.process_ai_query := fun question tenant user_id role => Ok question |}.

(** The bytes of a three-line CSV text. *)
Definition csv_bytes : list Byte.byte :=
  list_byte_of_string ("email,company" ++ newline ++ "a@x.io,Acme" ++ newline
                       ++ "b@y.io,Bolt" ++ newline).


(** [float(n)] of a small natural number. *)
Definition float_of_nat (n : nat) : float :=
  PrimFloat.of_uint63 (Uint63.of_Z (Z.of_nat n)).

(** The mean and the population standard deviation, summed from the left. *)
Definition np_mean (values : list float) : float :=
  (fold_left PrimFloat.add values 0 / float_of_nat (length values))%float.

Definition np_std (values : list float) : float :=
  let m := np_mean values in
  PrimFloat.sqrt (np_mean (map (fun v => (v - m) * (v - m))%float values)).

(** Ten daily values that step from 10 to 12 after the first day. *)
Definition step_series : list float := [10; 12; 12; 12; 12; 12; 12; 12; 12; 12]%float.

(** A prediction as the three columns the route stores. *)
Definition forecast_of (p : ForecastingService.prediction)
    : MockForecastingService.forecast :=
  match p with
  | ForecastingService.Mock m =>
      {| MockForecastingService.model_name := ForecastingService.mock_model_name m;
         MockForecastingService.input_snapshot :=
           ForecastingService.snapshot_kpi_name
             (ForecastingService.mock_input_snapshot m);
         MockForecastingService.output_json :=
           String.concat ", "
             (map ForecastingService.point_date
                (ForecastingService.mock_forecast m)) |}
  | ForecastingService.Computed _ f => f
  end.


(** A KPI definition whose name is in no vertical of the formula table. *)
Definition unlisted_kpi : KPIDefinition.t :=
  kpi 1 1 "Customer Churn" "marketing_agency".

End Sample.

(* ================================================================== *)
(** * Properties *)

Unset Implicit Arguments.

(** ** Strings *)

Module PyFacts.

Lemma prefix_app (sep rest : string) : String.prefix sep (sep ++ rest) = true.
Proof.
  induction sep as [|c sep IH]; simpl.
  - now destruct rest.
  - destruct (ascii_dec c c) as [_|n]; [exact IH | now elim n].
Qed.

Lemma prefix_head (c a : ascii) (sep s : string) :
  Ascii.eqb a c = false -> String.prefix (String c sep) (String a s) = false.
Proof.
  intros H. simpl. destruct (ascii_dec c a) as [e|_]; [|reflexivity].
  subst. now rewrite Ascii.eqb_refl in H.
Qed.

Lemma has_char_app (c : ascii) (a b : string) :
  Py.has_char c (a ++ b) = Py.has_char c a || Py.has_char c b.
Proof.
  induction a as [|x a IH]; simpl; [reflexivity|].
  now rewrite IH, orb_assoc.
Qed.

(** [c in s] for a one-character pattern looks for the character. *)
Lemma contains_char (c : ascii) (s : string) :
  Py.contains (String c EmptyString) s = Py.has_char c s.
Proof.
  induction s as [|a s IH]; simpl; [reflexivity|].
  rewrite IH. f_equal.
  destruct (ascii_dec c a) as [e|n].
  - subst. rewrite Ascii.eqb_refl. now destruct s.
  - symmetry. apply Ascii.eqb_neq. congruence.
Qed.

Lemma contains_prefix (sep s : string) :
  String.prefix sep s = true -> Py.contains sep s = true.
Proof. intros H. destruct s; cbn [Py.contains]; now rewrite H. Qed.

Lemma contains_app (sep lhs rhs : string) :
  Py.contains sep (lhs ++ sep ++ rhs) = true.
Proof.
  induction lhs as [|a lhs IH].
  - change (EmptyString ++ sep ++ rhs) with (sep ++ rhs).
    apply contains_prefix, prefix_app.
  - cbn [append Py.contains]. rewrite IH. apply orb_true_r.
Qed.

(** After an occurrence is found, its remaining characters are skipped. *)
Lemma split_aux_skip (sep a b : string) :
  Py.split_aux sep (a ++ b) (String.length a) = Py.split_aux sep b 0.
Proof.
  induction a as [|c a IH]; simpl; [reflexivity | exact IH].
Qed.

(** The text before the first occurrence of the separator is the first
    part, when the separator's first character does not occur in it. *)
Lemma split_first_part (c : ascii) (sep lhs rhs : string) :
  Py.has_char c lhs = false ->
  Py.split (String c sep) (lhs ++ String c sep ++ rhs)
  = lhs :: Py.split (String c sep) rhs.
Proof.
  unfold Py.split. intros H.
  induction lhs as [|a lhs IH].
  - change (EmptyString ++ String c sep ++ rhs) with (String c (sep ++ rhs)).
    cbn [Py.split_aux].
    change (String c (sep ++ rhs)) with (String c sep ++ rhs) at 1.
    rewrite prefix_app. cbn [String.length Nat.pred].
    now rewrite split_aux_skip.
  - simpl in H. apply orb_false_iff in H as [Hac Hl].
    change (String a lhs ++ String c sep ++ rhs)
      with (String a (lhs ++ String c sep ++ rhs)).
    cbn [Py.split_aux].
    rewrite (prefix_head c a sep _ Hac), (IH Hl). reflexivity.
Qed.

(** A text without the separator is its own and only part. *)
Lemma split_absent (sep s : string) :
  Py.contains sep s = false -> Py.split sep s = [s].
Proof.
  unfold Py.split. induction s as [|a s IH]; intros H.
  - reflexivity.
  - cbn [Py.contains] in H. apply orb_false_iff in H as [Hp Hc].
    cbn [Py.split_aux]. rewrite Hp, (IH Hc). reflexivity.
Qed.

Lemma split_head_absent (c : ascii) (sep lhs rhs : string) :
  Py.has_char c lhs = false ->
  Py.contains (String c sep) rhs = false ->
  nth_error (Py.split (String c sep) (lhs ++ String c sep ++ rhs)) 1 = Some rhs.
Proof.
  intros Hl Hr. rewrite (split_first_part _ _ _ _ Hl), (split_absent _ _ Hr).
  reflexivity.
Qed.

End PyFacts.

(** ** The alert evaluator *)

Module AlertEngineFacts.

Import ConditionSpec.

Lemma free_of_contains (c : ascii) (s : string) :
  free_of c s = true -> Py.contains (String c EmptyString) s = false.
Proof.
  unfold free_of. rewrite PyFacts.contains_char. now destruct (Py.has_char c s).
Qed.

Lemma free_of_app (c : ascii) (a b : string) :
  free_of c a = true -> free_of c b = true -> free_of c (a ++ b) = true.
Proof.
  unfold free_of. rewrite PyFacts.has_char_app.
  destruct (Py.has_char c a), (Py.has_char c b); easy.
Qed.

Lemma free_of_has_char (c : ascii) (s : string) :
  free_of c s = true -> Py.has_char c s = false.
Proof. unfold free_of. now destruct (Py.has_char c s). Qed.

Ltac split_ands :=
  repeat match goal with
         | H : _ && _ = true |- _ => apply andb_true_iff in H as [? ?]
         | H : negb _ = true |- _ => apply negb_true_iff in H
         end.

Section Evaluate.

Variable py_float : string -> option float.

Lemma threshold_of_comparison (c : ascii) (sep lhs rhs : string) :
  Py.has_char c lhs = false ->
  Py.contains (String c sep) rhs = false ->
  AlertEngine.threshold_after py_float (String c sep) (lhs ++ String c sep ++ rhs)
  = py_float (Py.strip rhs).
Proof.
  intros Hl Hr. unfold AlertEngine.threshold_after.
  now rewrite (PyFacts.split_head_absent c sep lhs rhs Hl Hr).
Qed.

(** C3, as amended: on a condition whose operator is its only operator
    the evaluator splits on the operator, parses the right-hand side as
    a float and answers true exactly when [value < threshold], when
    [value > threshold], or, for [==], when [value] and [threshold] are
    less than 0.01 apart; a right-hand side that does not parse and a
    text without an operator never match. *)
Theorem evaluate_condition_verdict (value : float) (sh : shape) :
  well_formed sh = true ->
  AlertEngine._evaluate_condition py_float value (render sh)
  = verdict py_float holds value sh.
Proof.
  intros WF. unfold AlertEngine._evaluate_condition.
  destruct sh as [lhs [| |] rhs | text]; cbn [render symbol verdict holds];
    cbn [well_formed] in WF; split_ands.
  - rewrite (PyFacts.contains_app "<" lhs rhs).
    rewrite threshold_of_comparison
      by auto using free_of_has_char, free_of_contains.
    reflexivity.
  - rewrite (free_of_contains "<" (lhs ++ ">" ++ rhs))
      by (apply free_of_app; [assumption | apply (free_of_app "<" ">"); easy]).
    rewrite (PyFacts.contains_app ">" lhs rhs).
    rewrite threshold_of_comparison
      by auto using free_of_has_char, free_of_contains.
    reflexivity.
  - rewrite (free_of_contains "<" (lhs ++ "==" ++ rhs))
      by (apply free_of_app; [assumption | apply (free_of_app "<" "=="); easy]).
    rewrite (free_of_contains ">" (lhs ++ "==" ++ rhs))
      by (apply free_of_app; [assumption | apply (free_of_app ">" "=="); easy]).
    rewrite (PyFacts.contains_app "==" lhs rhs).
    rewrite threshold_of_comparison by auto using free_of_has_char.
    reflexivity.
  - repeat match goal with H : Py.contains _ _ = false |- _ => rewrite H; clear H end.
    reflexivity.
Qed.

End Evaluate.

(** The example of the specification: ["value < 10"] matches 8 and does
    not match 12. *)
Lemma evaluate_condition_verdict_witness :
  AlertEngine._evaluate_condition Sample.py_float 8 "value < 10" = true /\
  AlertEngine._evaluate_condition Sample.py_float 12 "value < 10" = false.
Proof.
  split.
  - exact (evaluate_condition_verdict Sample.py_float 8
             (Comparison "value " Lt " 10") eq_refl).
  - exact (evaluate_condition_verdict Sample.py_float 12
             (Comparison "value " Lt " 10") eq_refl).
Defined.

(** C3, as stated, fails for [==]: 10.005 is not 10, and ["value == 10"]
    matches it. *)
Lemma evaluate_condition_eq_is_not_equality :
  AlertEngine._evaluate_condition Sample.py_float 10.005 "value == 10" = true /\
  verdict Sample.py_float holds_exactly 10.005 (Comparison "value " Eq " 10") = false.
Proof. split; vm_compute; reflexivity. Qed.

(** Only the text up to a second operator is read as the right-hand side,
    and [<=] and [>=] are no operators of the evaluator: their [=] makes
    the right-hand side unreadable. *)
Example evaluate_condition_on_other_texts :
  AlertEngine._evaluate_condition Sample.py_float 8 "value < 10 < x" = true
  /\ AlertEngine._evaluate_condition Sample.py_float 8 "value <= 10" = false
  /\ AlertEngine._evaluate_condition Sample.py_float 12 "value >= 10" = false
  /\ AlertEngine._evaluate_condition Sample.py_float 8 "value below 10" = false
  /\ AlertEngine._evaluate_condition Sample.py_float 8 "value < ten" = false.
Proof. repeat split; vm_compute; reflexivity. Qed.

Section Anomalies.

Variables z_score isolation_forest trend :
  list float -> list datetime -> list AlertEngine.anomaly.

Lemma detector_needs_ten_points (values : list float) (timestamps : list datetime) :
  (length values < 10)%nat ->
  AlertEngine.detector_detect_anomalies z_score isolation_forest trend
    values timestamps = [].
Proof.
  intros H. unfold AlertEngine.detector_detect_anomalies.
  apply Nat.ltb_lt in H. now rewrite H.
Qed.

(** C10: on a series of fewer than ten points the engine's anomaly
    detection returns the empty list, whatever the values and whatever
    the three detection passes would report; the detector it would have
    called answers the empty list on such a series too. *)
Theorem detect_anomalies_needs_ten_points
    (kpi_values : list KPIValue.t) (kpi_definition : KPIDefinition.t) :
  (length kpi_values < 10)%nat ->
  AlertEngine.detect_anomalies z_score isolation_forest trend
    kpi_values kpi_definition = []
  /\ AlertEngine.detector_detect_anomalies z_score isolation_forest trend
       (map KPIValue.value kpi_values) (map KPIValue.timestamp kpi_values) = [].
Proof.
  intros H. split.
  - unfold AlertEngine.detect_anomalies.
    apply Nat.ltb_lt in H. now rewrite H.
  - apply detector_needs_ten_points. now rewrite length_map.
Qed.

End Anomalies.

Lemma detect_anomalies_needs_ten_points_witness :
  (length Sample.two_points < 10)%nat /\
  AlertEngine.detect_anomalies Sample.flag_all Sample.flag_all Sample.flag_all
    Sample.two_points (Sample.kpi 1 1 "Patient Volume" "urgent_clinic") = [].
Proof.
  split; [simpl; lia |].
  apply (detect_anomalies_needs_ten_points
           Sample.flag_all Sample.flag_all Sample.flag_all).
  simpl; lia.
Defined.

(** Ten points are enough for the passes to be consulted. *)
Example detect_anomalies_on_ten_points :
  length (AlertEngine.detect_anomalies Sample.flag_all Sample.flag_all Sample.flag_all
            (repeat (Sample.kpi_value 1 1 1 0 1) 10)
            (Sample.kpi 1 1 "Patient Volume" "urgent_clinic")) = 30%nat.
Proof. reflexivity. Qed.

End AlertEngineFacts.

(** ** The CSV connector *)

Module DictFacts.

Lemma get_set_same {V} (k : string) (v : V) (d : Dict.t V) :
  Dict.get k (Dict.set k v d) = Some v.
Proof.
  induction d as [|[k' v'] d IH]; simpl.
  - now rewrite String.eqb_refl.
  - destruct (String.eqb k k') eqn:E; simpl; rewrite ?E, ?String.eqb_refl; auto.
Qed.

Lemma get_set_other {V} (k k' : string) (v : V) (d : Dict.t V) :
  k <> k' -> Dict.get k (Dict.set k' v d) = Dict.get k d.
Proof.
  intros N. apply String.eqb_neq in N.
  induction d as [|[k0 v0] d IH]; simpl.
  - now rewrite N.
  - destruct (String.eqb k' k0) eqn:E; simpl.
    + apply String.eqb_eq in E. subst k0. now rewrite N.
    + now rewrite IH.
Qed.

Lemma get_In {V} (k : string) (d : Dict.t V) (v : V) :
  Dict.get k d = Some v -> In (k, v) d.
Proof.
  induction d as [|[k' v'] d IH]; simpl; [discriminate|].
  destruct (String.eqb k k') eqn:E.
  - intros [= ->]. apply String.eqb_eq in E. subst k'. now left.
  - auto.
Qed.

End DictFacts.

Module CSVFacts.

Import CSVConnectorService.

Section Normalize.

Variable py_float : string -> option float.
Variable fromisoformat : string -> option datetime.
Variable isoformat : datetime -> string.

(** A failed date or number parse hands the value back as it came. *)
Lemma failed_transformation_keeps_value (value target_field : string) :
  TransformSpec.fails py_float fromisoformat value target_field = true ->
  _apply_transformation py_float fromisoformat isoformat value target_field
  = PStr value.
Proof.
  unfold TransformSpec.fails, _apply_transformation.
  intros H. apply andb_true_iff in H as [H Hp].
  apply andb_true_iff in H as [Hv He].
  apply negb_true_iff in He. rewrite He.
  destruct value as [|c value]; [discriminate|].
  destruct (Py.contains "date" target_field || Py.contains "time" target_field)%bool.
  - destruct (fromisoformat _); [discriminate | reflexivity].
  - apply andb_true_iff in Hp as [Hn Hf]. rewrite Hn.
    destruct (py_float _); [discriminate | reflexivity].
Qed.

Lemma later_mappings_keep (row : Row) (tgt : string) (after : Dict.t string) :
  Forall (fun st => snd st <> tgt) after ->
  forall d,
    Dict.get tgt (fold_left (mapping_step py_float fromisoformat isoformat row) after d)
    = Dict.get tgt d.
Proof.
  induction 1 as [|[s t] after Hne _ IH]; intros d; simpl; [reflexivity|].
  rewrite IH. destruct (Dict.get s row); [|reflexivity].
  apply DictFacts.get_set_other. simpl in Hne. congruence.
Qed.

(** The last mapping onto a target field decides the field. *)
Lemma mapped_field (row : Row) (before after : Dict.t string)
    (src tgt value : string) :
  Forall (fun st => snd st <> tgt) after ->
  Dict.get src row = Some value ->
  Dict.get tgt (_apply_field_mappings py_float fromisoformat isoformat row
                  (before ++ (src, tgt) :: after)%list)
  = Some (_apply_transformation py_float fromisoformat isoformat value tgt).
Proof.
  intros Ha Hs. unfold _apply_field_mappings.
  rewrite fold_left_app. cbn [fold_left].
  rewrite (later_mappings_keep row tgt after Ha).
  unfold mapping_step at 1. rewrite Hs. apply DictFacts.get_set_same.
Qed.

End Normalize.

End CSVFacts.

(** ** The store and the request handlers *)

Module PyIntFacts.

(** [int] reads back what [str] prints. *)
Lemma int_str (z : Z) : Py.int (Py.str z) = Some z.
Proof.
  unfold Py.int, Py.str.
  rewrite NilZero.isi.
  - now rewrite DecimalZ.of_to.
  - destruct z; simpl; try discriminate.
    intros [= H]. now apply DecimalPos.Unsigned.to_uint_nonnil in H.
  - destruct z; simpl; try discriminate.
    intros [= H]. now apply DecimalPos.Unsigned.to_uint_nonnil in H.
Qed.

Lemma str_inj (a b : Z) : Py.str a = Py.str b -> a = b.
Proof.
  intros H. assert (E : Py.int (Py.str a) = Py.int (Py.str b)) by now rewrite H.
  rewrite !int_str in E. now injection E.
Qed.

End PyIntFacts.

Module StoreFacts.

Lemma first_exists {A} (p : A -> bool) (rows : list A) (x : A) :
  In x rows -> p x = true -> exists y, Store.first p rows = Some y.
Proof.
  unfold Store.first. induction rows as [|r rows IH]; intros Hin Hp; [easy|].
  simpl. destruct (p r) eqn:E; [now exists r|].
  destruct Hin as [->|Hin]; [congruence | auto].
Qed.




Lemma others_update_first {A} (tenant_of : A -> Z) (t : Z)
    (p : A -> bool) (f : A -> A) (rows : list A) :
  (forall r, p r = true -> tenant_of r = t) ->
  (forall r, tenant_of (f r) = tenant_of r) ->
  Api.others tenant_of t (Store.update_first p f rows) = Api.others tenant_of t rows.
Proof.
  intros Hp Hf. unfold Api.others.
  induction rows as [|r rows IH]; [reflexivity|].
  simpl. destruct (p r) eqn:E; simpl.
  - rewrite Hf, (Hp r E), Z.eqb_refl. reflexivity.
  - now rewrite IH.
Qed.




Lemma Forall_filter_tenant {A} (tenant_of : A -> Z) (p : A -> bool) (t : Z)
    (rows : list A) :
  (forall r, p r = true -> tenant_of r = t) ->
  Forall (fun x => x = t) (map tenant_of (filter p rows)).
Proof.
  intros Hp. induction rows as [|r rows IH]; simpl; [constructor|].
  destruct (p r) eqn:E; simpl; [constructor; auto | assumption].
Qed.



End StoreFacts.

Module AuthFacts.

Section Register.

Variable get_password_hash : string -> string.
Variable create_access_token : string -> string -> Z -> string.

(** C7: a registration whose e-mail is already the e-mail of a user fails
    with status 400 and leaves the store as it was: no tenant row and no
    user row is created. *)
Theorem register_duplicate_email (db : DB) (request : Api.RegisterRequest)
    (existing : User.t) :
  In existing (users db) ->
  User.email existing = Api.user_email request ->
  Api.register get_password_hash create_access_token db request
  = (HTTPException 400 "Email already registered", db).
Proof.
  intros Hin Hmail. unfold Api.register.
  destruct (StoreFacts.first_exists
              (fun u => String.eqb (User.email u) (Api.user_email request))
              (users db) existing Hin) as [y Hy].
  - rewrite Hmail. apply String.eqb_refl.
  - now rewrite Hy.
Qed.

(** A fresh e-mail adds exactly one tenant and one user of that tenant. *)
Lemma register_fresh_email (db : DB) (request : Api.RegisterRequest) :
  (forall u, In u (users db) -> User.email u <> Api.user_email request) ->
  exists token db',
    Api.register get_password_hash create_access_token db request = (Return token, db')
    /\ length (tenants db') = S (length (tenants db))
    /\ length (users db') = S (length (users db)).
Proof.
  intros Hfresh. unfold Api.register.
  destruct (Store.first _ (users db)) as [u|] eqn:E.
  - apply find_some in E as [Hin He]. apply String.eqb_eq in He.
    now elim (Hfresh u Hin).
  - cbn. do 2 eexists. split; [reflexivity|].
    cbn. rewrite !length_app. cbn. split; lia.
Qed.

End Register.

Lemma register_duplicate_email_witness :
  Api.register (fun p => p) (fun s t _ => s ++ ":" ++ t) Sample.db
    {| Api.tenant_name := "Test Agency 4"; Api.tenant_plan := "starter";
       Api.user_email := "user1@example.com"; Api.user_password := "testpassword123";
       Api.user_role := "owner" |}
  = (HTTPException 400 "Email already registered", Sample.db).
Proof.
  apply (register_duplicate_email (fun p => p) (fun s t _ => s ++ ":" ++ t)
           Sample.db _ (Sample.user 1 1)).
  - simpl. left. reflexivity.
  - reflexivity.
Defined.

End AuthFacts.

Module GuardFacts.

(** The guard of the specification turns away every caller who names
    another tenant than the own, however the tenant is written. *)
Lemma verify_tenant_access_other (user : User.t) (a : Api.guard_arg) (B : Z) :
  User.tenant_id user <> B ->
  Api.tenant_named a = Some B ->
  Api.verify_tenant_access user a = false.
Proof.
  intros N H. destruct a as [s|n]; cbn [Api.verify_tenant_access Api.tenant_named] in *.
  - apply String.eqb_neq. intros E. subst s.
    rewrite PyIntFacts.int_str in H. congruence.
  - apply Z.eqb_neq. congruence.
Qed.

Lemma verify_tenant_access_own (user : User.t) :
  Api.verify_tenant_access user (Api.StrArg (Py.str (User.tenant_id user))) = true
  /\ Api.verify_tenant_access user (Api.IntArg (User.tenant_id user)) = true.
Proof. split; [apply String.eqb_refl | apply Z.eqb_refl]. Qed.

Ltac open_route :=
  cbn [Api.handle];
  unfold Api.list_alerts, Api.acknowledge_alert, Api.resolve_alert,
    Api.generate_mock_alerts, Api.create_connector, Api.list_connectors,
    Api.sync_connector, Api.upload_csv, Api.get_map_preview, Api.list_kpis,
    Api.create_kpi, Api.evaluate_kpi, Api.get_kpi_values, Api.get_dashboard,
    Api.run_forecast, Api.list_predictions, Api.get_prediction,
    Api.query_graph_route, Api.get_graph_statistics_route, Api.get_graph_nodes,
    Api.get_graph_edges, Api.ask_assistant, Api.get_tenant.

Section Handle.

Variable verify_tenant_access : User.t -> Api.guard_arg -> bool.
Variable rt : Api.Runtime.

(** Every route asks the guard first: a request the guard turns away is
    answered 403 and the store is not looked at. *)
Lemma handle_forbidden (e : Api.env) (db : DB) (user : User.t)
    (x_tenant_id : string) (req : Api.request) :
  verify_tenant_access user (Api.asserted_tenant x_tenant_id req) = false ->
  Api.handle verify_tenant_access rt e db user x_tenant_id req
  = (HTTPException 403 "Access denied to this tenant", db).
Proof.
  intros H.
  destruct req; cbn [Api.asserted_tenant] in H; open_route; rewrite H; reflexivity.
Qed.

(** A 404 is only ever answered to a request that passed the guard. *)
Lemma not_found_after_guard (e : Api.env) (db db' : DB) (user : User.t)
    (x_tenant_id : string) (req : Api.request) (detail : string) :
  Api.handle verify_tenant_access rt e db user x_tenant_id req
  = (HTTPException 404 detail, db') ->
  verify_tenant_access user (Api.asserted_tenant x_tenant_id req) = true.
Proof.
  intros H.
  destruct (verify_tenant_access user (Api.asserted_tenant x_tenant_id req)) eqn:G;
    [reflexivity|].
  rewrite (handle_forbidden e db user x_tenant_id req G) in H. discriminate H.
Qed.

End Handle.

(** A header that names another tenant than the path is not the text of
    the path. *)
Lemma header_of_other_tenant (x_tenant_id : string) (t B : Z) :
  Py.int x_tenant_id = Some B -> t <> B ->
  String.eqb (Py.str t) x_tenant_id = false.
Proof.
  intros H N. apply String.eqb_neq. intros E. subst x_tenant_id.
  rewrite PyIntFacts.int_str in H. congruence.
Qed.

(** C2, as the code has it: a caller whose home tenant is not [B] and
    whose [X-Tenant-ID] header names [B], written in any way [int] reads,
    is answered 403 on every route but the dashboard and the tenant route,
    the store stays as it was and the answer is the same over every store.
    The dashboard and the tenant route hand the tenant of the path to the
    guard: with [B] in the path they answer 403 whatever the header says;
    with the header naming [B] under a path of the caller's own tenant the
    dashboard answers 400, header mismatch, and the tenant route, which
    does not read the header, answers as it does without it.  No route
    answers 404 to a request that did not pass the guard.  The guard is
    the first statement of every handler, so these answers are given
    before any row is read. *)
Theorem cross_tenant_header_and_path (rt : Api.Runtime) (e : Api.env)
    (db : DB) (user : User.t) (x_tenant_id : string) (B : Z) :
  User.tenant_id user <> B ->
  Py.int x_tenant_id = Some B ->
  (forall req : Api.request,
     (forall t, req <> Api.GetDashboard t) ->
     (forall t, req <> Api.GetTenant t) ->
     Api.handle Api.verify_tenant_access rt e db user x_tenant_id req
     = (HTTPException 403 "Access denied to this tenant", db)
     /\ forall db2 : DB,
          fst (Api.handle Api.verify_tenant_access rt e db2 user x_tenant_id req)
          = fst (Api.handle Api.verify_tenant_access rt e db user x_tenant_id req))
  /\ (forall header : string,
        Api.handle Api.verify_tenant_access rt e db user header (Api.GetDashboard B)
        = (HTTPException 403 "Access denied to this tenant", db)
        /\ Api.handle Api.verify_tenant_access rt e db user header (Api.GetTenant B)
           = (HTTPException 403 "Access denied to this tenant", db))
  /\ Api.handle Api.verify_tenant_access rt e db user x_tenant_id
       (Api.GetDashboard (User.tenant_id user))
     = (HTTPException 400 "X-Tenant-ID header mismatch", db)
  /\ (forall (t : Z) (header : string),
        Api.handle Api.verify_tenant_access rt e db user x_tenant_id (Api.GetTenant t)
        = Api.handle Api.verify_tenant_access rt e db user header (Api.GetTenant t))
  /\ (forall (e' : Api.env) (db1 db1' : DB) (user' : User.t) (header : string)
             (req' : Api.request) (detail : string),
        Api.handle Api.verify_tenant_access rt e' db1 user' header req'
        = (HTTPException 404 detail, db1') ->
        Api.verify_tenant_access user' (Api.asserted_tenant header req') = true).
Proof.
  intros N A.
  assert (F : forall (d : DB) (req : Api.request),
             (forall t, req <> Api.GetDashboard t) ->
             (forall t, req <> Api.GetTenant t) ->
             Api.handle Api.verify_tenant_access rt e d user x_tenant_id req
             = (HTTPException 403 "Access denied to this tenant", d)).
  { intros d req Hd Ht. apply handle_forbidden.
    apply (verify_tenant_access_other user _ B N).
    destruct req; try exact A; [now elim (Hd tenant_id) | now elim (Ht tenant_id)]. }
  split; [|split; [|split; [|split]]].
  - intros req Hd Ht. split; [now apply F|].
    intros db2. now rewrite !F.
  - intros header. split; apply handle_forbidden;
      apply (verify_tenant_access_other user _ B N); cbn [Api.asserted_tenant Api.tenant_named];
      [apply PyIntFacts.int_str | reflexivity].
  - cbn [Api.handle]. unfold Api.get_dashboard.
    cbn [Api.verify_tenant_access]. rewrite String.eqb_refl.
    rewrite (header_of_other_tenant x_tenant_id (User.tenant_id user) B A N).
    reflexivity.
  - reflexivity.
  - intros e' db1 db1' user' header req' detail H.
    now apply not_found_after_guard in H.
Qed.

(** User 1 of tenant 1 names tenant 2 in the header, on an alert that
    exists there. *)
Lemma cross_tenant_header_and_path_witness :
  Api.handle Api.verify_tenant_access Sample.runtime Sample.env Sample.db
    (Sample.user 1 1) "2" (Api.AcknowledgeAlert 2 true)
  = (HTTPException 403 "Access denied to this tenant", Sample.db).
Proof.
  assert (N : User.tenant_id (Sample.user 1 1) <> 2) by (simpl; lia).
  apply (cross_tenant_header_and_path Sample.runtime Sample.env Sample.db
           (Sample.user 1 1) "2" 2 N eq_refl).
  - intros t H. discriminate H.
  - intros t H. discriminate H.
Defined.

(** The same caller, with the own tenant in the path and tenant 2 in the
    header: the dashboard answers 400, not the 403 of the guard, so not
    every route answers 403 to a header that names another tenant. *)
Lemma header_mismatch_is_not_forbidden :
  User.tenant_id (Sample.user 1 1) <> 2
  /\ Py.int "2" = Some 2
  /\ Api.handle Api.verify_tenant_access Sample.runtime Sample.env Sample.db
       (Sample.user 1 1) "2" (Api.GetDashboard 1)
     = (HTTPException 400 "X-Tenant-ID header mismatch", Sample.db)
  /\ ~ (forall req : Api.request,
          fst (Api.handle Api.verify_tenant_access Sample.runtime Sample.env
                 Sample.db (Sample.user 1 1) "2" req)
          = HTTPException 403 "Access denied to this tenant").
Proof.
  split; [simpl; lia|]. split; [reflexivity|].
  split; [vm_compute; reflexivity|].
  intros H. specialize (H (Api.GetDashboard 1)). vm_compute in H. discriminate H.
Qed.

(** The same caller gets the same answer for an alert that exists nowhere,
    and a 404 for it under the own tenant. *)
Example answers_of_the_guard :
  fst (Api.handle Api.verify_tenant_access Sample.runtime Sample.env Sample.db
         (Sample.user 1 1) "2" (Api.AcknowledgeAlert 99 true))
  = HTTPException 403 "Access denied to this tenant"
  /\ fst (Api.handle Api.verify_tenant_access Sample.runtime Sample.env Sample.db
            (Sample.user 1 1) "1" (Api.AcknowledgeAlert 99 true))
     = HTTPException 404 "Alert not found"
  /\ fst (Api.handle Api.verify_tenant_access Sample.runtime Sample.env Sample.db
            (Sample.user 1 1) "1" (Api.GetTenant 2))
     = HTTPException 403 "Access denied to this tenant".
Proof. repeat split; vm_compute; reflexivity. Qed.

End GuardFacts.

Module IsolationFacts.
















Lemma detect_anomalies_tenant
    (z_score isolation_forest trend :
       list float -> list datetime -> list AlertEngine.anomaly)
    (kpi_values : list KPIValue.t) (kpi_definition : KPIDefinition.t) :
  Forall (fun a => Alert.tenant_id a = KPIDefinition.tenant_id kpi_definition)
    (AlertEngine.detect_anomalies z_score isolation_forest trend
       kpi_values kpi_definition).
Proof.
  unfold AlertEngine.detect_anomalies.
  destruct (length kpi_values <? 10)%nat; [constructor|].
  apply Forall_map. apply Forall_forall. reflexivity.
Qed.

(** The dashboard route never answers with a body: whatever its queries
    read, the request ends in an error. *)
Lemma get_dashboard_never_answers
    (verify_tenant_access : User.t -> Api.guard_arg -> bool)
    (isoformat : datetime -> string) (now : datetime) (db : DB) (user : User.t)
    (tenant_id : Z) (x_tenant_id : string) :
  exists status_code detail,
    Api.get_dashboard verify_tenant_access isoformat now db user tenant_id x_tenant_id
    = (HTTPException status_code detail, db).
Proof.
  unfold Api.get_dashboard.
  destruct (negb (verify_tenant_access user _)); [now do 2 eexists|].
  destruct (negb (String.eqb _ _)); [now do 2 eexists|].
  cbv zeta. destruct (Api.alert_tiles _ _); now do 2 eexists.
Qed.





Section Handle.

Variable verify_tenant_access : User.t -> Api.guard_arg -> bool.
Variable rt : Api.Runtime.
Variable py_float : string -> option float.


End Handle.


(** What the sample store answers and keeps: the alerts listed for tenant 1
    are its own, and the four mock alerts are added under tenant 1. *)
Example isolation_on_the_sample :
  fst (Api.handle Api.verify_tenant_access Sample.runtime Sample.env Sample.db
         (Sample.user 1 1) "1" Api.ListAlerts)
  = Return (Api.AlertList [Sample.alert 1 1])
  /\ map Alert.tenant_id
       (alerts
          (snd (Api.handle Api.verify_tenant_access Sample.runtime Sample.env
                  Sample.db (Sample.user 1 1) "1"
                  (Api.GenerateMockAlerts "marketing_agency"))))
     = [1; 2; 1; 1; 1; 1].
Proof. split; vm_compute; reflexivity. Qed.

(** The dashboard of the own tenant, asked for with a matching header. *)
Example dashboard_on_the_sample :
  fst (Api.handle Api.verify_tenant_access Sample.runtime Sample.env Sample.db
         (Sample.user 1 1) "1" (Api.GetDashboard 1))
  = HTTPException 500 "Internal Server Error".
Proof. vm_compute. reflexivity. Qed.

(** The threshold check of the specification's example: 8 raises the
    conversion alert under the tenant of the value, 12 raises none. *)
Example check_kpi_alerts_on_the_sample :
  map (fun a => (Alert.tenant_id a, Alert.severity a))
    (AlertEngine.check_kpi_alerts Sample.py_float Sample.isoformat
       (Sample.kpi_value 1 1 1 3 8)
       (Sample.kpi 1 1 "Lead Conversion Rate" "marketing_agency"))
  = [(1, "high")]
  /\ AlertEngine.check_kpi_alerts Sample.py_float Sample.isoformat
       (Sample.kpi_value 1 1 1 3 12)
       (Sample.kpi 1 1 "Lead Conversion Rate" "marketing_agency") = [].
Proof. split; vm_compute; reflexivity. Qed.

End IsolationFacts.

(** ** Stripping and case folding *)

Module StripFacts.

Section Strip.

Variable space : ascii -> bool.

Lemma lstrip_of_head (s : string) :
  Py.lstrip_of space s = EmptyString
  \/ exists c t, Py.lstrip_of space s = String c t /\ space c = false.
Proof.
  induction s as [|c s IH]; simpl; [now left|].
  destruct (space c) eqn:E; [assumption|]. right. now exists c, s.
Qed.

Lemma rstrip_of_cons (c : ascii) (s : string) :
  space c = false ->
  Py.rstrip_of space (String c s) = String c (Py.rstrip_of space s).
Proof.
  intros E. simpl. rewrite E. now destruct (Py.rstrip_of space s).
Qed.

Lemma rstrip_of_idem (s : string) :
  Py.rstrip_of space (Py.rstrip_of space s) = Py.rstrip_of space s.
Proof.
  induction s as [|c s IH]; [reflexivity|]. simpl.
  destruct (Py.rstrip_of space s) as [|a r] eqn:R.
  - destruct (space c) eqn:E; [reflexivity|]. simpl. now rewrite E.
  - change (Py.rstrip_of space (String c (String a r))) with
      (match Py.rstrip_of space (String a r) with
       | EmptyString => if space c then EmptyString else String c EmptyString
       | String x y => String c (String x y)
       end).
    now rewrite IH.
Qed.

Lemma lstrip_of_rstrip_of (s : string) :
  Py.lstrip_of space (Py.rstrip_of space (Py.lstrip_of space s))
  = Py.rstrip_of space (Py.lstrip_of space s).
Proof.
  destruct (lstrip_of_head s) as [E | [c [t [E Hc]]]]; rewrite E; [reflexivity|].
  rewrite (rstrip_of_cons c t Hc). simpl. now rewrite Hc.
Qed.

End Strip.

(** [s.strip().strip() == s.strip()]. *)
Lemma strip_idem (s : string) : Py.strip (Py.strip s) = Py.strip s.
Proof.
  unfold Py.strip. now rewrite lstrip_of_rstrip_of, rstrip_of_idem.
Qed.

Lemma strip_empty : Py.strip EmptyString = EmptyString.
Proof. reflexivity. Qed.

Lemma is_space_lower_char (c : ascii) :
  Py.is_space (Py.lower_char c) = Py.is_space c.
Proof. destruct c as [[] [] [] [] [] [] [] []]; reflexivity. Qed.

Lemma lower_char_idem (c : ascii) :
  Py.lower_char (Py.lower_char c) = Py.lower_char c.
Proof. destruct c as [[] [] [] [] [] [] [] []]; reflexivity. Qed.

Lemma lower_idem (s : string) : Py.lower (Py.lower s) = Py.lower s.
Proof.
  induction s as [|c s IH]; simpl; [reflexivity|].
  now rewrite lower_char_idem, IH.
Qed.

Lemma lower_lstrip (s : string) :
  Py.lower (Py.lstrip_of Py.is_space s) = Py.lstrip_of Py.is_space (Py.lower s).
Proof.
  induction s as [|c s IH]; simpl; [reflexivity|].
  rewrite is_space_lower_char. now destruct (Py.is_space c).
Qed.

Lemma lower_rstrip (s : string) :
  Py.lower (Py.rstrip_of Py.is_space s) = Py.rstrip_of Py.is_space (Py.lower s).
Proof.
  induction s as [|c s IH]; simpl; [reflexivity|].
  rewrite <- IH, is_space_lower_char.
  destruct (Py.rstrip_of Py.is_space s); simpl; [|reflexivity].
  now destruct (Py.is_space c).
Qed.

(** [s.strip().lower() == s.lower().strip()]. *)
Lemma lower_strip (s : string) : Py.lower (Py.strip s) = Py.strip (Py.lower s).
Proof. unfold Py.strip. now rewrite lower_rstrip, lower_lstrip. Qed.

End StripFacts.

(** ** Parsing and validating a CSV payload *)

Module ParseFacts.

Import CSVConnectorService.

Lemma mem_set {V} (k k' : string) (v : V) (d : Dict.t V) :
  Dict.mem k (Dict.set k' v d) = (String.eqb k k' || Dict.mem k d)%bool.
Proof.
  unfold Dict.mem. destruct (String.eqb k k') eqn:E.
  - apply String.eqb_eq in E. subst k'. now rewrite DictFacts.get_set_same.
  - apply String.eqb_neq in E. now rewrite DictFacts.get_set_other.
Qed.

Lemma mem_keys {V} (k : string) (d : Dict.t V) :
  Dict.mem k d = true <-> In k (Dict.keys d).
Proof.
  unfold Dict.mem, Dict.keys.
  induction d as [|[k' v'] d IH]; simpl; [easy|].
  destruct (String.eqb k k') eqn:E.
  - apply String.eqb_eq in E. subst k'. split; [now left | reflexivity].
  - apply String.eqb_neq in E. rewrite IH. split; [now right|].
    intros [H|H]; [congruence | assumption].
Qed.

Lemma keys_set {V} (k : string) (v : V) (d : Dict.t V) :
  Dict.keys (Dict.set k v d)
  = if Dict.mem k d then Dict.keys d else (Dict.keys d ++ [k])%list.
Proof.
  unfold Dict.mem, Dict.keys.
  induction d as [|[k' v'] d IH]; simpl; [reflexivity|].
  destruct (String.eqb k k') eqn:E; simpl.
  - apply String.eqb_eq in E. now subst k'.
  - rewrite IH. now destruct (Dict.get k d).
Qed.

Lemma NoDup_keys_set {V} (k : string) (v : V) (d : Dict.t V) :
  NoDup (Dict.keys d) -> NoDup (Dict.keys (Dict.set k v d)).
Proof.
  intros H. rewrite keys_set. destruct (Dict.mem k d) eqn:E; [assumption|].
  apply NoDup_app; [assumption | repeat constructor; easy |].
  intros x Hx [<-|[]]. apply mem_keys in Hx. congruence.
Qed.

Lemma Forall_set {V} (P : string * V -> Prop) (k : string) (v : V) (d : Dict.t V) :
  P (k, v) -> Forall P d -> Forall P (Dict.set k v d).
Proof.
  intros Hk H. induction H as [|[k' v'] d Hx H IH]; simpl.
  - now repeat constructor.
  - destruct (String.eqb k k'); constructor; assumption.
Qed.

(** A row as the parser keeps it: distinct column names, names and values
    without blanks around them. *)
Lemma clean_row_is_clean (row : reader_row) :
  NoDup (Dict.keys (clean_row row))
  /\ Forall (fun kv => Py.strip (fst kv) = fst kv /\ Py.strip (snd kv) = snd kv)
       (clean_row row).
Proof.
  unfold clean_row.
  assert (G : forall acc : Row,
            NoDup (Dict.keys acc)
            /\ Forall (fun kv => Py.strip (fst kv) = fst kv
                                 /\ Py.strip (snd kv) = snd kv) acc ->
            NoDup (Dict.keys
                     (fold_left
                        (fun cleaned_row kv =>
                           match fst kv with
                           | None => cleaned_row
                           | Some EmptyString => cleaned_row
                           | Some key =>
                               let cleaned_key := Py.strip key in
                               let cleaned_value :=
                                 match snd kv with
                                 | None => EmptyString
                                 | Some EmptyString => EmptyString
                                 | Some value => Py.strip value
                                 end in
                               Dict.set cleaned_key cleaned_value cleaned_row
                           end) row acc))
            /\ Forall (fun kv => Py.strip (fst kv) = fst kv
                                 /\ Py.strip (snd kv) = snd kv)
                 (fold_left
                    (fun cleaned_row kv =>
                       match fst kv with
                       | None => cleaned_row
                       | Some EmptyString => cleaned_row
                       | Some key =>
                           let cleaned_key := Py.strip key in
                           let cleaned_value :=
                             match snd kv with
                             | None => EmptyString
                             | Some EmptyString => EmptyString
                             | Some value => Py.strip value
                             end in
                           Dict.set cleaned_key cleaned_value cleaned_row
                       end) row acc)).
  { induction row as [|[k v] row IH]; intros acc H; [exact H|].
    cbn [fold_left fst snd]. apply IH.
    destruct k as [[|c key]|]; try exact H.
    destruct H as [Hn Hf]. split; [now apply NoDup_keys_set|].
    apply Forall_set; [|assumption]. cbn [fst snd]. split.
    - apply StripFacts.strip_idem.
    - destruct v as [[|a value]|]; try reflexivity.
      apply StripFacts.strip_idem. }
  apply G. split; constructor.
Qed.

Section Parse.

Variable decode : string -> list Byte.byte -> result string.
Variable DictReader : string -> string -> result (list reader_row).

(** X3: whatever the reader yields, the rows the parser hands on are clean:
    none is empty, no row holds a column name twice, and no column name and
    no value has blanks around it. *)
Theorem parsed_rows_are_clean (file_content : list Byte.byte)
    (config : Connector.config) (rows : list Row) :
  _parse_csv_content decode DictReader file_content config = Ok rows ->
  Forall (fun row =>
            row <> []
            /\ NoDup (Dict.keys row)
            /\ Forall (fun kv => Py.strip (fst kv) = fst kv
                                 /\ Py.strip (snd kv) = snd kv) row)
    rows.
Proof.
  unfold _parse_csv_content.
  destruct (decode _ file_content) as [text|e]; [|discriminate].
  destruct (DictReader _ text) as [read|e]; [|discriminate].
  intros [= <-]. apply Forall_forall. intros row Hin.
  apply filter_In in Hin as [Hin Hne].
  apply in_map_iff in Hin as [r [<- _]].
  split; [now destruct (clean_row r)|]. apply clean_row_is_clean.
Qed.

(** X4: [validate_csv_file] accepts a payload exactly when it is no longer
    than 10 MiB, parses to at least one row and its first row has every
    required column; what it then reports is the number of parsed rows and
    the first row with its column names. *)
Theorem validate_csv_file_accepts_exactly (file_content : list Byte.byte)
    (config : Connector.config) (record_count : nat) (columns : list string)
    (sample_row : Row) :
  validate_csv_file decode DictReader file_content config
  = Valid record_count columns sample_row
  <-> Z.of_nat (length file_content) <= max_file_size
      /\ exists rest,
           _parse_csv_content decode DictReader file_content config
           = Ok (sample_row :: rest)
           /\ record_count = S (length rest)
           /\ columns = Dict.keys sample_row
           /\ forall col,
                In col (match Connector.required_columns config with
                        | Some cs => cs
                        | None => []
                        end) ->
                Dict.mem col sample_row = true.
Proof.
  unfold validate_csv_file.
  destruct (max_file_size <? Z.of_nat (length file_content)) eqn:Big.
  - apply Z.ltb_lt in Big. split; [discriminate | intros [H _]; lia].
  - apply Z.ltb_ge in Big.
    destruct (_parse_csv_content decode DictReader file_content config)
      as [[|first rest]|e].
    + split; [discriminate | intros [_ [r [H _]]]; discriminate].
    + set (required := match Connector.required_columns config with
                       | Some cs => cs
                       | None => []
                       end).
      destruct (filter (fun col => negb (Dict.mem col first)) required)
        as [|missing more] eqn:F.
      * assert (All : forall col, In col required -> Dict.mem col first = true).
        { intros col Hin. destruct (Dict.mem col first) eqn:M; [reflexivity|].
          assert (Hf : In col (filter (fun col => negb (Dict.mem col first)) required))
            by (apply filter_In; split; [assumption | now rewrite M]).
          rewrite F in Hf. destruct Hf. }
        split.
        -- intros [= <- <- <-]. split; [assumption|]. exists rest. now repeat split.
        -- intros [_ [r [[= -> ->] [-> [-> _]]]]]. reflexivity.
      * split; [discriminate|].
        intros [_ [r [[= -> ->] [_ [_ All]]]]].
        assert (Hin : In missing (filter (fun col => negb (Dict.mem col sample_row))
                                    required))
          by (rewrite F; now left).
        apply filter_In in Hin as [Hin Hm].
        rewrite (All missing Hin) in Hm. discriminate.
    + split; [discriminate | intros [_ [r [H _]]]; discriminate].
Qed.

End Parse.

(** The three-line sample parses to two clean rows. *)
Lemma parsed_rows_are_clean_witness :
  exists rows,
    _parse_csv_content Sample.decode Sample.DictReader Sample.csv_bytes
      Sample.csv_config = Ok rows
    /\ length rows = 2%nat
    /\ Forall (fun row => row <> [] /\ NoDup (Dict.keys row)) rows.
Proof.
  eexists. split; [reflexivity|]. split; [reflexivity|].
  eapply Forall_impl;
    [|exact (parsed_rows_are_clean Sample.decode Sample.DictReader Sample.csv_bytes
               Sample.csv_config _ eq_refl)].
  intros row [H1 [H2 _]]. now split.
Defined.

(** The sample is a valid file of two records with the columns of its
    header. *)
Lemma validate_csv_file_accepts_exactly_witness :
  validate_csv_file Sample.decode Sample.DictReader Sample.csv_bytes Sample.csv_config
  = Valid 2 ["email"; "company"] [("email", "a@x.io"); ("company", "Acme")].
Proof.
  apply (validate_csv_file_accepts_exactly Sample.decode Sample.DictReader).
  split; [vm_compute; discriminate|].
  exists [[("email", "b@y.io"); ("company", "Bolt")]].
  repeat split. intros col [].
Defined.

End ParseFacts.

(** ** Normalizing rows *)

Module NormalizeFacts.

Import CSVConnectorService.

Section Normalize.

Variable py_float : string -> option float.
Variable fromisoformat : string -> option datetime.
Variable isoformat : datetime -> string.

Lemma mapped_fields (row : Row) (mappings : Dict.t string) (field : string) :
  forall normalized_data,
    Dict.mem field
      (fold_left (mapping_step py_float fromisoformat isoformat row) mappings
         normalized_data) = true
    <-> Dict.mem field normalized_data = true
        \/ exists source, In (source, field) mappings /\ Dict.mem source row = true.
Proof.
  induction mappings as [|[s t] mappings IH]; intros d; cbn [fold_left].
  - split; [now left | intros [H|[x [[] _]]]; exact H].
  - rewrite IH. unfold mapping_step.
    destruct (Dict.get s row) as [value|] eqn:G.
    + assert (Ms : Dict.mem s row = true) by (unfold Dict.mem; now rewrite G).
      rewrite ParseFacts.mem_set. split.
      * intros [H|[x [Hin Hm]]].
        -- apply orb_true_iff in H as [H|H]; [|now left].
           apply String.eqb_eq in H. subst t. right. exists s.
           split; [now left | assumption].
        -- right. exists x. split; [now right | assumption].
      * intros [H|[x [[[= <- <-]|Hin] Hm]]].
        -- left. rewrite H. apply orb_true_r.
        -- left. now rewrite String.eqb_refl.
        -- right. now exists x.
    + assert (Ms : Dict.mem s row = false) by (unfold Dict.mem; now rewrite G).
      split.
      * intros [H|[x [Hin Hm]]]; [now left|].
        right. exists x. split; [now right | assumption].
      * intros [H|[x [[[= <- <-]|Hin] Hm]]]; [now left | | right; now exists x].
        congruence.
Qed.

(** The fields of a normalized row are the targets of the mappings whose
    source column the row has. *)
Lemma apply_field_mappings_fields (row : Row) (mappings : Dict.t string)
    (field : string) :
  Dict.mem field (_apply_field_mappings py_float fromisoformat isoformat row mappings)
  = true
  <-> exists source, In (source, field) mappings /\ Dict.mem source row = true.
Proof.
  unfold _apply_field_mappings. rewrite mapped_fields.
  split; [intros [H|H]; [discriminate | exact H] | now right].
Qed.

(** X6: normalizing the text of an e-mail or source field is idempotent.
    A value that is not empty becomes its lower-case form without blanks
    around it, and that form, where it is not empty, is normalized to
    itself; so two spellings with the same lower-case form are normalized
    alike. *)
Theorem email_normalization_is_idempotent (value target_field : string) :
  In target_field ["email"; "source"] ->
  value <> EmptyString ->
  _apply_transformation py_float fromisoformat isoformat value target_field
  = PStr (Py.strip (Py.lower value))
  /\ (Py.strip (Py.lower value) <> EmptyString ->
      _apply_transformation py_float fromisoformat isoformat
        (Py.strip (Py.lower value)) target_field
      = PStr (Py.strip (Py.lower value)))
  /\ (forall other,
        other <> EmptyString -> Py.lower other = Py.lower value ->
        _apply_transformation py_float fromisoformat isoformat other target_field
        = _apply_transformation py_float fromisoformat isoformat value target_field).
Proof.
  intros Ht Hv.
  assert (M : Py.mem target_field ["email"; "source"] = true).
  { destruct Ht as [<-|[<-|[]]]; reflexivity. }
  assert (T : forall v, v <> EmptyString ->
                _apply_transformation py_float fromisoformat isoformat v target_field
                = PStr (Py.strip (Py.lower v))).
  { intros v Hne. unfold _apply_transformation. rewrite M.
    destruct v; [now elim Hne | reflexivity]. }
  split; [now apply T|]. split.
  - intros Hne. rewrite (T _ Hne).
    now rewrite StripFacts.lower_strip, StripFacts.lower_idem, StripFacts.strip_idem.
  - intros other Ho E. now rewrite (T _ Ho), (T _ Hv), E.
Qed.

End Normalize.

(** The e-mail of the sample's first row. *)
Lemma email_normalization_is_idempotent_witness :
  _apply_transformation Sample.py_float Sample.fromisoformat Sample.isoformat
    "Ann@Example.COM " "email" = PStr "ann@example.com"
  /\ _apply_transformation Sample.py_float Sample.fromisoformat Sample.isoformat
       "ann@example.com" "email" = PStr "ann@example.com".
Proof.
  destruct (email_normalization_is_idempotent Sample.py_float Sample.fromisoformat
              Sample.isoformat "Ann@Example.COM " "email"
              (or_introl eq_refl)) as [H1 [H2 _]]; [discriminate|].
  split; [exact H1 | apply H2; discriminate].
Defined.

End NormalizeFacts.

(** ** Registering and logging in *)

Module LoginFacts.

Lemma next_id_above (ids : list Z) (x : Z) : In x ids -> x < Store.next_id ids.
Proof.
  unfold Store.next_id. induction ids as [|y ids IH]; intros H; [easy|].
  cbn [fold_right]. destruct H as [->|H]; [lia|]. specialize (IH H). lia.
Qed.

Lemma next_id_fresh (ids : list Z) : ~ In (Store.next_id ids) ids.
Proof. intros H. apply next_id_above in H. lia. Qed.

Lemma first_app_none {A} (p : A -> bool) (rows more : list A) :
  Store.first p rows = None -> Store.first p (rows ++ more) = Store.first p more.
Proof.
  unfold Store.first. induction rows as [|r rows IH]; simpl; [reflexivity|].
  destruct (p r); [discriminate | exact IH].
Qed.

Section Accounts.

Variable get_password_hash : string -> string.
Variable verify_password : string -> string -> bool.
Variable create_access_token : string -> string -> Z -> string.

(** X9: every registration creates a tenant of its own.  A registration
    that succeeds adds one tenant row and one user row and nothing else; the
    tenant's id is the id of no tenant that existed and the user's id the id
    of no user that existed; the user belongs to the new tenant, carries the
    e-mail and role of the request and the hash of its password; and the
    token names these two ids. *)
Theorem register_creates_a_tenant_of_its_own (db db' : DB)
    (request : Api.RegisterRequest) (token : Api.Token) :
  Api.register get_password_hash create_access_token db request = (Return token, db') ->
  ~ In (Api.token_tenant_id token) (map Tenant.id (tenants db))
  /\ ~ In (Api.token_user_id token) (map User.id (users db))
  /\ tenants db'
     = (tenants db
        ++ [ {| Tenant.id := Api.token_tenant_id token;
                Tenant.name := Api.tenant_name request;
                Tenant.plan := Api.tenant_plan request |} ])%list
  /\ users db'
     = (users db
        ++ [ {| User.id := Api.token_user_id token;
                User.tenant_id := Api.token_tenant_id token;
                User.email := Api.user_email request;
                User.role := Api.user_role request;
                User.hashed_password :=
                  get_password_hash (Api.user_password request) |} ])%list
  /\ Store.set_users (Store.set_tenants db' (tenants db)) (users db) = db
  /\ Api.token_type token = "bearer"
  /\ Api.access_token token
     = create_access_token (Py.str (Api.token_user_id token))
         (Py.str (Api.token_tenant_id token)) 30.
Proof.
  unfold Api.register.
  destruct (Store.first _ (users db)) as [u|]; [discriminate|].
  cbn. intros [= <- <-]. cbn.
  split; [apply next_id_fresh|]. split; [apply next_id_fresh|].
  split; [reflexivity|]. split; [reflexivity|].
  split; [now destruct db|]. split; reflexivity.
Qed.

(** X11: a failed login tells nothing about which e-mails are registered.
    An e-mail no user has and a password that does not verify against the
    hash of the first user with the e-mail get the same answer, status 401
    with the same detail, and the store stays as it was. *)
Theorem login_failures_are_alike (db : DB) (username password : string) :
  (forall u, In u (users db) -> User.email u = username ->
             verify_password password (User.hashed_password u) = false) ->
  ApiAuth.login verify_password create_access_token db username password
  = (HTTPException 401 "Incorrect email or password", db).
Proof.
  intros H. unfold ApiAuth.login.
  destruct (Store.first _ (users db)) as [u|] eqn:F; [|reflexivity].
  apply find_some in F as [Hin He]. apply String.eqb_eq in He.
  now rewrite (H u Hin He).
Qed.

End Accounts.

(** A third account on the sample store, hashed by the identity. *)
Lemma register_creates_a_tenant_of_its_own_witness :
  exists token db',
    Api.register (fun p => p) (fun s t _ => s ++ ":" ++ t) Sample.db
      {| Api.tenant_name := "Police"; Api.tenant_plan := "starter";
         Api.user_email := "chief@example.com"; Api.user_password := "pw";
         Api.user_role := "owner" |} = (Return token, db')
    /\ Api.token_tenant_id token = 3 /\ Api.token_user_id token = 3
    /\ length (tenants db') = 3%nat /\ length (users db') = 3%nat.
Proof.
  do 2 eexists. split; [reflexivity|].
  destruct (register_creates_a_tenant_of_its_own (fun p => p)
              (fun s t _ => s ++ ":" ++ t) Sample.db _
              {| Api.tenant_name := "Police"; Api.tenant_plan := "starter";
                 Api.user_email := "chief@example.com"; Api.user_password := "pw";
                 Api.user_role := "owner" |} _ eq_refl)
    as [_ [_ [T [U _]]]].
  rewrite T, U. repeat split.
Defined.

(** An unknown e-mail and a wrong password on the sample store. *)
Lemma login_failures_are_alike_witness :
  ApiAuth.login String.eqb (fun s t _ => s ++ ":" ++ t) Sample.db
    "nobody@example.com" "h"
  = ApiAuth.login String.eqb (fun s t _ => s ++ ":" ++ t) Sample.db
      "user1@example.com" "guess".
Proof.
  rewrite (login_failures_are_alike String.eqb (fun s t _ => s ++ ":" ++ t)
             Sample.db "nobody@example.com" "h").
  - rewrite (login_failures_are_alike String.eqb (fun s t _ => s ++ ":" ++ t)
               Sample.db "user1@example.com" "guess"); [reflexivity|].
    intros u [<-|[<-|[]]] E; [reflexivity | discriminate E].
  - intros u [<-|[<-|[]]] E; discriminate E.
Defined.

Section Sessions.

Variable get_password_hash : string -> string.
Variable verify_password : string -> string -> bool.
(** [create_access_token] as it answers while the registration runs and
    while the login runs: the token carries an expiry counted from the
    call, so the two need not agree. *)
Variable token_at_registration : string -> string -> Z -> string.
Variable token_at_login : string -> string -> Z -> string.

(** X10: what was registered logs in.  After a registration that succeeds,
    logging in with the e-mail and the password of the request, when the
    password verifies against its own hash, is answered with a bearer
    token that [create_access_token] makes at the login for the user and
    the tenant the registration created, with the lifetime of 30 minutes;
    with a password that does not verify, the answer is 401.  Neither
    login changes the store. *)
Theorem registered_account_logs_in (db db' : DB) (request : Api.RegisterRequest)
    (token : Api.Token) :
  Api.register get_password_hash token_at_registration db request
  = (Return token, db') ->
  (verify_password (Api.user_password request)
     (get_password_hash (Api.user_password request)) = true ->
   ApiAuth.login verify_password token_at_login db'
     (Api.user_email request) (Api.user_password request)
   = (Return {| Api.access_token :=
                  token_at_login (Py.str (Api.token_user_id token))
                    (Py.str (Api.token_tenant_id token)) 30;
                Api.token_type := "bearer";
                Api.token_tenant_id := Api.token_tenant_id token;
                Api.token_user_id := Api.token_user_id token |},
      db'))
  /\ forall wrong,
       verify_password wrong (get_password_hash (Api.user_password request)) = false ->
       ApiAuth.login verify_password token_at_login db'
         (Api.user_email request) wrong
       = (HTTPException 401 "Incorrect email or password", db').
Proof.
  unfold Api.register.
  destruct (Store.first _ (users db)) as [u|] eqn:F; [discriminate|].
  cbn. intros [= <- <-].
  unfold ApiAuth.login. cbn [users Store.set_users Store.set_tenants].
  rewrite (first_app_none _ _ _ F). unfold Store.first. cbn [find User.email].
  rewrite String.eqb_refl. cbn [User.hashed_password User.id User.tenant_id].
  split.
  - intros Hv. now rewrite Hv.
  - intros wrong Hw. now rewrite Hw.
Qed.

End Sessions.

(** The third account of the sample store logs in, with a token function
    at the login that differs from the one at the registration. *)
Lemma registered_account_logs_in_witness :
  exists token db',
    Api.register (fun p => p) (fun s t _ => s ++ ":" ++ t) Sample.db
      {| Api.tenant_name := "Police"; Api.tenant_plan := "starter";
         Api.user_email := "chief@example.com"; Api.user_password := "pw";
         Api.user_role := "owner" |} = (Return token, db')
    /\ ApiAuth.login String.eqb (fun s t _ => s ++ ":" ++ t ++ ":later") db'
         "chief@example.com" "pw"
       = (Return {| Api.access_token := "3:3:later"; Api.token_type := "bearer";
                    Api.token_tenant_id := 3; Api.token_user_id := 3 |}, db')
    /\ ApiAuth.login String.eqb (fun s t _ => s ++ ":" ++ t ++ ":later") db'
         "chief@example.com" "guess"
       = (HTTPException 401 "Incorrect email or password", db').
Proof.
  do 2 eexists. split; [reflexivity|].
  destruct (registered_account_logs_in (fun p => p) String.eqb
              (fun s t _ => s ++ ":" ++ t)
              (fun s t _ => s ++ ":" ++ t ++ ":later") Sample.db _
              {| Api.tenant_name := "Police"; Api.tenant_plan := "starter";
                 Api.user_email := "chief@example.com"; Api.user_password := "pw";
                 Api.user_role := "owner" |} _ eq_refl) as [Hok Hwrong].
  split; [exact (Hok eq_refl) | exact (Hwrong "guess" eq_refl)].
Defined.

End LoginFacts.

(** ** What the routes leave in the store *)

Module RouteFacts.

Lemma map_update_first {A B} (key : A -> B) (p : A -> bool) (f : A -> A)
    (rows : list A) :
  (forall r, key (f r) = key r) ->
  map key (Store.update_first p f rows) = map key rows.
Proof.
  intros H. induction rows as [|r rows IH]; simpl; [reflexivity|].
  destruct (p r); simpl; [now rewrite H | now rewrite IH].
Qed.

Lemma set_alerts_back (db : DB) (v : list Alert.t) :
  Store.set_alerts (Store.set_alerts db v) (alerts db) = db.
Proof. now destruct db. Qed.

Lemma set_alerts_same (db : DB) : Store.set_alerts db (alerts db) = db.
Proof. now destruct db. Qed.

Lemma alert_of_id (alert_id t : Z) (a : Alert.t) :
  Api.alert_of alert_id t a = true -> Alert.id a = alert_id.
Proof.
  unfold Api.alert_of. intros H. apply andb_true_iff in H as [H _].
  now apply Z.eqb_eq.
Qed.

Section Routes.

Variable verify_tenant_access : User.t -> Api.guard_arg -> bool.

(** X12: acknowledging or resolving touches one alert.  Whatever the
    request and its outcome, every alert with another id than the one named
    is left exactly as it was, the alerts keep their ids and their order,
    and no other table changes. *)
Theorem acknowledging_touches_one_alert (now : datetime) (db : DB) (user : User.t)
    (x_tenant_id : string) (alert_id : Z) (acknowledged : bool) :
  (filter (fun a => negb (Alert.id a =? alert_id))
     (alerts (snd (Api.acknowledge_alert verify_tenant_access now db user
                     x_tenant_id alert_id acknowledged)))
   = filter (fun a => negb (Alert.id a =? alert_id)) (alerts db)
   /\ map Alert.id
        (alerts (snd (Api.acknowledge_alert verify_tenant_access now db user
                        x_tenant_id alert_id acknowledged)))
      = map Alert.id (alerts db)
   /\ Store.set_alerts
        (snd (Api.acknowledge_alert verify_tenant_access now db user
                x_tenant_id alert_id acknowledged)) (alerts db) = db)
  /\ (filter (fun a => negb (Alert.id a =? alert_id))
        (alerts (snd (Api.resolve_alert verify_tenant_access now db user
                        x_tenant_id alert_id)))
      = filter (fun a => negb (Alert.id a =? alert_id)) (alerts db)
      /\ map Alert.id
           (alerts (snd (Api.resolve_alert verify_tenant_access now db user
                           x_tenant_id alert_id)))
         = map Alert.id (alerts db)
      /\ Store.set_alerts
           (snd (Api.resolve_alert verify_tenant_access now db user
                   x_tenant_id alert_id)) (alerts db) = db).
Proof.
  unfold Api.acknowledge_alert, Api.resolve_alert.
  destruct (negb (verify_tenant_access user (Api.StrArg x_tenant_id)));
    [cbn [snd]; now rewrite set_alerts_same|].
  destruct (Py.int x_tenant_id) as [t|];
    [|cbn [snd]; now rewrite set_alerts_same].
  destruct (Store.first (Api.alert_of alert_id t) (alerts db));
    [|cbn [snd]; now rewrite set_alerts_same].
  cbn [snd Store.set_alerts alerts]. split; (split; [|split]).
  - apply (StoreFacts.others_update_first Alert.id alert_id).
    + apply alert_of_id.
    + reflexivity.
  - now apply map_update_first.
  - apply set_alerts_back.
  - apply (StoreFacts.others_update_first Alert.id alert_id).
    + apply alert_of_id.
    + reflexivity.
  - now apply map_update_first.
  - apply set_alerts_back.
Qed.

Variable isoformat : datetime -> string.

(** X15: the dashboard route never answers with a dashboard.  Every request
    ends in an error and leaves the store as it was: 403 when the guard
    refuses the path tenant, 400 when the header is not the path tenant as
    [str] prints it, and 500 in every other case, because the tile of the
    recent tasks reads the name [task] outside the comprehension that binds
    it. *)
Theorem dashboard_route_always_fails (now : datetime) (db : DB) (user : User.t)
    (tenant_id : Z) (x_tenant_id : string) :
  exists status_code detail,
    Api.get_dashboard verify_tenant_access isoformat now db user tenant_id x_tenant_id
    = (HTTPException status_code detail, db)
    /\ status_code
       = if negb (verify_tenant_access user (Api.StrArg (Py.str tenant_id)))
         then 403
         else if negb (String.eqb (Py.str tenant_id) x_tenant_id) then 400
         else 500.
Proof.
  unfold Api.get_dashboard.
  destruct (negb (verify_tenant_access user _)); [now do 2 eexists|].
  destruct (negb (String.eqb _ _)); [now do 2 eexists|].
  cbv zeta. destruct (Api.alert_tiles _ _); now do 2 eexists.
Qed.

End Routes.

(** Alert 1 is acknowledged on the sample store; alert 2 stays as it was. *)
Example acknowledging_on_the_sample :
  filter (fun a => negb (Alert.id a =? 1))
    (alerts (snd (Api.acknowledge_alert Api.verify_tenant_access 10 Sample.db
                    (Sample.user 1 1) "1" 1 true)))
  = [Sample.alert 2 2].
Proof. reflexivity. Qed.

End RouteFacts.

(** ** The detection passes *)

Module DetectorFacts.

Import AlertEngine MockAnomalyDetector.

Lemma abs_div_zero (d : float) :
  PrimFloat.is_nan d = false ->
  PrimFloat.eqb d 0 = false ->
  PrimFloat.abs (d / 0) = infinity.
Proof.
  unfold PrimFloat.is_nan. rewrite !FloatAxioms.eqb_spec. intros Hn Hz.
  apply FloatAxioms.Prim2SF_inj.
  rewrite FloatAxioms.abs_spec, FloatAxioms.div_spec.
  change (Prim2SF 0) with (S754_zero false) in *.
  change (Prim2SF infinity) with (S754_infinity false).
  destruct (Prim2SF d) as [s|s| |s m e]; cbn in *;
    try discriminate; reflexivity.
Qed.

Lemma length_flat_map_le {A B} (f : A -> list B) (rows : list A) :
  (forall x, (length (f x) <= 1)%nat) ->
  (length (flat_map f rows) <= length rows)%nat.
Proof.
  intros H. induction rows as [|r rows IH]; simpl; [lia|].
  rewrite length_app. specialize (H r). lia.
Qed.

Section Passes.

Variable isoformat : datetime -> string.
Variable np_mean : list float -> float.
Variable np_std : list float -> float.

(** X17: what the z-score pass reports.  Every anomaly it reports is a point
    of the series whose distance from the mean, in standard deviations, is
    more than 2; it carries that score and the range of two deviations
    around the mean; the pass reports at most one anomaly per point that has
    a timestamp, and none at all for fewer than five points or for a series
    without deviation. *)
Theorem z_score_anomalies_are_outliers (values : list float)
    (timestamps : list datetime) :
  Forall (fun a =>
            PrimFloat.ltb 2 (a_score a) = true
            /\ a_score a
               = PrimFloat.abs ((a_value a - np_mean values) / np_std values)
            /\ In (a_value a) values
            /\ a_expected_range a
               = (np_mean values - 2 * np_std values,
                  np_mean values + 2 * np_std values)%float
            /\ a_type a = "z_score_outlier"
            /\ a_method a = "z_score")
    (_detect_z_score_anomalies isoformat np_mean np_std values timestamps)
  /\ (length (_detect_z_score_anomalies isoformat np_mean np_std values timestamps)
      <= Nat.min (length values) (length timestamps))%nat
  /\ ((length values < 5)%nat ->
      _detect_z_score_anomalies isoformat np_mean np_std values timestamps = [])
  /\ (PrimFloat.eqb (np_std values) 0 = true ->
      _detect_z_score_anomalies isoformat np_mean np_std values timestamps = []).
Proof.
  unfold _detect_z_score_anomalies.
  destruct (length values <? 5)%nat eqn:Short.
  { repeat split; try constructor. simpl. lia. }
  apply Nat.ltb_ge in Short.
  destruct (PrimFloat.eqb (np_std values) 0) eqn:Flat.
  { repeat split; try constructor. simpl. lia. }
  split; [|split; [|split; [lia | discriminate]]].
  - apply Forall_flat_map, Forall_forall. intros [v t] Hin.
    cbn [fst snd].
    destruct (PrimFloat.ltb z_score_threshold _) eqn:Z; constructor; [|constructor].
    cbn. repeat split; try assumption.
    now apply in_combine_l in Hin.
  - rewrite <- length_combine. apply length_flat_map_le.
    intros [v t]. cbn [fst snd]. destruct (PrimFloat.ltb _ _); simpl; lia.
Qed.

Lemma nth_rolling (f : list float -> float) (values : list float)
    (window_size i : nat) (d : float) :
  (i < length values)%nat ->
  nth i (rolling f values window_size) d = f (window_values values window_size i).
Proof.
  intros H. unfold rolling.
  rewrite (nth_indep _ d (f (window_values values window_size 0)))
    by now rewrite length_map, length_seq.
  rewrite (map_nth (fun i => f (window_values values window_size i))).
  now rewrite seq_nth.
Qed.

(** With a timestamp for the point a step raises nothing and only
    appends. *)
Lemma trend_step_appends (values : list float) (timestamps : list datetime)
    (rolling_mean rolling_std : list float) (i : nat) (anomalies : list anomaly) :
  (i < length timestamps)%nat ->
  exists extra,
    trend_step isoformat values timestamps rolling_mean rolling_std (Ok anomalies) i
    = Ok (anomalies ++ extra)%list.
Proof.
  intros Hi. apply nth_error_Some in Hi.
  destruct (nth_error timestamps i) as [t|] eqn:T; [|now elim Hi].
  unfold trend_step. cbn [bind]. rewrite T.
  destruct (PrimFloat.ltb 0 _); [destruct (PrimFloat.ltb 2.5 _)|].
  - now eexists.
  - exists []. now rewrite app_nil_r.
  - exists []. now rewrite app_nil_r.
Qed.

Lemma trend_steps_append (values : list float) (timestamps : list datetime)
    (rolling_mean rolling_std : list float) (indices : list nat) :
  (forall i, In i indices -> (i < length timestamps)%nat) ->
  forall anomalies,
    exists more,
      fold_left (trend_step isoformat values timestamps rolling_mean rolling_std)
        indices (Ok anomalies) = Ok (anomalies ++ more)%list.
Proof.
  induction indices as [|i indices IH]; intros Hin anomalies; cbn [fold_left].
  - exists []. now rewrite app_nil_r.
  - destruct (trend_step_appends values timestamps rolling_mean rolling_std i
                anomalies (Hin i (or_introl eq_refl))) as [extra E].
    rewrite E.
    destruct (IH (fun j Hj => Hin j (or_intror Hj)) (anomalies ++ extra)%list)
      as [more E'].
    rewrite E', <- app_assoc. now eexists.
Qed.

(** X18: the trend pass scores a point against the window before it.  The
    guard reads the deviation of the window that ends at the point, the
    score divides by the deviation of the window that ends one point
    earlier; the first window is a single point, to which numpy gives the
    point as mean and 0 as deviation.  So in a series of at least seven
    points with a timestamp each, when the deviation of the first two
    values is above zero, so that the guard lets the second point through,
    and their difference is a number other than zero, the second point is
    reported, first in the list, with an infinite score and an expected
    range that is the first value alone. *)
Theorem trend_pass_reports_the_second_point (v0 v1 : float) (rest : list float)
    (timestamps : list datetime) :
  (7 <= length (v0 :: v1 :: rest))%nat ->
  length timestamps = length (v0 :: v1 :: rest) ->
  np_mean [v0] = v0 ->
  np_std [v0] = 0%float ->
  PrimFloat.ltb 0 (np_std [v0; v1]) = true ->
  PrimFloat.is_nan (v1 - v0) = false ->
  PrimFloat.eqb (v1 - v0) 0 = false ->
  exists t1 more,
    nth_error timestamps 1 = Some t1
    /\ _detect_trend_anomalies isoformat np_mean np_std (v0 :: v1 :: rest) timestamps
       = Ok ({| a_type := "trend_anomaly";
                a_score := infinity;
                a_value := v1;
                a_expected_range := (v0 - 2 * 0, v0 + 2 * 0)%float;
                a_timestamp := isoformat t1;
                a_method := "trend_analysis" |} :: more).
Proof.
  intros Hlen Hts Hmean Hstd0 Hstd1 Hnan Hneq.
  set (values := v0 :: v1 :: rest) in *.
  assert (L1 : (1 < length timestamps)%nat) by lia.
  apply nth_error_Some in L1.
  destruct (nth_error timestamps 1) as [t1|] eqn:T1; [|now elim L1].
  exists t1.
  unfold _detect_trend_anomalies.
  replace (length values <? 7)%nat with false by (symmetry; apply Nat.ltb_ge; lia).
  set (w := Nat.min 7 (length values / 2)).
  assert (Hw : (2 <= w)%nat).
  { subst w. assert (3 <= length values / 2)%nat
      by (apply Nat.div_le_lower_bound; lia). lia. }
  replace (seq 1 (length values - 1)) with (1%nat :: seq 2 (length values - 2))
    by (replace (length values - 1)%nat with (S (length values - 2)) by lia;
        reflexivity).
  cbn [fold_left]. unfold trend_step at 2. cbn [bind Nat.sub].
  rewrite !nth_rolling by lia.
  assert (W0 : window_values values w 0 = [v0]).
  { unfold window_values. replace (0 + 1 - w)%nat with 0%nat by lia. reflexivity. }
  assert (W1 : window_values values w 1 = [v0; v1]).
  { unfold window_values. replace (1 + 1 - w)%nat with 0%nat by lia. reflexivity. }
  rewrite W0, W1, Hstd1, Hmean, Hstd0.
  change (nth 1 values 0%float) with v1.
  rewrite (abs_div_zero _ Hnan Hneq).
  replace (PrimFloat.ltb 2.5 infinity) with true by reflexivity.
  rewrite T1. cbn [app].
  destruct (trend_steps_append values timestamps
              (rolling np_mean values w) (rolling np_std values w)
              (seq 2 (length values - 2))) with
    (anomalies := [ {| a_type := "trend_anomaly";
                       a_score := infinity;
                       a_value := v1;
                       a_expected_range := (v0 - 2 * 0, v0 + 2 * 0)%float;
                       a_timestamp := isoformat t1;
                       a_method := "trend_analysis" |} ]) as [more E].
  - intros i Hi. apply in_seq in Hi. lia.
  - exists more. split; [reflexivity|]. exact E.
Qed.

End Passes.

(** A series that steps from 10 to 12 after its first day: the only
    deviation from the mean beyond two standard deviations is the first
    point, and the trend pass reports the second with an infinite score. *)
Lemma trend_pass_reports_the_second_point_witness :
  exists more,
    _detect_trend_anomalies Sample.isoformat Sample.np_mean Sample.np_std
      Sample.step_series [0; 1; 2; 3; 4; 5; 6; 7; 8; 9]
    = Ok ({| a_type := "trend_anomaly";
             a_score := infinity;
             a_value := 12;
             a_expected_range := (10, 10)%float;
             a_timestamp := "1";
             a_method := "trend_analysis" |} :: more).
Proof.
  destruct (trend_pass_reports_the_second_point Sample.isoformat Sample.np_mean
              Sample.np_std 10 12 [12; 12; 12; 12; 12; 12; 12; 12]%float
              [0; 1; 2; 3; 4; 5; 6; 7; 8; 9])
    as [t1 [more [T E]]]; try reflexivity.
  - simpl. lia.
  - injection T as <-. exists more. exact E.
Defined.

Example z_score_pass_on_the_step_series :
  map a_value
    (_detect_z_score_anomalies Sample.isoformat Sample.np_mean Sample.np_std
       Sample.step_series [0; 1; 2; 3; 4; 5; 6; 7; 8; 9])
  = [10%float].
Proof. vm_compute. reflexivity. Qed.

End DetectorFacts.

(** ** Field mapping suggestions *)

Module SuggestionFacts.

Import MockLLMService.

Lemma ltb_leb (a b : float) : PrimFloat.ltb a b = true -> PrimFloat.leb a b = true.
Proof.
  rewrite FloatAxioms.ltb_spec, FloatAxioms.leb_spec. unfold SFltb, SFleb.
  now destruct (SFcompare (Prim2SF a) (Prim2SF b)) as [[]|].
Qed.

(** [max(0.5, min(0.99, x))] lies between its bounds, whatever [x] is. *)
Lemma clamp_bounds (x : float) :
  PrimFloat.leb 0.5 (py_max 0.5 (py_min 0.99 x)) = true
  /\ PrimFloat.leb (py_max 0.5 (py_min 0.99 x)) 0.99 = true.
Proof.
  unfold py_max, py_min.
  destruct (PrimFloat.ltb x 0.99) eqn:Hi.
  - destruct (PrimFloat.ltb 0.5 x) eqn:Lo.
    + split; now apply ltb_leb.
    + split; reflexivity.
  - split; reflexivity.
Qed.

Lemma get_map {V W} (g : V -> W) (k : string) (d : Dict.t V) :
  Dict.get k (map (fun kv => (fst kv, g (snd kv))) d) = option_map g (Dict.get k d).
Proof.
  induction d as [|[k' v] d IH]; simpl; [reflexivity|].
  now destruct (String.eqb k k').
Qed.

Lemma map_set {V W} (g : V -> W) (k : string) (v v0 : V) (d : Dict.t V) :
  Dict.get k d = Some v0 -> g v = g v0 ->
  map (fun kv => (fst kv, g (snd kv))) (Dict.set k v d)
  = map (fun kv => (fst kv, g (snd kv))) d.
Proof.
  intros G E. induction d as [|[k' v'] d IH]; simpl in *; [discriminate|].
  destruct (String.eqb k k') eqn:K; simpl.
  - apply String.eqb_eq in K. subst k'. injection G as ->. now rewrite E.
  - now rewrite IH.
Qed.

Section Suggest.

Variable rnd : nat -> float.

Lemma adjust_shape (mappings : list field_mapping) :
  forall n,
    map (fun m => with_confidence m 0) (adjust rnd n mappings)
    = map (fun m => with_confidence m 0) mappings
    /\ length (adjust rnd n mappings) = length mappings
    /\ Forall (fun m => PrimFloat.leb 0.5 (confidence m) = true
                        /\ PrimFloat.leb (confidence m) 0.99 = true)
         (adjust rnd n mappings).
Proof.
  induction mappings as [|m rest IH]; intros n; simpl.
  - repeat split. constructor.
  - destruct (IH (S n)) as [S [L F]]. rewrite S, L. repeat split.
    constructor; [apply clamp_bounds | exact F].
Qed.

(** X20: every suggested confidence lies between 0.5 and 0.99, whatever
    the table held and whatever the random numbers are; the suggestions are
    the mappings of the table under the connector type and the vertical,
    with their fields untouched and the confidences apart; none come for a
    connector type or a vertical the table does not have.  The sample row
    is counted in [total_fields] and decides nothing else. *)
Theorem suggested_confidences_are_clamped (field_mappings : table)
    (connector_type vertical : string) (sample_data : Row) :
  Forall (fun m => PrimFloat.leb 0.5 (confidence m) = true
                   /\ PrimFloat.leb (confidence m) 0.99 = true)
    (suggested_mappings
       (fst (suggest_field_mapping rnd field_mappings connector_type vertical
               sample_data)))
  /\ map (fun m => with_confidence m 0)
       (suggested_mappings
          (fst (suggest_field_mapping rnd field_mappings connector_type vertical
                  sample_data)))
     = match MockKPIEngine.get2 connector_type vertical field_mappings with
       | Some mappings => map (fun m => with_confidence m 0) mappings
       | None => []
       end
  /\ mapped_fields
       (fst (suggest_field_mapping rnd field_mappings connector_type vertical
               sample_data))
     = length (suggested_mappings
                 (fst (suggest_field_mapping rnd field_mappings connector_type
                         vertical sample_data)))
  /\ total_fields
       (fst (suggest_field_mapping rnd field_mappings connector_type vertical
               sample_data))
     = length sample_data
  /\ (forall other,
        suggested_mappings
          (fst (suggest_field_mapping rnd field_mappings connector_type vertical
                  other))
        = suggested_mappings
            (fst (suggest_field_mapping rnd field_mappings connector_type vertical
                    sample_data))).
Proof.
  unfold suggest_field_mapping, MockKPIEngine.get2.
  destruct (Dict.get connector_type field_mappings) as [by_vertical|];
    [destruct (Dict.get vertical by_vertical) as [mappings|]|];
    cbn [fst suggested_mappings mapped_fields total_fields];
    try (repeat split; constructor).
  destruct (adjust_shape mappings 0) as [S [L F]].
  repeat split; assumption.
Qed.

(** X21: the suggestions are written back.  A call changes the service's
    table in its confidences only; the entry under the connector type and
    the vertical of the call becomes the list that was handed out, so the
    next call starts from these confidences and not from the ones the
    service was loaded with; every other entry stays as it was. *)
Theorem suggestions_are_written_back (field_mappings : table)
    (connector_type vertical : string) (sample_data : Row) :
  shape (snd (suggest_field_mapping rnd field_mappings connector_type vertical
                sample_data))
  = shape field_mappings
  /\ (forall mappings,
        MockKPIEngine.get2 connector_type vertical field_mappings = Some mappings ->
        MockKPIEngine.get2 connector_type vertical
          (snd (suggest_field_mapping rnd field_mappings connector_type vertical
                  sample_data))
        = Some (suggested_mappings
                  (fst (suggest_field_mapping rnd field_mappings connector_type
                          vertical sample_data))))
  /\ (forall connector_type' vertical',
        (connector_type', vertical') <> (connector_type, vertical) ->
        MockKPIEngine.get2 connector_type' vertical'
          (snd (suggest_field_mapping rnd field_mappings connector_type vertical
                  sample_data))
        = MockKPIEngine.get2 connector_type' vertical' field_mappings).
Proof.
  unfold suggest_field_mapping, MockKPIEngine.get2.
  destruct (Dict.get connector_type field_mappings) as [by_vertical|] eqn:G1;
    [destruct (Dict.get vertical by_vertical) as [mappings|] eqn:G2|];
    cbn [fst snd suggested_mappings];
    try (split; [reflexivity|]; split; [|reflexivity];
         intros ms; rewrite ?G1, ?G2; discriminate).
  destruct (adjust_shape mappings 0) as [S _].
  split; [|split].
  - unfold shape.
    apply (map_set (fun inner =>
                      map (fun by_vertical : string * list field_mapping =>
                             (fst by_vertical,
                              map (fun m => with_confidence m 0) (snd by_vertical)))
                          inner)
             connector_type _ by_vertical _ G1).
    apply (map_set (fun ms => map (fun m => with_confidence m 0) ms)
             vertical _ mappings _ G2 S).
  - intros ms _. now rewrite !DictFacts.get_set_same.
  - intros ct' v' Hne.
    destruct (String.eqb ct' connector_type) eqn:E1.
    + apply String.eqb_eq in E1. subst ct'.
      rewrite DictFacts.get_set_same, G1.
      apply DictFacts.get_set_other. congruence.
    + apply String.eqb_neq in E1. now rewrite DictFacts.get_set_other.
Qed.

(** X22: only CSV connectors get suggestions under a vertical.  The tables
    of the HubSpot and Google Ads connectors are keyed by endpoint
    (["contacts"], ["campaigns"]), so a call for any connector type but
    ["csv"] under a vertical, as the preview route makes it with
    ["marketing_agency"], suggests nothing and leaves the table as it is,
    however many calls went before. *)
Theorem only_csv_has_suggestions_by_vertical (current : table)
    (connector_type vertical : string) (sample_data : Row) :
  shape current = shape field_mappings ->
  connector_type <> "csv" ->
  vertical <> "contacts" -> vertical <> "campaigns" ->
  suggest_field_mapping rnd current connector_type vertical sample_data
  = ({| suggested_mappings := [];
        suggestions_threshold := 0.8;
        total_fields := length sample_data;
        mapped_fields := 0 |}, current).
Proof.
  intros Hs Hcsv Hcon Hcam. unfold suggest_field_mapping.
  assert (G : option_map
                (fun inner =>
                   map (fun by_vertical : string * list field_mapping =>
                          (fst by_vertical,
                           map (fun m => with_confidence m 0) (snd by_vertical)))
                       inner)
                (Dict.get connector_type current)
              = Dict.get connector_type (shape field_mappings)).
  { rewrite <- Hs. unfold shape. symmetry. apply get_map. }
  destruct (Dict.get connector_type current) as [by_vertical|]; [|reflexivity].
  assert (V : option_map (fun ms => map (fun m => with_confidence m 0) ms)
                (Dict.get vertical by_vertical) = None).
  { rewrite <- (get_map (fun ms => map (fun m => with_confidence m 0) ms)).
    cbn [option_map] in G. revert G.
    cbn [shape MockLLMService.field_mappings map fst snd Dict.get].
    apply String.eqb_neq in Hcsv. rewrite Hcsv.
    destruct (String.eqb connector_type "hubspot");
      [|destruct (String.eqb connector_type "google_ads"); [|discriminate]];
      intros [= ->]; cbn [Dict.get].
    - apply String.eqb_neq in Hcon. now rewrite Hcon.
    - apply String.eqb_neq in Hcam. now rewrite Hcam. }
  now destruct (Dict.get vertical by_vertical).
Qed.

End Suggest.

(** The preview of a HubSpot connector, as the route asks for it, after a
    call for a CSV sample has already moved the confidences. *)
Lemma only_csv_has_suggestions_by_vertical_witness :
  suggested_mappings
    (fst (suggest_field_mapping Sample.rnd
            (snd (suggest_field_mapping Sample.rnd field_mappings "csv"
                    "marketing_agency" [("email", "a@x.io")]))
            "hubspot" "marketing_agency" []))
  = [].
Proof.
  rewrite (only_csv_has_suggestions_by_vertical Sample.rnd
             (snd (suggest_field_mapping Sample.rnd field_mappings "csv"
                     "marketing_agency" [("email", "a@x.io")]))
             "hubspot" "marketing_agency" []); try discriminate; reflexivity.
Defined.

(** Two calls in a row for the same CSV sample: the second starts from the
    confidences of the first. *)
Example confidences_drift :
  map confidence
    (suggested_mappings
       (fst (suggest_field_mapping (fun _ => 1%float)
               (snd (suggest_field_mapping (fun _ => 1%float) field_mappings "csv"
                       "marketing_agency" []))
               "csv" "marketing_agency" [])))
  = [0.99; 0.99; 0.99; 0.99; 0.99; 0.99; 0.99]%float
  /\ map confidence
       (suggested_mappings
          (fst (suggest_field_mapping (fun _ => 1%float) field_mappings "csv"
                  "marketing_agency" [])))
     <> [0.99; 0.99; 0.99; 0.99; 0.99; 0.99; 0.99]%float.
Proof. split; [vm_compute; reflexivity | vm_compute; discriminate]. Qed.

End SuggestionFacts.

(** ** The assistant *)

Module AssistantFacts.

Import MockLLMService.

(** [max(0.3, min(0.95, x))] lies between its bounds, whatever [x] is. *)
Lemma score_bounds (x : float) :
  PrimFloat.leb 0.3 (py_max 0.3 (py_min 0.95 x)) = true
  /\ PrimFloat.leb (py_max 0.3 (py_min 0.95 x)) 0.95 = true.
Proof.
  unfold py_max, py_min.
  destruct (PrimFloat.ltb x 0.95) eqn:Hi.
  - destruct (PrimFloat.ltb 0.3 x) eqn:Lo.
    + split; now apply SuggestionFacts.ltb_leb.
    + split; reflexivity.
  - split; reflexivity.
Qed.

Lemma keys_set_same {V} (k : string) (v : V) (d : Dict.t V) :
  Dict.mem k d = true -> Dict.keys (Dict.set k v d) = Dict.keys d.
Proof. intros H. now rewrite ParseFacts.keys_set, H. Qed.

Section Ask.

Variable isoformat : datetime -> string.
Variable rnd : nat -> float.
Variable choice : nat -> nat.
Variable randint : nat -> Z -> Z -> Z.
Variable utcnow : nat -> datetime.

(** X23: how the assistant answers.  The first category of the table, in
    its order, with a pattern that occurs in the lower-cased question
    answers: the answer is the response [random.choice] picks there, with
    its text, actions and sources as the table has them, a confidence
    between 0.3 and 0.95 and a provenance of two entries, and the table
    holds this answer in place of the response afterwards.  A question in
    which no pattern occurs gets the default response, confidence 0.5 and
    no provenance, and the table stays as it is.  The tenant and the
    context decide nothing: every tenant gets the same answer. *)
Theorem assistant_answers_by_first_pattern (current : Dict.t category)
    (question : string) (tenant_id : Z) (context : Z * string) :
  (find (fun entry => asked_for (Py.lower question) (snd entry)) current = None ->
   process_ai_query isoformat rnd choice randint utcnow current question tenant_id
     context = Ok (default_response, current))
  /\ (forall name data response,
        find (fun entry => asked_for (Py.lower question) (snd entry)) current
        = Some (name, data) ->
        nth_error (responses data) (choice (length (responses data)))
        = Some response ->
        exists answered,
          process_ai_query isoformat rnd choice randint utcnow current question
            tenant_id context
          = Ok (answered,
                Dict.set name
                  {| patterns := patterns data;
                     responses :=
                       set_nth (choice (length (responses data))) answered
                         (responses data) |} current)
          /\ answer answered = answer response
          /\ suggested_actions answered = suggested_actions response
          /\ sources answered = sources response
          /\ length (provenance answered) = 2%nat)
  /\ (forall answered after,
        process_ai_query isoformat rnd choice randint utcnow current question
          tenant_id context = Ok (answered, after) ->
        PrimFloat.leb 0.3 (confidence_score answered) = true
        /\ PrimFloat.leb (confidence_score answered) 0.95 = true
        /\ Dict.keys after = Dict.keys current)
  /\ (forall tenant_id' context',
        process_ai_query isoformat rnd choice randint utcnow current question
          tenant_id' context'
        = process_ai_query isoformat rnd choice randint utcnow current question
            tenant_id context).
Proof.
  unfold process_ai_query.
  destruct (find _ current) as [[name data]|] eqn:F.
  - split; [discriminate|]. split; [|split; [|reflexivity]].
    + intros name' data' response [= <- <-] N. rewrite N.
      eexists. split; [reflexivity|]. now repeat split.
    + intros answered after.
      destruct (nth_error (responses data) _) as [response|]; [|discriminate].
      intros [= <- <-]. cbn [confidence_score refreshed].
      split; [apply score_bounds|]. split; [apply score_bounds|].
      apply keys_set_same. apply find_some in F as [Hin _].
      apply ParseFacts.mem_keys. unfold Dict.keys.
      now apply (in_map fst) in Hin.
  - split; [reflexivity|]. split; [discriminate|]. split; [|reflexivity].
    intros answered after [= <- <-]. now repeat split.
Qed.

End Ask.

(** A question about alerts and KPIs is answered from the KPI responses,
    the first category of the table; a greeting gets the default
    response. *)
Lemma assistant_answers_by_first_pattern_witness :
  (exists answered after,
     process_ai_query Sample.isoformat Sample.rnd (fun _ => 1%nat)
       (fun _ a _ => a) (fun _ => 1000000) assistant_responses
       "Any ALERT on my KPI?" 1 (1, "owner") = Ok (answered, after)
     /\ sources answered = ["kpi_values"; "campaign_analytics"; "roi_analysis"])
  /\ process_ai_query Sample.isoformat Sample.rnd (fun _ => 1%nat)
       (fun _ a _ => a) (fun _ => 1000000) assistant_responses
       "Good morning" 1 (1, "owner") = Ok (default_response, assistant_responses).
Proof.
  destruct (assistant_answers_by_first_pattern Sample.isoformat Sample.rnd
              (fun _ => 1%nat) (fun _ a _ => a) (fun _ => 1000000)
              assistant_responses "Any ALERT on my KPI?" 1 (1, "owner"))
    as [_ [H _]].
  destruct (assistant_answers_by_first_pattern Sample.isoformat Sample.rnd
              (fun _ => 1%nat) (fun _ a _ => a) (fun _ => 1000000)
              assistant_responses "Good morning" 1 (1, "owner"))
    as [D _].
  split; [|exact (D eq_refl)].
  destruct (H _ _ _ eq_refl eq_refl) as [answered [E [_ [_ [S _]]]]].
  exists answered. eexists. split; [exact E | exact S].
Defined.

End AssistantFacts.

(** ** The mock graph *)

Module GraphFacts.

Import MockGraphService.

Lemma sum_set (t : string) (v : Z) (counts : Dict.t Z) :
  fold_right Z.add 0 (map snd (Dict.set t v counts))
  = fold_right Z.add 0 (map snd counts)
    - match Dict.get t counts with Some n => n | None => 0 end + v.
Proof.
  induction counts as [|[k n] counts IH]; simpl; [lia|].
  destruct (String.eqb t k); simpl; [lia | rewrite IH; lia].
Qed.

Lemma count_step_sum (types : list string) :
  forall counts,
    fold_right Z.add 0
      (map snd
         (fold_left
            (fun counts t =>
               Dict.set t
                 (match Dict.get t counts with Some n => n | None => 0 end + 1)
                 counts) types counts))
    = fold_right Z.add 0 (map snd counts) + Z.of_nat (length types).
Proof.
  induction types as [|t types IH]; intros counts; cbn [fold_left length].
  - lia.
  - rewrite IH, sum_set. lia.
Qed.

Lemma count_step_get (ty : string) (types : list string) :
  forall counts,
    Dict.get ty
      (fold_left
         (fun counts t =>
            Dict.set t
              (match Dict.get t counts with Some n => n | None => 0 end + 1)
              counts) types counts)
    = match count_occ string_dec types ty with
      | O => Dict.get ty counts
      | S k => Some (match Dict.get ty counts with Some n => n | None => 0 end
                     + Z.of_nat (S k))
      end.
Proof.
  induction types as [|t types IH]; intros counts; cbn [fold_left count_occ].
  - reflexivity.
  - rewrite IH. destruct (string_dec t ty) as [->|N].
    + rewrite DictFacts.get_set_same.
      destruct (count_occ string_dec types ty); f_equal; lia.
    + rewrite DictFacts.get_set_other by congruence. reflexivity.
Qed.

(** X25: the statistics count the graph.  For every vertical, the node
    types of the statistics map each type to the number of nodes of that
    type in the mock graph of the vertical, and no other type to anything,
    so the counts add up to [total_nodes]; the same holds of the relation
    types of the edges and [total_edges]; a vertical the table does not
    have, or none, gives an empty graph; and the tenant decides nothing. *)
Theorem graph_statistics_count_the_graph (tenant_id : Z) (vertical : option string) :
  total_nodes (get_graph_statistics tenant_id vertical)
  = length (nodes (graph_of vertical))
  /\ total_edges (get_graph_statistics tenant_id vertical)
     = length (edges (graph_of vertical))
  /\ (forall ty,
        Dict.get ty (node_types (get_graph_statistics tenant_id vertical))
        = match count_occ string_dec (map data_type (nodes (graph_of vertical))) ty
          with
          | O => None
          | S k => Some (Z.of_nat (S k))
          end)
  /\ (forall ty,
        Dict.get ty (edge_types (get_graph_statistics tenant_id vertical))
        = match count_occ string_dec (map data_rel (edges (graph_of vertical))) ty
          with
          | O => None
          | S k => Some (Z.of_nat (S k))
          end)
  /\ fold_right Z.add 0
       (map snd (node_types (get_graph_statistics tenant_id vertical)))
     = Z.of_nat (total_nodes (get_graph_statistics tenant_id vertical))
  /\ fold_right Z.add 0
       (map snd (edge_types (get_graph_statistics tenant_id vertical)))
     = Z.of_nat (total_edges (get_graph_statistics tenant_id vertical))
  /\ (forall other_tenant,
        get_graph_statistics other_tenant vertical
        = get_graph_statistics tenant_id vertical).
Proof.
  unfold get_graph_statistics, count_types.
  cbn [total_nodes total_edges node_types edge_types].
  split; [reflexivity|]. split; [reflexivity|]. split; [|split; [|split; [|split]]].
  - intros ty. rewrite count_step_get. cbn [Dict.get].
    destruct (count_occ _ _ _); [reflexivity | f_equal].
  - intros ty. rewrite count_step_get. cbn [Dict.get].
    destruct (count_occ _ _ _); [reflexivity | f_equal].
  - rewrite count_step_sum, length_map. reflexivity.
  - rewrite count_step_sum, length_map. reflexivity.
  - reflexivity.
Qed.

(** The marketing graph: two of its five nodes are leads. *)
Example statistics_of_the_marketing_graph :
  Dict.get "lead" (node_types (get_graph_statistics 1 (Some "marketing_agency")))
  = Some 2
  /\ total_nodes (get_graph_statistics 1 (Some "marketing_agency")) = 5%nat
  /\ total_edges (get_graph_statistics 1 (Some "marketing_agency")) = 4%nat.
Proof. repeat split. Qed.

End GraphFacts.

(** ** Choosing a forecast *)

Module ForecastFacts.

Import ForecastingService.

Section Service.

Variable isoformat : datetime -> string.
Variable py_round : float -> Z -> float.
Variable rnd : nat -> float.
Variable utcnow : nat -> datetime.
Variable prophet_available : bool.
Variable _prepare_dataframe : list KPIValue.t -> result (list KPIValue.t).
Variable prophet_forecast :
  list KPIValue.t -> KPIDefinition.t -> Z -> result MockForecastingService.forecast.
Variable trend_forecast :
  list KPIValue.t -> KPIDefinition.t -> Z -> result MockForecastingService.forecast.

Variable _combine_forecasts : list prediction -> Z -> result document.
Variable ensemble_snapshot : KPIDefinition.t -> nat -> Z -> list string -> document.

(** X27: the ensemble forecast never returns.  Every call of
    [generate_ensemble_forecast] ends in an exception: whatever the
    component forecasts are and however they are combined, the prediction
    is built from [f.get("model_name", "unknown")] of each component, and
    there are always two components at least, the trend forecast and the
    mock forecast.  So a forecast request with the method ["ensemble"] is
    answered with an error, and the store stays as it was. *)
Theorem ensemble_forecast_never_returns (kpi_values : list KPIValue.t)
    (kpi_definition : KPIDefinition.t) (forecast_days : Z) :
  (exists e,
     generate_ensemble_forecast isoformat py_round rnd utcnow _prepare_dataframe
       prophet_forecast trend_forecast _combine_forecasts ensemble_snapshot
       kpi_values kpi_definition forecast_days = Raise e)
  /\ forall (verify_tenant_access : User.t -> Api.guard_arg -> bool)
            (render : prediction -> MockForecastingService.forecast)
            (other_method :
               list KPIValue.t -> KPIDefinition.t -> Z ->
               result MockForecastingService.forecast)
            (now : datetime) (db : DB) (user : User.t) (x_tenant_id : string)
            (kpi_id : Z),
       exists status_code detail,
         Api.run_forecast verify_tenant_access other_method
           (fun vs kd days =>
              let? p := generate_ensemble_forecast isoformat py_round rnd utcnow
                          _prepare_dataframe prophet_forecast trend_forecast
                          _combine_forecasts ensemble_snapshot vs kd days in
              Ok (render p))
           now db user x_tenant_id
           {| Api.fr_kpi_id := kpi_id; Api.fr_forecast_days := forecast_days;
              Api.fr_method := "ensemble" |}
         = (HTTPException status_code detail, db).
Proof.
  assert (E : forall vs kd days,
            exists e,
              generate_ensemble_forecast isoformat py_round rnd utcnow
                _prepare_dataframe prophet_forecast trend_forecast
                _combine_forecasts ensemble_snapshot vs kd days = Raise e).
  { intros vs kd days. unfold generate_ensemble_forecast.
    destruct (7 <=? length vs)%nat.
    - destruct (_prepare_dataframe vs) as [df|e]; cbn [bind]; [|now eexists].
      destruct (_forecast_with_trend_analysis _ _ _ _ _ _ _ _); cbn [bind];
        [|now eexists].
      destruct (_combine_forecasts _ _); cbn [bind app]; now eexists.
    - cbn [bind].
      destruct (_prepare_dataframe vs) as [df|e]; cbn [bind]; [|now eexists].
      destruct (_forecast_with_trend_analysis _ _ _ _ _ _ _ _); cbn [bind];
        [|now eexists].
      destruct (_combine_forecasts _ _); cbn [bind app]; now eexists. }
  split; [apply E|].
  intros verify render other now db user x_tenant_id kpi_id.
  unfold Api.run_forecast.
  destruct (negb (verify user _)); [now do 2 eexists|].
  destruct (Py.int x_tenant_id) as [t|]; [|now do 2 eexists].
  cbn [Api.fr_kpi_id Api.fr_method Api.fr_forecast_days].
  destruct (Store.first _ (kpi_definitions db)) as [kpi|]; [|now do 2 eexists].
  cbn [String.eqb Ascii.eqb Bool.eqb andb].
  match goal with
  | |- context [generate_ensemble_forecast ?a1 ?a2 ?a3 ?a4 ?a5 ?a6 ?a7 ?a8 ?a9
                  ?vs ?kd ?days] =>
      destruct (E vs kd days) as [e ->]
  end.
  cbn [bind]. now do 2 eexists.
Qed.

End Service.

(** An ensemble forecast asked for KPI 1 of tenant 1 on the sample store. *)
Example ensemble_request_on_the_sample :
  Api.run_forecast Api.verify_tenant_access (Sample.forecast "trend_analysis")
    (fun vs kd days =>
       let? p := generate_ensemble_forecast Sample.isoformat Sample.py_round
                   Sample.rnd (fun _ => 1000) (fun vs => Ok vs)
                   (fun _ _ _ => Raise "No module named 'prophet'")
                   (Sample.forecast "trend_analysis_forecast")
                   (fun _ _ => Ok "{}") (fun _ _ _ _ => "{}") vs kd days in
       Ok (Sample.forecast_of p))
    50 Sample.db (Sample.user 1 1) "1"
    {| Api.fr_kpi_id := 1; Api.fr_forecast_days := 30; Api.fr_method := "ensemble" |}
  = (HTTPException 500 "Internal Server Error", Sample.db).
Proof. reflexivity. Qed.

End ForecastFacts.

(** ** The KPI engine on the mapped classes *)

Module KPIFacts.

Import MockKPIEngine.

Section Engine.

Variable py_round : float -> Z -> float.

(** C5, on the code: [calculate_kpi] produces no KPI value.  Its first
    statement reads [kpi_definition.vertical], an attribute the class
    [KPIDefinition] does not have, so every call raises [AttributeError],
    whatever the definition, the records and the window; and the
    evaluation route, which catches the exception, answers every request
    with an error and saves nothing. *)
Theorem calculate_kpi_raises (now : datetime) (r : float)
    (kpi_definition : KPIDefinition.t) (records : list NormalizedRecord.t)
    (start_date end_date : option datetime) :
  Mapped.KPIEngine.calculate_kpi py_round now r kpi_definition records
    start_date end_date
  = Raise "'KPIDefinition' object has no attribute 'vertical'"
  /\ forall (verify_tenant_access : User.t -> Api.guard_arg -> bool) (db : DB)
            (user : User.t) (x_tenant_id : string) (kpi_id : Z)
            (request : Api.EvaluateRequest),
       (exists status_code detail,
          Mapped.Routes.evaluate_kpi verify_tenant_access py_round now r db user
            x_tenant_id kpi_id request
          = (HTTPException status_code detail, db))
       /\ forall t kpi,
            verify_tenant_access user (Api.StrArg x_tenant_id) = true ->
            Py.int x_tenant_id = Some t ->
            Store.first (Api.kpi_of kpi_id t) (kpi_definitions db) = Some kpi ->
            Mapped.Routes.evaluate_kpi verify_tenant_access py_round now r db user
              x_tenant_id kpi_id request
            = (HTTPException 500
                 "KPI evaluation failed: 'KPIDefinition' object has no attribute 'vertical'",
               db).
Proof.
  split; [reflexivity|].
  intros verify db user x_tenant_id kpi_id request.
  unfold Mapped.Routes.evaluate_kpi. split.
  - destruct (negb (verify user _)); [now do 2 eexists|].
    destruct (Py.int x_tenant_id) as [t|]; [|now do 2 eexists].
    cbn [Orm.class_attrs Orm.class_attr Orm.hasattr Py.mem existsb bind].
    destruct (Store.first _ (kpi_definitions db)); now do 2 eexists.
  - intros t kpi Hg Hi Hf. now rewrite Hg, Hi, Hf.
Qed.

(** C6, on the code: the fallback is never reached.  For a KPI definition
    whose vertical and normalized name have no entry in the formula table,
    [calculate_kpi] returns no KPI value: it raises on its first statement,
    before the table is looked at, although the generator it would fall
    back on does make a number, a variation of at most a fifth around the
    base value of the KPI, or around 50 without one. *)
Theorem missing_formula_raises (now : datetime) (r : float)
    (kpi_definition : KPIDefinition.t) (records : list NormalizedRecord.t)
    (start_date end_date : option datetime) :
  get2 (KPIDefinition.vertical kpi_definition)
       (AlertEngine.normalized_name (KPIDefinition.name kpi_definition))
       kpi_formulas = None ->
  (forall kpi_value,
     Mapped.KPIEngine.calculate_kpi py_round now r kpi_definition records
       start_date end_date <> Ok kpi_value)
  /\ Orm.hasattr Models.KPIDefinition "vertical" = false
  /\ _generate_mock_kpi_value py_round r
       (AlertEngine.normalized_name (KPIDefinition.name kpi_definition))
       (KPIDefinition.vertical kpi_definition)
     = py_round
         (match get2 (KPIDefinition.vertical kpi_definition)
                  (AlertEngine.normalized_name (KPIDefinition.name kpi_definition))
                  base_values with
          | Some b => b
          | None => 50
          end * (1 + Py.uniform r (-0.2) 0.2))%float 2.
Proof.
  intros _. split; [intros kpi_value H; discriminate H|].
  split; reflexivity.
Qed.

End Engine.

(** A KPI named Customer Churn, which no vertical of the formula table
    has, with no record and no window. *)
Lemma missing_formula_raises_witness :
  get2 "marketing_agency" "customer_churn" kpi_formulas = None
  /\ Mapped.KPIEngine.calculate_kpi Sample.py_round 100 0.25 Sample.unlisted_kpi
       [] None None
     = Raise "'KPIDefinition' object has no attribute 'vertical'".
Proof.
  split; [reflexivity|].
  destruct (missing_formula_raises Sample.py_round 100 0.25 Sample.unlisted_kpi
              [] None None eq_refl) as [H _].
  destruct (Mapped.KPIEngine.calculate_kpi Sample.py_round 100 0.25
              Sample.unlisted_kpi [] None None) as [v|e] eqn:E.
  - now elim (H v).
  - vm_compute in E. now injection E as <-.
Defined.

(** KPI 1 of tenant 1, evaluated by its owner on the sample store. *)
Example evaluation_on_the_sample :
  Mapped.Routes.evaluate_kpi Api.verify_tenant_access Sample.py_round 100 0.25
    Sample.db (Sample.user 1 1) "1" 1
    {| Api.start_date := None; Api.end_date := None |}
  = (HTTPException 500
       "KPI evaluation failed: 'KPIDefinition' object has no attribute 'vertical'",
     Sample.db).
Proof. reflexivity. Qed.

End KPIFacts.

(** ** Raw ingestion and normalization on the mapped classes *)

Module IngestFacts.

Import CSVConnectorService.

Section Service.

Variable verify_tenant_access : User.t -> Api.guard_arg -> bool.
Variable isoformat : datetime -> string.
Variable decode : string -> list Byte.byte -> result string.
Variable DictReader : string -> string -> result (list reader_row).
Variable empty_suggestions : document.
Variable suggest_field_mapping : string -> string -> Row -> result document.
Variable repr_row : Row -> string.
Variable str_HTTPException : Z -> string -> string.
Variable py_float : string -> option float.
Variable fromisoformat : string -> option datetime.

(** [process_csv_upload] fails whatever it is given: with the error of the
    parser, or with the one of the constructor. *)
Lemma process_csv_upload_fails (file_content : list Byte.byte)
    (connector : Connector.t) (tenant_id : Z) (now : datetime) :
  Mapped.CSVConnector.process_csv_upload decode DictReader empty_suggestions
    suggest_field_mapping repr_row isoformat file_content connector tenant_id now
  = UploadFailed
      match _parse_csv_content decode DictReader file_content
              (Connector.config_json connector) with
      | Raise e => e
      | Ok _ => "'payload_json' is an invalid keyword argument for RawIngest"
      end.
Proof.
  unfold Mapped.CSVConnector.process_csv_upload.
  cbn [Orm.getattr Orm.hasattr Models.Connector Orm.attributes Py.mem existsb
       String.eqb Ascii.eqb Bool.eqb orb bind].
  destruct (_parse_csv_content decode DictReader file_content
              (Connector.config_json connector)); reflexivity.
Qed.

(** C4, on the code: no upload stores a row.  Every request to
    [upload_csv] is answered with an error and leaves the store as it was:
    the payload that does not parse, the payload over 10 MB, which no
    statement of the route measures, and the payload that parses as well.
    For that last one the service fails in [_store_raw_data], whose
    constructor call names [payload_json] where the class [RawIngest] has
    [raw_data], and the route answers 500. *)
Theorem upload_csv_stores_nothing (now : datetime) (db : DB) (user : User.t)
    (x_tenant_id : string) (connector_id : Z) (filename : string)
    (file_content : list Byte.byte) :
  (exists status_code detail,
     Mapped.Routes.upload_csv verify_tenant_access isoformat decode DictReader
       empty_suggestions suggest_field_mapping repr_row str_HTTPException
       now db user x_tenant_id connector_id filename file_content
     = (HTTPException status_code detail, db))
  /\ forall (t : Z) (connector : Connector.t) (csv_data : list Row),
       verify_tenant_access user (Api.StrArg x_tenant_id) = true ->
       Py.int x_tenant_id = Some t ->
       Store.first (Api.connector_of connector_id t) (connectors db)
       = Some connector ->
       Connector.type connector = "csv" ->
       _parse_csv_content decode DictReader file_content
         (Connector.config_json connector) = Ok csv_data ->
       Mapped.Routes.upload_csv verify_tenant_access isoformat decode DictReader
         empty_suggestions suggest_field_mapping repr_row str_HTTPException
         now db user x_tenant_id connector_id filename file_content
       = (HTTPException 500
            ("CSV upload failed: "
             ++ str_HTTPException 400
                  "'payload_json' is an invalid keyword argument for RawIngest"),
          db).
Proof.
  unfold Mapped.Routes.upload_csv. split.
  - destruct (negb (verify_tenant_access user _)); [now do 2 eexists|].
    destruct (Py.int x_tenant_id) as [t|]; [|now do 2 eexists].
    cbn [Orm.class_attrs Orm.class_attr Orm.hasattr Models.Connector
         Orm.attributes Py.mem existsb String.eqb Ascii.eqb Bool.eqb orb bind].
    destruct (Store.first _ (connectors db)) as [connector|]; [|now do 2 eexists].
    cbn [Orm.getattr Orm.hasattr Models.Connector Orm.attributes Py.mem existsb
         String.eqb Ascii.eqb Bool.eqb orb].
    destruct (negb (String.eqb (Connector.type connector) "csv"));
      [now do 2 eexists|].
    rewrite process_csv_upload_fails. now do 2 eexists.
  - intros t connector csv_data Hg Hi Hf Ht Hp.
    rewrite Hg, Hi. cbn [negb].
    cbn [Orm.class_attrs Orm.class_attr Orm.hasattr Models.Connector
         Orm.attributes Py.mem existsb String.eqb Ascii.eqb Bool.eqb orb bind].
    rewrite Hf.
    cbn [Orm.getattr Orm.hasattr Models.Connector Orm.attributes Py.mem existsb
         String.eqb Ascii.eqb Bool.eqb orb].
    rewrite Ht. cbn [String.eqb Ascii.eqb Bool.eqb negb andb].
    rewrite process_csv_upload_fails, Hp. reflexivity.
Qed.

(** C9, on the code: [normalize_csv_data] returns no record.  Its first
    statement reads [raw_ingest.payload_json], which no [RawIngest] has,
    and raises; the loop behind it would raise at its first row, in the
    constructor of [NormalizedRecord].  The transformation of a field is
    as the claim has it: in the dictionary [_apply_field_mappings] makes
    of a row, a value whose date or number parse fails stands under its
    target field as the string it came as. *)
Theorem normalize_csv_data_raises (raw_ingest : RawIngest.t)
    (mapping_config : CSVConnectorService.mapping_config) (tenant_id : Z) :
  Mapped.CSVConnector.normalize_csv_data py_float fromisoformat isoformat
    raw_ingest mapping_config tenant_id
  = Raise "'RawIngest' object has no attribute 'payload_json'"
  /\ (forall (mappings : Dict.t string) (i : nat) (row : Row) (rest : list Row),
        Mapped.CSVConnector.normalize_rows py_float fromisoformat isoformat
          raw_ingest mappings tenant_id i (row :: rest)
        = Raise "'canonical_json' is an invalid keyword argument for NormalizedRecord")
  /\ (forall (row : Row) (before after : Dict.t string) (src tgt value : string),
        Forall (fun st => snd st <> tgt) after ->
        Dict.get src row = Some value ->
        TransformSpec.fails py_float fromisoformat value tgt = true ->
        Dict.get tgt (_apply_field_mappings py_float fromisoformat isoformat row
                        (before ++ (src, tgt) :: after)%list)
        = Some (PStr value)).
Proof.
  split; [reflexivity|]. split; [reflexivity|].
  intros row before after src tgt value Ha Hs Hf.
  rewrite (CSVFacts.mapped_field py_float fromisoformat isoformat row before after
             src tgt value Ha Hs).
  now rewrite CSVFacts.failed_transformation_keeps_value.
Qed.

End Service.

(** The three-line sample, uploaded to the CSV connector of tenant 1 by
    its owner: the text parses into two rows, and the route answers 500
    with the store as it was. *)
Lemma upload_csv_stores_nothing_witness :
  _parse_csv_content Sample.decode Sample.DictReader Sample.csv_bytes
    Sample.csv_config
  = Ok [[("email", "a@x.io"); ("company", "Acme")];
        [("email", "b@y.io"); ("company", "Bolt")]]
  /\ Mapped.Routes.upload_csv Api.verify_tenant_access Sample.isoformat
       Sample.decode Sample.DictReader EmptyString Sample.suggest_field_mapping
       Sample.repr_row Sample.str_HTTPException 60 Sample.db (Sample.user 1 1)
       "1" 1 "leads.csv" Sample.csv_bytes
     = (HTTPException 500
          ("CSV upload failed: "
           ++ Sample.str_HTTPException 400
                "'payload_json' is an invalid keyword argument for RawIngest"),
        Sample.db).
Proof.
  split; [reflexivity|].
  apply (proj2 (upload_csv_stores_nothing Api.verify_tenant_access
                  Sample.isoformat Sample.decode Sample.DictReader EmptyString
                  Sample.suggest_field_mapping Sample.repr_row
                  Sample.str_HTTPException 60 Sample.db (Sample.user 1 1) "1" 1
                  "leads.csv" Sample.csv_bytes)
           1 (Sample.connector 1 1 "csv")
           [[("email", "a@x.io"); ("company", "Acme")];
            [("email", "b@y.io"); ("company", "Bolt")]]);
    reflexivity.
Defined.

(** A raw ingest of two rows, one of them with a date and a number that
    do not parse, under three mappings. *)
Example normalization_of_the_sample :
  Mapped.CSVConnector.normalize_csv_data Sample.py_float Sample.fromisoformat
    Sample.isoformat Sample.ingest Sample.mapping 7
  = Raise "'RawIngest' object has no attribute 'payload_json'"
  /\ _apply_field_mappings Sample.py_float Sample.fromisoformat Sample.isoformat
       [("Email", "bob@example.com"); ("when", "not a date"); ("spend", "n/a")]
       [("Email", "email"); ("when", "created_date"); ("spend", "cost")]
     = [("email", PStr "bob@example.com"); ("created_date", PStr "not a date");
        ("cost", PStr "n/a")].
Proof. split; vm_compute; reflexivity. Qed.

End IngestFacts.

(** ** Acknowledging and resolving on the mapped class *)

Module AlertStateFacts.

(** A commit after [set_acknowledged] writes [acknowledged_at] and nothing
    else: [acknowledged] and [acknowledged_by] are no columns of [Alert]. *)
Lemma flush_set_acknowledged (acknowledged : bool) (user_id : Z)
    (now : datetime) (a : Alert.t) :
  Mapped.Routes.flush_alert a (Api.set_acknowledged acknowledged user_id now a)
  = {| Alert.id := Alert.id a; Alert.tenant_id := Alert.tenant_id a;
       Alert.kpi_id := Alert.kpi_id a; Alert.rule_json := Alert.rule_json a;
       Alert.severity := Alert.severity a; Alert.status := Alert.status a;
       Alert.triggered_at := Alert.triggered_at a;
       Alert.resolved_at := Alert.resolved_at a;
       Alert.details := Alert.details a;
       Alert.acknowledged := Alert.acknowledged a;
       Alert.acknowledged_by := Alert.acknowledged_by a;
       Alert.acknowledged_at :=
         if acknowledged then Some now else Alert.acknowledged_at a |}.
Proof. reflexivity. Qed.




Section Routes.

Variable verify_tenant_access : User.t -> Api.guard_arg -> bool.


End Routes.


(** The stored alert after the two requests, and after resolving at 80. *)
Example stored_alert_after_unacknowledging :
  let db1 := snd (Mapped.Routes.acknowledge_alert Api.verify_tenant_access 60
                    Sample.db (Sample.user 1 1) "1" 1 true) in
  let db2 := snd (Mapped.Routes.acknowledge_alert Api.verify_tenant_access 70
                    db1 (Sample.user 1 1) "1" 1 false) in
  let db3 := snd (Mapped.Routes.resolve_alert Api.verify_tenant_access 80
                    db2 (Sample.user 1 1) "1" 1) in
  option_map Alert.acknowledged_at (Store.first (Api.alert_of 1 1) (alerts db2))
  = Some (Some 60)
  /\ option_map Alert.resolved_at (Store.first (Api.alert_of 1 1) (alerts db2))
     = Some None
  /\ option_map Alert.resolved_at (Store.first (Api.alert_of 1 1) (alerts db3))
     = Some (Some 80).
Proof. repeat split; vm_compute; reflexivity. Qed.

End AlertStateFacts.

(** ** The mock alerts on the mapped class *)

Module MockAlertFacts.

Section Engine.

Variable isoformat : datetime -> string.

(** The engine builds no alert: the first rule whose draw is below 0.3
    ends the call in the constructor, and without such a rule the list is
    empty. *)
Lemma mock_alerts_from_triggered (rnd : nat -> float) (now : datetime)
    (tenant_id : Z) (rules : list Alert.rule) :
  forall n,
    Mapped.Alerts.mock_alerts_from isoformat rnd now tenant_id rules n
    = if existsb (fun i => PrimFloat.ltb (rnd i) 0.3%float) (seq n (length rules))
      then Raise "'rule_json' is an invalid keyword argument for Alert"
      else Ok [].
Proof.
  induction rules as [|rule rest IH]; intros n; [reflexivity|].
  cbn [Mapped.Alerts.mock_alerts_from length seq existsb].
  destruct (PrimFloat.ltb (rnd n) 0.3%float); [reflexivity|].
  cbn [orb]. apply IH.
Qed.

Variable verify_tenant_access : User.t -> Api.guard_arg -> bool.

(** X2: the mock-alert route stores no alert.  For a caller who passes
    the guard it answers success with 0 alerts when the vertical has no
    rules or every draw for a rule reaches 0.3; as soon as the draw for
    one rule is below 0.3, the constructor of [Alert] refuses the keyword
    [rule_json] and the route answers 500.  The store is as it was after
    every request. *)
Theorem mock_alert_route_stores_nothing (rnd : nat -> float) (now : datetime)
    (db : DB) (user : User.t) (x_tenant_id vertical : string) :
  snd (Mapped.Routes.generate_mock_alerts verify_tenant_access isoformat rnd now
         db user x_tenant_id vertical) = db
  /\ forall t,
       verify_tenant_access user (Api.StrArg x_tenant_id) = true ->
       Py.int x_tenant_id = Some t ->
       fst (Mapped.Routes.generate_mock_alerts verify_tenant_access isoformat rnd
              now db user x_tenant_id vertical)
       = if existsb (fun i => PrimFloat.ltb (rnd i) 0.3%float)
              (seq 0 (length match Dict.get vertical AlertEngine.alert_rules with
                              | Some rules => rules
                              | None => []
                              end))
         then HTTPException 500
                "Failed to generate mock alerts: 'rule_json' is an invalid keyword argument for Alert"
         else Return ({| Api.success := true;
                         Api.text := "Generated 0 mock alerts" |}, 0%nat).
Proof.
  unfold Mapped.Routes.generate_mock_alerts, Mapped.Alerts.generate_mock_alerts.
  split.
  - destruct (negb (verify_tenant_access user _)); [reflexivity|].
    destruct (Py.int x_tenant_id) as [t|]; [|reflexivity].
    rewrite mock_alerts_from_triggered.
    destruct (existsb _ _); reflexivity.
  - intros t Hg Hi. rewrite Hg, Hi. cbn [negb].
    rewrite mock_alerts_from_triggered.
    destruct (existsb _ _); reflexivity.
Qed.

End Engine.

(** On the sample store every draw is 0.25, and the route fails for the
    marketing vertical; for a vertical without rules it reports no
    alert. *)
Lemma mock_alert_route_stores_nothing_witness :
  Mapped.Routes.generate_mock_alerts Api.verify_tenant_access Sample.isoformat
    Sample.rnd 60 Sample.db (Sample.user 1 1) "1" "marketing_agency"
  = (HTTPException 500
       "Failed to generate mock alerts: 'rule_json' is an invalid keyword argument for Alert",
     Sample.db)
  /\ Mapped.Routes.generate_mock_alerts Api.verify_tenant_access Sample.isoformat
       Sample.rnd 60 Sample.db (Sample.user 1 1) "1" "retail"
     = (Return ({| Api.success := true; Api.text := "Generated 0 mock alerts" |},
                0%nat),
        Sample.db).
Proof.
  split.
  - destruct (mock_alert_route_stores_nothing Sample.isoformat
                Api.verify_tenant_access Sample.rnd 60 Sample.db (Sample.user 1 1)
                "1" "marketing_agency") as [Hs Hf].
    specialize (Hf 1 eq_refl eq_refl).
    destruct (Mapped.Routes.generate_mock_alerts _ _ _ _ _ _ _ _) as [answer db'].
    cbn [fst snd] in Hs, Hf. rewrite Hs, Hf. reflexivity.
  - destruct (mock_alert_route_stores_nothing Sample.isoformat
                Api.verify_tenant_access Sample.rnd 60 Sample.db (Sample.user 1 1)
                "1" "retail") as [Hs Hf].
    specialize (Hf 1 eq_refl eq_refl).
    destruct (Mapped.Routes.generate_mock_alerts _ _ _ _ _ _ _ _) as [answer db'].
    cbn [fst snd] in Hs, Hf. rewrite Hs, Hf. reflexivity.
Defined.

End MockAlertFacts.

(** ** The connector routes on the mapped classes *)

Module ConnectorRouteFacts.

(** No response can be built for a connector: [last_sync_at] is no
    attribute of [Connector]. *)
Lemma connector_response_raises (connector : Connector.t) :
  Mapped.Routes.connector_response connector
  = Raise "'Connector' object has no attribute 'last_sync_at'".
Proof. reflexivity. Qed.

Lemma connector_responses_raise (connector : Connector.t)
    (rest : list Connector.t) :
  Mapped.Routes.connector_responses (connector :: rest)
  = Raise "'Connector' object has no attribute 'last_sync_at'".
Proof. reflexivity. Qed.

Section Routes.

Variable verify_tenant_access : User.t -> Api.guard_arg -> bool.
Variable isoformat : datetime -> string.
Variable mock_records : string -> list Row.

(** X14: a connector is created but never shown.  For a caller who passes
    the guard, [create_connector] commits one new row, of the asserted
    tenant, with a fresh id and the type and configuration of the request,
    and then answers 500, because the response reads [last_sync_at] where
    the class has [last_sync].  [list_connectors] answers the empty list
    for a tenant without connectors and 500 for every other tenant, so
    also for this tenant from then on. *)
Theorem created_connector_is_never_shown (now : datetime) (db : DB)
    (user : User.t) (x_tenant_id : string) (t : Z)
    (connector : Api.ConnectorCreate) :
  verify_tenant_access user (Api.StrArg x_tenant_id) = true ->
  Py.int x_tenant_id = Some t ->
  (exists row,
     Mapped.Routes.create_connector verify_tenant_access now db user x_tenant_id
       connector
     = (HTTPException 500 "Internal Server Error",
        Store.set_connectors db (connectors db ++ [row])%list)
     /\ Connector.tenant_id row = t
     /\ Connector.type row = Api.cc_type connector
     /\ Connector.config_json row = Api.cc_config_json connector
     /\ ~ In (Connector.id row) (map Connector.id (connectors db))
     /\ Mapped.Routes.list_connectors verify_tenant_access
          (Store.set_connectors db (connectors db ++ [row])%list) user x_tenant_id
        = (HTTPException 500 "Internal Server Error",
           Store.set_connectors db (connectors db ++ [row])%list))
  /\ Mapped.Routes.list_connectors verify_tenant_access db user x_tenant_id
     = (match filter (fun c => Connector.tenant_id c =? t) (connectors db) with
        | [] => Return []
        | _ :: _ => HTTPException 500 "Internal Server Error"
        end, db).
Proof.
  intros Hg Hi.
  assert (L : forall d,
             Mapped.Routes.list_connectors verify_tenant_access d user x_tenant_id
             = (match filter (fun c => Connector.tenant_id c =? t) (connectors d) with
                | [] => Return []
                | _ :: _ => HTTPException 500 "Internal Server Error"
                end, d)).
  { intros d. unfold Mapped.Routes.list_connectors. rewrite Hg, Hi. cbn [negb].
    cbn [Orm.class_attrs Orm.class_attr Orm.hasattr Models.Connector
         Orm.attributes Py.mem existsb String.eqb Ascii.eqb Bool.eqb orb bind].
    destruct (filter _ (connectors d)) as [|c rest]; [reflexivity|].
    now rewrite connector_responses_raise. }
  split; [|apply L].
  unfold Mapped.Routes.create_connector. rewrite Hg, Hi. cbn [negb].
  cbn [Orm.construct Orm.check_keywords Orm.hasattr Models.Connector
       Orm.attributes Py.mem existsb String.eqb Ascii.eqb Bool.eqb orb bind].
  unfold Store.add_connector. rewrite connector_response_raises.
  eexists. split; [reflexivity|].
  cbn [Connector.tenant_id Connector.type Connector.config_json Connector.id].
  split; [reflexivity|]. split; [reflexivity|]. split; [reflexivity|].
  split; [apply LoginFacts.next_id_fresh|].
  rewrite L. cbn [connectors Store.set_connectors].
  rewrite filter_app. cbn [filter Connector.tenant_id]. rewrite Z.eqb_refl.
  destruct (filter _ (connectors db)); reflexivity.
Qed.

(** X16: a sync stores nothing.  Whatever the request, the store is as it
    was after [sync_connector].  For a caller who passes the guard and a
    connector of the caller's tenant, the answer reports success with 0
    records for the type csv, a failed sync for hubspot and google_ads,
    where the first [RawIngest] the service builds is refused by the
    constructor, and an unsupported type for every other type. *)
Theorem sync_stores_nothing (now : datetime) (db : DB) (user : User.t)
    (x_tenant_id : string) (connector_id : Z) :
  snd (Mapped.Routes.sync_connector verify_tenant_access isoformat mock_records
         now db user x_tenant_id connector_id) = db
  /\ forall t connector,
       verify_tenant_access user (Api.StrArg x_tenant_id) = true ->
       Py.int x_tenant_id = Some t ->
       Store.first (Api.connector_of connector_id t) (connectors db)
       = Some connector ->
       fst (Mapped.Routes.sync_connector verify_tenant_access isoformat
              mock_records now db user x_tenant_id connector_id)
       = Return
           (if String.eqb (Connector.type connector) "csv" then
              {| Api.sync_success := true; Api.records_ingested := 0;
                 Api.sync_message := "CSV sync requires file upload" |}
            else if Py.mem (Connector.type connector) ["hubspot"; "google_ads"] then
              {| Api.sync_success := false; Api.records_ingested := 0;
                 Api.sync_message :=
                   "Sync failed: 'payload_json' is an invalid keyword argument for RawIngest" |}
            else
              {| Api.sync_success := false; Api.records_ingested := 0;
                 Api.sync_message := "Unsupported connector type" |}).
Proof.
  unfold Mapped.Routes.sync_connector. split.
  - destruct (negb (verify_tenant_access user _)); [reflexivity|].
    destruct (Py.int x_tenant_id) as [t|]; [|reflexivity].
    cbn [Orm.class_attrs Orm.class_attr Orm.hasattr Models.Connector
         Orm.attributes Py.mem existsb String.eqb Ascii.eqb Bool.eqb orb bind].
    destruct (Store.first _ (connectors db)) as [connector|]; [|reflexivity].
    cbn [Orm.getattr Orm.hasattr Models.Connector Orm.attributes Py.mem existsb
         String.eqb Ascii.eqb Bool.eqb orb].
    destruct (String.eqb (Connector.type connector) "csv"); [reflexivity|].
    unfold Mapped.LiveConnectors.sync_connector.
    cbn [Orm.getattr Orm.hasattr Models.Connector Orm.attributes Py.mem existsb
         String.eqb Ascii.eqb Bool.eqb orb bind].
    destruct (String.eqb (Connector.type connector) "hubspot"); [reflexivity|].
    destruct (String.eqb (Connector.type connector) "google_ads"); reflexivity.
  - intros t connector Hg Hi Hf. rewrite Hg, Hi. cbn [negb].
    cbn [Orm.class_attrs Orm.class_attr Orm.hasattr Models.Connector
         Orm.attributes Py.mem existsb String.eqb Ascii.eqb Bool.eqb orb bind].
    rewrite Hf.
    cbn [Orm.getattr Orm.hasattr Models.Connector Orm.attributes Py.mem existsb
         String.eqb Ascii.eqb Bool.eqb orb].
    destruct (String.eqb (Connector.type connector) "csv"); [reflexivity|].
    unfold Mapped.LiveConnectors.sync_connector.
    cbn [Orm.getattr Orm.hasattr Models.Connector Orm.attributes Py.mem existsb
         String.eqb Ascii.eqb Bool.eqb orb bind].
    destruct (String.eqb (Connector.type connector) "hubspot"); [reflexivity|].
    destruct (String.eqb (Connector.type connector) "google_ads"); reflexivity.
Qed.

End Routes.

(** A Google Ads connector for tenant 1 of the sample store: the row is
    there afterwards, with id 3, and the list of the tenant fails. *)
Lemma created_connector_is_never_shown_witness :
  exists row,
    Mapped.Routes.create_connector Api.verify_tenant_access 60 Sample.db
      (Sample.user 1 1) "1"
      {| Api.cc_type := "google_ads"; Api.cc_credentials_encrypted := None;
         Api.cc_config_json := Sample.csv_config |}
    = (HTTPException 500 "Internal Server Error",
       Store.set_connectors Sample.db (connectors Sample.db ++ [row])%list)
    /\ Connector.tenant_id row = 1
    /\ Connector.type row = "google_ads".
Proof.
  destruct (created_connector_is_never_shown Api.verify_tenant_access 60
              Sample.db (Sample.user 1 1) "1" 1
              {| Api.cc_type := "google_ads"; Api.cc_credentials_encrypted := None;
                 Api.cc_config_json := Sample.csv_config |} eq_refl eq_refl)
    as [[row [H1 [H2 [H3 _]]]] _].
  exists row. split; [exact H1|]. split; [exact H2 | exact H3].
Defined.

(** The HubSpot connector of tenant 2, synced by its owner. *)
Lemma sync_stores_nothing_witness :
  Mapped.Routes.sync_connector Api.verify_tenant_access Sample.isoformat
    Sample.mock_records 60 Sample.db (Sample.user 2 2) "2" 2
  = (Return {| Api.sync_success := false; Api.records_ingested := 0;
               Api.sync_message :=
                 "Sync failed: 'payload_json' is an invalid keyword argument for RawIngest" |},
     Sample.db).
Proof.
  destruct (sync_stores_nothing Api.verify_tenant_access Sample.isoformat
              Sample.mock_records 60 Sample.db (Sample.user 2 2) "2" 2)
    as [Hs Hf].
  specialize (Hf 2 (Sample.connector 2 2 "hubspot") eq_refl eq_refl eq_refl).
  destruct (Mapped.Routes.sync_connector _ _ _ _ _ _ _ _) as [answer db'].
  cbn [fst snd] in Hs, Hf. rewrite Hs, Hf. reflexivity.
Defined.

End ConnectorRouteFacts.

(** ** The values of the formula path *)

Module FormulaFacts.

Import MockKPIEngine.

Lemma get2_In {V} (k1 k2 : string) (d : Dict.t (Dict.t V)) (v : V) :
  get2 k1 k2 d = Some v -> exists inner, In (k1, inner) d /\ In (k2, v) inner.
Proof.
  unfold get2. destruct (Dict.get k1 d) as [inner|] eqn:G; [|discriminate].
  intros H. exists inner.
  split; now apply DictFacts.get_In.
Qed.

(** No vertical has a base value under the name ["default"]. *)
Lemma no_default_base_value (vertical : string) :
  get2 vertical "default" base_values = None.
Proof.
  destruct (get2 vertical "default" base_values) as [b|] eqn:G; [|reflexivity].
  apply get2_In in G as [inner [Hv Hn]].
  simpl in Hv. destruct Hv as [Hv|[Hv|[Hv|[]]]]; injection Hv as _ <-;
    simpl in Hn;
    repeat (destruct Hn as [Hn|Hn];
            [apply (f_equal fst) in Hn; discriminate Hn|]);
    destruct Hn.
Qed.

Section Engine.

Variable py_round : float -> Z -> float.

(** X8: [_calculate_formula_value] never uses a KPI's own base value.
    For every entry of the formula table, whatever the records and the
    vertical it is called with, the value is drawn around 28.5 when the
    formula mentions a cost, around 35 when it mentions a wait and around
    50 otherwise: no formula of the table reaches the conversion, volume
    or ROI branch, and the default branch looks the base value up under
    the name ["default"], which no vertical has. *)
Theorem formula_values_use_three_bases (r : float) (table_vertical kpi_name : string)
    (config : formula_config) (records : list NormalizedRecord.t)
    (vertical : string) :
  get2 table_vertical kpi_name kpi_formulas = Some config ->
  exists base low high,
    In (base, low, high)
       [(28.5, -0.2, 0.2); (35, -0.3, 0.3); (50, -0.2, 0.2)]%float
    /\ _calculate_formula_value py_round r config records vertical
       = py_round (base * (1 + Py.uniform r low high))%float 2
    /\ (base = 28.5%float <-> Py.contains "cost" (Py.lower (formula config)) = true)
    /\ (base = 35%float <-> Py.contains "wait" (Py.lower (formula config)) = true).
Proof.
  intros G.
  assert (D : _generate_mock_kpi_value py_round r "default" vertical
              = py_round (50 * (1 + Py.uniform r (-0.2) 0.2))%float 2).
  { unfold _generate_mock_kpi_value. now rewrite no_default_base_value. }
  apply get2_In in G as [inner [Hv Hn]].
  simpl in Hv.
  destruct Hv as [Hv|[Hv|[Hv|[]]]]; injection Hv as _ <-;
    simpl in Hn; repeat (destruct Hn as [Hn|Hn]; [injection Hn as _ <-|]);
    try (destruct Hn);
    first
      [ exists 28.5%float, (-0.2)%float, 0.2%float;
        split; [simpl; tauto|];
        split; [reflexivity|];
        split; [split; reflexivity | split; intros E; vm_compute in E; discriminate E]
      | exists 35%float, (-0.3)%float, 0.3%float;
        split; [simpl; tauto|];
        split; [reflexivity|];
        split; [split; intros E; vm_compute in E; discriminate E | split; reflexivity]
      | exists 50%float, (-0.2)%float, 0.2%float;
        split; [simpl; tauto|];
        split; [exact D|];
        split; split; intros E; vm_compute in E; discriminate E ].
Qed.

End Engine.

(** Monthly revenue, whose base value is 45000, is drawn around 50 on the
    formula path. *)
Lemma formula_values_use_three_bases_witness :
  _calculate_formula_value Sample.py_round 0.5
    (mk_formula "sum(converted_leads * average_deal_size)"
       "Total monthly revenue from conversions" "currency" 50000)
    [] "marketing_agency"
  = 50%float.
Proof.
  destruct (formula_values_use_three_bases Sample.py_round 0.5
              "marketing_agency" "monthly_revenue"
              (mk_formula "sum(converted_leads * average_deal_size)"
                 "Total monthly revenue from conversions" "currency" 50000)
              [] "marketing_agency" eq_refl)
    as [base [low [high [_ [E _]]]]].
  vm_compute. reflexivity.
Defined.

End FormulaFacts.

(** ** The fields of a mapped row *)

Module MappingFacts.

Import CSVConnectorService.

Section Normalize.

Variable py_float : string -> option float.
Variable fromisoformat : string -> option datetime.
Variable isoformat : datetime -> string.

Lemma any_field_exists (fields : list string) (d : Dict.t pyval) :
  any_field fields d = true
  <-> exists field, In field fields /\ Dict.mem field d = true.
Proof.
  unfold any_field. rewrite existsb_exists. reflexivity.
Qed.

(** X5: mapping a row invents no field.  The dictionary
    [_apply_field_mappings] makes of a row has a field exactly when a
    mapping targets that field from a column the row has, and
    [_determine_entity_type] calls it a lead exactly when one of the
    fields email, lead_id and conversion is targeted so.  Without
    mappings the dictionary is empty and its type is ["record"]. *)
Theorem mapped_fields_come_from_mappings (row : Row) (mappings : Dict.t string) :
  (forall field,
     Dict.mem field
       (_apply_field_mappings py_float fromisoformat isoformat row mappings) = true
     <-> exists source, In (source, field) mappings /\ Dict.mem source row = true)
  /\ (_determine_entity_type
        (_apply_field_mappings py_float fromisoformat isoformat row mappings)
        mappings = "lead"
      <-> exists source field,
            In field ["email"; "lead_id"; "conversion"]
            /\ In (source, field) mappings /\ Dict.mem source row = true)
  /\ _apply_field_mappings py_float fromisoformat isoformat row [] = []
  /\ _determine_entity_type
       (_apply_field_mappings py_float fromisoformat isoformat row []) [] = "record".
Proof.
  split; [intros field; apply NormalizeFacts.apply_field_mappings_fields|].
  split; [|split; reflexivity].
  unfold _determine_entity_type.
  set (d := _apply_field_mappings py_float fromisoformat isoformat row mappings).
  destruct (any_field ["email"; "lead_id"; "conversion"] d) eqn:L.
  - split; [intros _ | reflexivity].
    apply any_field_exists in L as [field [Hin Hm]].
    apply NormalizeFacts.apply_field_mappings_fields in Hm as [source [Hs Hr]].
    now exists source, field.
  - split.
    + cbn iota.
      repeat match goal with
             | |- context [any_field ?fields d] =>
                 destruct (any_field fields d); [intros H; discriminate H|]
             end.
      intros H. discriminate H.
    + intros [source [field [Hin [Hs Hr]]]].
      assert (T : any_field ["email"; "lead_id"; "conversion"] d = true).
      { apply any_field_exists. exists field. split; [exact Hin|].
        apply NormalizeFacts.apply_field_mappings_fields. now exists source. }
      congruence.
Qed.

End Normalize.

(** The second row of the sample under its three mappings: a lead with
    the three targeted fields, and none under a mapping from a column the
    row does not have. *)
Example mapped_fields_of_the_sample :
  Dict.keys
    (_apply_field_mappings Sample.py_float Sample.fromisoformat Sample.isoformat
       [("Email", "bob@example.com"); ("when", "not a date"); ("spend", "n/a")]
       [("Email", "email"); ("when", "created_date"); ("spend", "cost")])
  = ["email"; "created_date"; "cost"]
  /\ _determine_entity_type
       (_apply_field_mappings Sample.py_float Sample.fromisoformat Sample.isoformat
          [("Email", "bob@example.com"); ("when", "not a date"); ("spend", "n/a")]
          [("Email", "email"); ("when", "created_date"); ("spend", "cost")])
       [("Email", "email"); ("when", "created_date"); ("spend", "cost")]
     = "lead"
  /\ _apply_field_mappings Sample.py_float Sample.fromisoformat Sample.isoformat
       [("Email", "bob@example.com")] [("phone", "phone")] = [].
Proof. repeat split; vm_compute; reflexivity. Qed.

End MappingFacts.
